(** * UnidBox Order Copilot: the order-intake pipeline

    A shallow embedding of the four modules that make up the order-intake
    core of the repository,

      - [backend/ai/intent_parser.py]         (module [IntentParser]),
      - [backend/ai/product_matcher.py]       (module [ProductMatcher]),
      - [backend/ai/order_extractor.py]       (module [OrderExtractor]),
      - [backend/whatsapp/message_handler.py] (module [MessageHandler]),

    with the built-ins of Python they use (modules [Py] and [Difflib]),
    followed by the properties of the specification, each proved or refuted
    on these definitions, and by further properties of the four modules.

    Modelling conventions.
      - A Python [str] is a [string]: a sequence of 8-bit characters.  The
        character classes ([lower], [isspace], [\d]) are the ASCII ones.
      - A Python [float] is a rational number [Q]: arithmetic is exact, and
        [round(x, 2)] is rounding of the exact value to the nearest
        hundredth, ties to the even hundredth (what Python does on the exact
        value of a float).  Equality of floats is [==] on [Q].
      - A Python [int] is a [Z].
      - A function that can raise returns a [Result]; a sequence of calls is
        written [x <- m ;; k] and [try/except] is [catch].
      - What [json.loads] returns is a [value]; a dataclass stores the
        values it is given without checking them.  The dictionaries passed
        from the parser and the matcher to the order extractor are read at
        the types the dataclasses declare.
      - Mutation of an object is explicit state passing; the clock and the
        random identifiers are arguments. *)

From Stdlib Require Import ZArith QArith Qround Qabs Lia Lqa.
From Stdlib Require Import List String Ascii Bool DecimalString.
From Stdlib Require Import Sorted Permutation.
Import ListNotations.

Set Warnings "-register-all".

Local Open Scope string_scope.
Local Open Scope list_scope.

(* ================================================================== *)
(** * Python values and built-ins used by the sources                 *)
(* ================================================================== *)

Module Py.

(** ** Exceptions *)

Inductive Exn : Type :=
| ValueError
| TypeError
| AttributeError
| ExternalError.   (* anything raised by an external collaborator *)

Inductive Result (A : Type) : Type :=
| Ok (a : A)
| Raise (e : Exn).
Arguments Ok {A} a.
Arguments Raise {A} e.

Definition bind {A B} (m : Result A) (k : A -> Result B) : Result B :=
  match m with
  | Ok a => k a
  | Raise e => Raise e
  end.

Notation "x <- m ;; k" := (bind m (fun x => k))
  (at level 61, m at next level, right associativity).

(** [try: m except Exception: h] *)
Definition catch {A} (m : Result A) (h : Exn -> Result A) : Result A :=
  match m with
  | Ok a => Ok a
  | Raise e => h e
  end.

Fixpoint mapM {A B} (f : A -> Result B) (l : list A) : Result (list B) :=
  match l with
  | [] => Ok []
  | x :: xs =>
      y <- f x ;; ys <- mapM f xs ;; Ok (y :: ys)
  end.

(** ** Characters *)

Definition code (c : ascii) : nat := nat_of_ascii c.

Definition is_upper (c : ascii) : bool :=
  (65 <=? code c)%nat && (code c <=? 90)%nat.

Definition is_lower (c : ascii) : bool :=
  (97 <=? code c)%nat && (code c <=? 122)%nat.

Definition is_digit (c : ascii) : bool :=
  (48 <=? code c)%nat && (code c <=? 57)%nat.

(** [str.isspace] on one ASCII character: TAB, LF, VT, FF, CR, the four
    separators FS, GS, RS, US, and the space. *)
Definition is_space (c : ascii) : bool :=
  ((9 <=? code c)%nat && (code c <=? 13)%nat)
  || ((28 <=? code c)%nat && (code c <=? 32)%nat).

Definition to_lower (c : ascii) : ascii :=
  if is_upper c then ascii_of_nat (code c + 32) else c.

Definition to_upper (c : ascii) : ascii :=
  if is_lower c then ascii_of_nat (code c - 32) else c.

Definition digit_value (c : ascii) : Z := Z.of_nat (code c - 48).

(** ** Strings *)

Definition is_empty (s : string) : bool :=
  match s with
  | EmptyString => true
  | String _ _ => false
  end.

(** Truthiness of a [str]. *)
Definition truthy_str (s : string) : bool := negb (is_empty s).

(** [s.lower()] *)
Fixpoint lower (s : string) : string :=
  match s with
  | EmptyString => EmptyString
  | String c s' => String (to_lower c) (lower s')
  end.

(** [s.title()]: the first letter of every run of letters in upper case,
    the other letters in lower case. *)
Fixpoint title_from (previous_is_cased : bool) (s : string) : string :=
  match s with
  | EmptyString => EmptyString
  | String c s' =>
      let cased := is_upper c || is_lower c in
      String (if previous_is_cased then to_lower c else to_upper c)
             (title_from cased s')
  end.

Definition title (s : string) : string := title_from false s.

(** [s.startswith(p)] *)
Definition startswith (s p : string) : bool := String.prefix p s.

(** [needle in hay] *)
Fixpoint contains (needle hay : string) : bool :=
  if String.prefix needle hay then true
  else match hay with
       | EmptyString => false
       | String _ hay' => contains needle hay'
       end.

(** [any(kw in s for kw in kws)] *)
Definition any_in (kws : list string) (s : string) : bool :=
  existsb (fun kw => contains kw s) kws.

(** [x in xs] for a list of strings. *)
Definition mem (x : string) (xs : list string) : bool :=
  existsb (String.eqb x) xs.

Fixpoint lstrip (s : string) : string :=
  match s with
  | EmptyString => EmptyString
  | String c s' => if is_space c then lstrip s' else s
  end.

Fixpoint rstrip (s : string) : string :=
  match s with
  | EmptyString => EmptyString
  | String c s' =>
      let r := rstrip s' in
      if is_space c && is_empty r then EmptyString else String c r
  end.

(** [s.strip()] *)
Definition strip (s : string) : string := rstrip (lstrip s).

(** [s.split()]: the maximal runs of non-space characters, in order.
    [split_go s] is the word that starts at the head of [s] (empty when
    [s] starts with a space) and the words after it. *)
Fixpoint split_go (s : string) : string * list string :=
  match s with
  | EmptyString => (EmptyString, [])
  | String c s' =>
      let '(w, ws) := split_go s' in
      if is_space c
      then (EmptyString, if is_empty w then ws else w :: ws)
      else (String c w, ws)
  end.

Definition split (s : string) : list string :=
  let '(w, ws) := split_go s in
  if is_empty w then ws else w :: ws.

(** [set(xs)] keeps one copy of each element; only membership and size
    of the sets built by the sources are observed. *)
Definition set_of (xs : list string) : list string :=
  nodup string_dec xs.

(** [a & b] on sets of strings. *)
Definition set_inter (a b : list string) : list string :=
  List.filter (fun w => mem w b) a.

(** Drop [n] characters. *)
Fixpoint skip (n : nat) (s : string) : string :=
  match n, s with
  | O, _ => s
  | S n', String _ s' => skip n' s'
  | S _, EmptyString => EmptyString
  end.

(** [s.replace(old, new)] for a non-empty [old]: non-overlapping
    occurrences, leftmost first.  The fuel is the number of characters
    still to scan. *)
Fixpoint replace_fuel (fuel : nat) (old new s : string) : string :=
  match fuel with
  | O => s
  | S fuel' =>
      match s with
      | EmptyString => EmptyString
      | String c s' =>
          if String.prefix old s
          then (new ++ replace_fuel fuel' old new (skip (String.length old) s))%string
          else String c (replace_fuel fuel' old new s')
      end
  end.

Definition replace (old new s : string) : string :=
  replace_fuel (String.length s) old new s.

(** ** Numbers *)

(** [str(n)] for a natural number. *)
Definition str_of_nat (n : nat) : string :=
  NilEmpty.string_of_uint (Nat.to_uint n).

(** [str(n)] for an integer. *)
Definition str_of_Z (n : Z) : string :=
  if (n <? 0)%Z then ("-" ++ str_of_nat (Z.to_nat (- n)))%string
  else str_of_nat (Z.to_nat n).

Definition newline : string := String (ascii_of_nat 10) EmptyString.

(** [int(s)] for a string of decimal digits. *)
Fixpoint int_of_digits_from (acc : Z) (s : string) : Z :=
  match s with
  | EmptyString => acc
  | String c s' => int_of_digits_from (10 * acc + digit_value c) s'
  end.

Definition int_of_digits (s : string) : Z := int_of_digits_from 0 s.

(** Rounding of a rational to the nearest integer, ties to even. *)
Definition round_half_even (q : Q) : Z :=
  let f := Qfloor q in
  let r := (q - inject_Z f)%Q in
  match (r ?= 1 # 2)%Q with
  | Lt => f
  | Gt => (f + 1)%Z
  | Eq => if Z.even f then f else (f + 1)%Z
  end.

(** [round(x, 2)] *)
Definition round2 (x : Q) : Q :=
  (inject_Z (round_half_even (x * 100)) / 100)%Q.

(** [f"{x:.2f}"]: the exact value rounded to two decimals. *)
Definition format_2f (x : Q) : string :=
  let cents := Z.abs (round_half_even (x * 100)) in
  let whole := (cents / 100)%Z in
  let part := (cents mod 100)%Z in
  ((if Qlt_le_dec x 0 then "-" else "")
   ++ str_of_Z whole ++ "."
   ++ (if (part <? 10)%Z then "0" else "") ++ str_of_Z part)%string.

(** [int(s)] for any string: blanks around an optional sign and decimal
    digits, single underscores allowed between digits; [ValueError]
    otherwise. *)
Fixpoint digits_with_underscores (previous_is_digit : bool) (s : string)
  : bool :=
  match s with
  | EmptyString => previous_is_digit
  | String c s' =>
      if is_digit c then digits_with_underscores true s'
      else if Ascii.eqb c "_"%char
      then previous_is_digit && digits_with_underscores false s'
      else false
  end.

Fixpoint only_digits (s : string) : string :=
  match s with
  | EmptyString => EmptyString
  | String c s' =>
      if is_digit c then String c (only_digits s') else only_digits s'
  end.

Definition int_of_str (s : string) : Result Z :=
  let body := strip s in
  let '(negative, digits) :=
    match body with
    | String "-"%char rest => (true, rest)
    | String "+"%char rest => (false, rest)
    | _ => (false, body)
    end in
  if digits_with_underscores false digits
  then let n := int_of_digits (only_digits digits) in
       Ok (if negative then (- n)%Z else n)
  else Raise ValueError.

(** Truthiness of a [float]. *)
Definition nonzero (q : Q) : bool := negb (Qeq_bool q 0).

(** [min(a, b)] on floats: the first argument on a tie. *)
Definition qmin (a b : Q) : Q := if Qlt_le_dec b a then b else a.

(** [sum(xs)] *)
Definition qsum (xs : list Q) : Q := fold_left Qplus xs 0%Q.

(** [xs[:k]]: the first [k] elements, and for a negative [k] all but the
    last [-k]. *)
Definition slice_to {A} (xs : list A) (k : Z) : list A :=
  if (k <? 0)%Z
  then firstn (Z.to_nat (Z.of_nat (List.length xs) + k)) xs
  else firstn (Z.to_nat k) xs.

(** [xs.sort(key=key, reverse=True)]: a stable sort, largest key first;
    elements with equal keys keep their order. *)
Section Sort.
Context {A : Type} (key : A -> Q).

Fixpoint insert_desc (x : A) (l : list A) : list A :=
  match l with
  | [] => [x]
  | y :: ys =>
      if Qlt_le_dec (key x) (key y)
      then y :: insert_desc x ys
      else x :: y :: ys
  end.

Definition sort_desc (l : list A) : list A :=
  fold_right insert_desc [] l.
End Sort.

(** [itertools]-free [span]: the longest prefix whose characters satisfy
    [p], and the rest. *)
Fixpoint span (p : ascii -> bool) (s : string) : string * string :=
  match s with
  | EmptyString => (EmptyString, EmptyString)
  | String c s' =>
      if p c
      then let '(a, b) := span p s' in (String c a, b)
      else (EmptyString, s)
  end.

(** ** Dynamically typed values

    What [json.loads] returns and what the dictionaries handed between
    the modules hold.  A [dict] is the list of its items in insertion
    order; a key is looked up from the front. *)

Inductive value : Type :=
| VNone
| VBool (b : bool)
| VInt (n : Z)
| VFloat (q : Q)
| VStr (s : string)
| VList (l : list value)
| VDict (d : list (string * value)).

Definition dict : Type := list (string * value).

Fixpoint assoc (k : string) (d : dict) : option value :=
  match d with
  | [] => None
  | (k', v) :: d' => if String.eqb k k' then Some v else assoc k d'
  end.

(** [d.get(k)] *)
Definition get (d : dict) (k : string) : value :=
  match assoc k d with
  | Some v => v
  | None => VNone
  end.

(** [d.get(k, default)] *)
Definition get_default (d : dict) (k : string) (default : value) : value :=
  match assoc k d with
  | Some v => v
  | None => default
  end.

(** The receiver of [.get]: anything but a [dict] has no such attribute. *)
Definition as_dict (v : value) : Result dict :=
  match v with
  | VDict d => Ok d
  | _ => Raise AttributeError
  end.

(** Truth value of an object in a condition. *)
Definition truthy (v : value) : bool :=
  match v with
  | VNone => false
  | VBool b => b
  | VInt n => negb (n =? 0)%Z
  | VFloat q => nonzero q
  | VStr s => truthy_str s
  | VList l => match l with [] => false | _ :: _ => true end
  | VDict d => match d with [] => false | _ :: _ => true end
  end.

Fixpoint chars (s : string) : list value :=
  match s with
  | EmptyString => []
  | String c s' => VStr (String c EmptyString) :: chars s'
  end.

(** [for x in v]: the elements of a list, the keys of a dict, the
    characters of a string; nothing else is iterable. *)
Definition iterate (v : value) : Result (list value) :=
  match v with
  | VList l => Ok l
  | VDict d => Ok (map (fun kv => VStr (fst kv)) d)
  | VStr s => Ok (chars s)
  | _ => Raise TypeError
  end.

Definition opt_str (o : option string) : value :=
  match o with
  | Some s => VStr s
  | None => VNone
  end.

Definition opt_int (o : option Z) : value :=
  match o with
  | Some n => VInt n
  | None => VNone
  end.

End Py.

(* ================================================================== *)
(** * difflib.SequenceMatcher                                         *)
(* ================================================================== *)

(** [SequenceMatcher(None, a, b).ratio()] of the standard library, for a
    second string of fewer than 200 characters: nothing is junk and no
    character is set aside as popular.  The matcher of the product catalog
    takes the ratio as a parameter; this one serves where a run is
    computed. *)
Module Difflib.

Fixpoint common_prefix (a b : string) : nat :=
  match a, b with
  | String x a', String y b' =>
      if Ascii.eqb x y then S (common_prefix a' b') else O
  | _, _ => O
  end.

(** The longest block at the head of [a] found in [b] from position [j]
    on: its position in [b] and its size, the earliest of the longest. *)
Fixpoint longest_at_head (a b : string) (j : nat) : nat * nat :=
  match b with
  | EmptyString => (j, O)
  | String _ b' =>
      let k := common_prefix a b in
      let '(j', k') := longest_at_head a b' (S j) in
      if (k' <=? k)%nat then (j, k) else (j', k')
  end.

(** [find_longest_match]: of all longest common blocks the one that starts
    earliest in [a], and of those the one that starts earliest in [b]. *)
Fixpoint find_longest_match (a b : string) (i : nat) : nat * nat * nat :=
  match a with
  | EmptyString => (i, O, O)
  | String _ a' =>
      let '(j, k) := longest_at_head a b O in
      let '(i', j', k') := find_longest_match a' b (S i) in
      if (k' <=? k)%nat then (i, j, k) else (i', j', k')
  end.

Fixpoint take (n : nat) (s : string) : string :=
  match n, s with
  | S n', String c s' => String c (take n' s')
  | _, _ => EmptyString
  end.

(** The total size of the blocks of [get_matching_blocks]: the longest
    block, then the blocks to its left and to its right. *)
Fixpoint matches (fuel : nat) (a b : string) : nat :=
  match fuel with
  | O => O
  | S fuel' =>
      let '(i, j, k) := find_longest_match a b O in
      match k with
      | O => O
      | S _ =>
          (k + matches fuel' (take i a) (take j b)
           + matches fuel' (Py.skip (i + k) a) (Py.skip (j + k) b))%nat
      end
  end.

Definition ratio (a b : string) : Q :=
  let length := (String.length a + String.length b)%nat in
  match length with
  | O => 1%Q
  | S _ =>
      (2 * inject_Z (Z.of_nat (matches (S (String.length a)) a b))
       / inject_Z (Z.of_nat length))%Q
  end.

End Difflib.

(* ================================================================== *)
(** * backend/ai/intent_parser.py                                     *)
(* ================================================================== *)

Module IntentParser.
Import Py.

Inductive IntentType : Type :=
| ORDER_INQUIRY
| PRICE_CHECK
| STOCK_CHECK
| ORDER_STATUS
| GENERAL_QUESTION
| UNCLEAR.

Definition IntentType_value (t : IntentType) : string :=
  match t with
  | ORDER_INQUIRY => "order_inquiry"
  | PRICE_CHECK => "price_check"
  | STOCK_CHECK => "stock_check"
  | ORDER_STATUS => "order_status"
  | GENERAL_QUESTION => "general_question"
  | UNCLEAR => "unclear"
  end.

(** [IntentType(v)]: the member whose value is [v]; [ValueError] when
    there is none. *)
Definition IntentType_of (v : value) : Result IntentType :=
  match v with
  | VStr s =>
      if s =? "order_inquiry" then Ok ORDER_INQUIRY
      else if s =? "price_check" then Ok PRICE_CHECK
      else if s =? "stock_check" then Ok STOCK_CHECK
      else if s =? "order_status" then Ok ORDER_STATUS
      else if s =? "general_question" then Ok GENERAL_QUESTION
      else if s =? "unclear" then Ok UNCLEAR
      else Raise ValueError
  | _ => Raise ValueError
  end.

(** The dataclasses do not check the types of their fields: whatever the
    response held under a key is stored as it is. *)
Record ProductIntent : Type := {
  raw_text : value;
  product_name : value;
  quantity : value;
  brand : value;
  category : value;
  specifications : value;
  confidence : value }.

Record DeliveryIntent : Type := {
  address : value;
  date : value;
  urgency : value;
  notes : value }.

Record ParsedIntent : Type := {
  intent_type : IntentType;
  products : list ProductIntent;
  delivery : option DeliveryIntent;
  customer_name : value;
  contact_info : value;
  raw_message : string;
  confidence_score : value;
  needs_clarification : value;
  clarification_questions : value;
  summary : value }.

(** The regular expression [(\d+)\s*(units?|pcs?|pieces?|sets?)?] under
    [re.search]: the leftmost position where it matches is the first
    digit; [\d+] and [\s*] are greedy and the optional group can match
    nothing, so no backtracking into them ever happens. *)
Record QuantityMatch : Type := {
  group1 : string;
  group2 : option string }.

(** One alternative [ws?] of the second group: [w], then an [s] when
    there is one. *)
Definition optional_s (w s : string) : option string :=
  if String.prefix w s
  then Some (if String.prefix (w ++ "s")%string s
            then (w ++ "s")%string else w)
  else None.

(** [(units?|pcs?|pieces?|sets?)?]: the first alternative that matches. *)
Definition unit_word (s : string) : option string :=
  match optional_s "unit" s with
  | Some w => Some w
  | None =>
      match optional_s "pc" s with
      | Some w => Some w
      | None =>
          match optional_s "piece" s with
          | Some w => Some w
          | None => optional_s "set" s
          end
      end
  end.

Definition quantity_match_here (s : string) : QuantityMatch :=
  let '(digits, rest) := span is_digit s in
  let '(_, rest') := span is_space rest in
  {| group1 := digits; group2 := unit_word rest' |}.

Fixpoint quantity_search (s : string) : option QuantityMatch :=
  match s with
  | EmptyString => None
  | String c s' =>
      if is_digit c then Some (quantity_match_here s)
      else quantity_search s'
  end.

(** [for x in xs: if x in s: ...; break] *)
Fixpoint first_in {A} (xs : list (string * A)) (s : string) : option A :=
  match xs with
  | [] => None
  | (k, a) :: xs' => if contains k s then Some a else first_in xs' s
  end.

Definition product_keywords : list (string * string) :=
  [ ("ceiling fan", "Ceiling Fans");
    ("fan", "Ceiling Fans");
    ("hood", "Range Hoods");
    ("chimney", "Range Hoods");
    ("hob", "Hobs & Stoves");
    ("stove", "Hobs & Stoves");
    ("tap", "Kitchen Taps");
    ("sink", "Kitchen Sinks");
    ("drill", "Power Tools");
    ("power tool", "Power Tools") ].

Definition brands : list string :=
  [ "acorn"; "spin"; "fanco"; "crestar"; "tecno"; "ef"; "pozzi"; "worx";
    "makita"; "alaska" ].

Definition sg_areas : list string :=
  [ "hougang"; "kovan"; "macpherson"; "bedok"; "tampines"; "jurong";
    "woodlands"; "yishun" ].

Definition _generate_clarification_questions
    (products : list dict) (quantity : option Z) : list string :=
  let questions :=
    match products with
    | [] => ["Could you please specify which products you're interested in?"]
    | p :: _ =>
        if negb (truthy (get p "product_name"))
        then ["Could you provide more details about the specific model you need?"]
        else []
    end in
  match quantity with
  | None => questions ++ ["How many units do you need?"]
  | Some _ => questions
  end.

(** The intent type, the brand, the category, the quantity, the urgency
    and the address found by [_pattern_match], each as the source
    computes it. *)
Definition detect_intent_type (message_lower : string) : string :=
  if any_in ["price"; "cost"; "how much"] message_lower then "price_check"
  else if any_in ["stock"; "available"; "availability"] message_lower
  then "stock_check"
  else if any_in ["status"; "where is"; "tracking"] message_lower
  then "order_status"
  else "order_inquiry".

Definition detect_brand (message_lower : string) : option string :=
  first_in (map (fun b => (b, title b)) brands) message_lower.

Definition detect_category (message_lower : string) : option string :=
  first_in product_keywords message_lower.

Definition detect_quantity (message_lower : string) : option Z :=
  match quantity_search message_lower with
  | Some m => Some (int_of_digits (group1 m))
  | None => None
  end.

Definition detect_urgency (message_lower : string) : option string :=
  if any_in ["urgent"; "asap"; "rush"] message_lower then Some "urgent"
  else if any_in ["next week"; "no rush"] message_lower then Some "flexible"
  else None.

Definition detect_address (message_lower : string) : option string :=
  first_in (map (fun a => (a, title a)) sg_areas) message_lower.

Definition is_some {A} (o : option A) : bool :=
  match o with
  | Some _ => true
  | None => false
  end.

Definition _pattern_match (message : string) : value :=
  let message_lower := lower message in
  let intent_type := detect_intent_type message_lower in
  let detected_brand := detect_brand message_lower in
  let detected_category := detect_category message_lower in
  let quantity := detect_quantity message_lower in
  let products : list dict :=
    if is_some detected_category || is_some detected_brand
    then [ [ ("raw_text", VStr message);
             ("product_name", VNone);
             ("quantity", opt_int quantity);
             ("brand", opt_str detected_brand);
             ("category", opt_str detected_category);
             ("specifications", VDict []);
             ("confidence", VFloat (6 # 10)) ] ]
    else [] in
  let delivery : dict :=
    [ ("address", opt_str (detect_address message_lower));
      ("date", VNone);
      ("urgency", opt_str (detect_urgency message_lower));
      ("notes", VNone) ] in
  VDict
    [ ("intent_type", VStr intent_type);
      ("products", VList (map VDict products));
      ("delivery", VDict delivery);
      ("customer_name", VNone);
      ("contact_info", VNone);
      ("confidence_score", VFloat (5 # 10));
      ("needs_clarification",
        VBool (match products with [] => true | _ => false end
               || negb (is_some quantity)));
      ("clarification_questions",
        VList (map VStr (_generate_clarification_questions products quantity)));
      ("summary",
        VStr ("Request for "
              ++ match detected_category with
                 | Some c => c
                 | None => "products"
                 end
              ++ match detected_brand with
                 | Some b => " from " ++ b
                 | None => ""
                 end)%string) ].

Definition product_intent_of (p : value) : Result ProductIntent :=
  p <- as_dict p ;;
  Ok {| raw_text := get_default p "raw_text" (VStr "");
        product_name := get p "product_name";
        quantity := get p "quantity";
        brand := get p "brand";
        category := get p "category";
        specifications := get_default p "specifications" (VDict []);
        confidence := get_default p "confidence" (VFloat (5 # 10)) |}.

Definition _parse_response (response : value) (original_message : string)
  : Result ParsedIntent :=
  response <- as_dict response ;;
  ps <- iterate (get_default response "products" (VList [])) ;;
  products <- mapM product_intent_of ps ;;
  (let delivery_data := get_default response "delivery" (VDict []) in
   delivery <- (if truthy delivery_data
                then d <- as_dict delivery_data ;;
                     Ok (Some {| address := get d "address";
                                 date := get d "date";
                                 urgency := get d "urgency";
                                 notes := get d "notes" |})
                else Ok None) ;;
   intent_type <-
     IntentType_of (get_default response "intent_type" (VStr "unclear")) ;;
   Ok {| intent_type := intent_type;
         products := products;
         delivery := delivery;
         customer_name := get response "customer_name";
         contact_info := get response "contact_info";
         raw_message := original_message;
         confidence_score :=
           get_default response "confidence_score" (VFloat (5 # 10));
         needs_clarification :=
           get_default response "needs_clarification" (VBool false);
         clarification_questions :=
           get_default response "clarification_questions" (VList []);
         summary := get_default response "summary" (VStr "") |}).

Definition _fallback_parse (message : string) : Result ParsedIntent :=
  _parse_response (_pattern_match message) message.

Definition _empty_intent (message : string) : ParsedIntent :=
  {| intent_type := UNCLEAR;
     products := [];
     delivery := None;
     customer_name := VNone;
     contact_info := VNone;
     raw_message := message;
     confidence_score := VFloat 0;
     needs_clarification := VBool true;
     clarification_questions :=
       VList [VStr "Could you please describe what you're looking for?"];
     summary := VStr "Empty or unclear message" |}.

(** The injected client: for a message, what
    [json.loads(response.choices[0].message.content)] evaluates to, or
    the exception raised on the way. *)
Definition LLMClient : Type := string -> Result value.

Definition _call_llm (llm_client : option LLMClient) (message : string)
  : Result value :=
  match llm_client with
  | Some invoke => invoke message
  | None => Ok (_pattern_match message)
  end.

Definition parse (llm_client : option LLMClient) (message : string)
  : Result ParsedIntent :=
  if negb (truthy_str message) || negb (truthy_str (strip message))
  then Ok (_empty_intent message)
  else catch (response <- _call_llm llm_client message ;;
              _parse_response response message)
             (fun _ => _fallback_parse message).

Definition parse_sync (message : string) : Result ParsedIntent :=
  _fallback_parse message.

(** The mention [_pattern_match] emits for a message, as [_parse_response]
    stores it. *)
Definition fallback_mention (message : string) : ProductIntent :=
  {| raw_text := VStr message;
     product_name := VNone;
     quantity := opt_int (detect_quantity (lower message));
     brand := opt_str (detect_brand (lower message));
     category := opt_str (detect_category (lower message));
     specifications := VDict [];
     confidence := VFloat (6 # 10) |}.

(** [asdict(p)] for a [ProductIntent] and for a [DeliveryIntent]. *)
Definition product_asdict (p : ProductIntent) : dict :=
  [ ("raw_text", raw_text p);
    ("product_name", product_name p);
    ("quantity", quantity p);
    ("brand", brand p);
    ("category", category p);
    ("specifications", specifications p);
    ("confidence", confidence p) ].

Definition delivery_asdict (d : DeliveryIntent) : dict :=
  [ ("address", address d);
    ("date", date d);
    ("urgency", urgency d);
    ("notes", notes d) ].

Definition to_dict (intent : ParsedIntent) : value :=
  VDict
    [ ("intent_type", VStr (IntentType_value (intent_type intent)));
      ("products",
        VList (map (fun p => VDict (product_asdict p)) (products intent)));
      ("delivery",
        match delivery intent with
        | Some d => VDict (delivery_asdict d)
        | None => VNone
        end);
      ("customer_name", customer_name intent);
      ("contact_info", contact_info intent);
      ("raw_message", VStr (raw_message intent));
      ("confidence_score", confidence_score intent);
      ("needs_clarification", needs_clarification intent);
      ("clarification_questions", clarification_questions intent);
      ("summary", summary intent) ].

(** The member [_pattern_match] names. *)
Definition fallback_intent_type (message : string) : IntentType :=
  let t := detect_intent_type (lower message) in
  if t =? "price_check" then PRICE_CHECK
  else if t =? "stock_check" then STOCK_CHECK
  else if t =? "order_status" then ORDER_STATUS
  else ORDER_INQUIRY.

(** The mentions [_pattern_match] emits: one when a brand or a category was
    detected. *)
Definition fallback_products (message : string) : list ProductIntent :=
  if is_some (detect_category (lower message))
     || is_some (detect_brand (lower message))
  then [fallback_mention message] else [].

(** The questions [_pattern_match] asks; its mention never has a product
    name. *)
Definition fallback_questions (message : string) : list string :=
  (match fallback_products message with
   | [] => ["Could you please specify which products you're interested in?"]
   | _ :: _ =>
       ["Could you provide more details about the specific model you need?"]
   end)
  ++ (match detect_quantity (lower message) with
      | None => ["How many units do you need?"]
      | Some _ => []
      end).

End IntentParser.

(* ================================================================== *)
(** * backend/ai/product_matcher.py                                   *)
(* ================================================================== *)

Module ProductMatcher.
Import Py.

(** A catalog record, as loaded from the JSON catalog: a dictionary in
    which any of the keys can be missing ([None]). *)
Module Product.
Record t : Type := {
  item_id : option string;
  name : option string;
  clean_name : option string;
  price_numeric : option Q;
  price : option string;
  original_price : option string;
  url : option string;
  image_path : option string }.
End Product.

(** One clause of [match_reason]; the source joins their renderings with
    a semicolon and writes [No strong match] when there is none. *)
Inductive Reason : Type :=
| NameMatch (name_score : Q)
| WordMatch (common_words : nat)
| BrandMatch (brand : string)
| CategoryMatch (category : string)
| ExactIdMatch.

Module MatchedProduct.
Record t : Type := {
  product_id : string;
  name : string;
  clean_name : string;
  price : Q;
  original_price : option Q;
  brand : option string;
  category : option string;
  url : string;
  image_path : option string;
  match_score : Q;
  match_reason : list Reason }.
End MatchedProduct.

(** [search_time_ms], a wall-clock measurement, is left out. *)
Module MatchResult.
Record t : Type := {
  query : string;
  matches : list MatchedProduct.t;
  best_match : option MatchedProduct.t;
  total_found : nat }.
End MatchResult.

Definition KNOWN_BRANDS : list (string * string) :=
  [ ("acorn", "Acorn"); ("spin", "Spin"); ("fanco", "Fanco");
    ("crestar", "Crestar"); ("alaska", "Alaska"); ("tecno", "Tecno");
    ("ef", "EF"); ("ka", "KA"); ("pozzi", "Pozzi"); ("worx", "WORX");
    ("makita", "Makita") ].

Definition CATEGORY_KEYWORDS : list (string * list string) :=
  [ ("Ceiling Fans", ["ceiling fan"; "fan"; "dc fan"; "wifi fan"]);
    ("Range Hoods", ["hood"; "chimney"; "range hood"; "kitchen hood"]);
    ("Hobs & Stoves", ["hob"; "stove"; "cooktop"; "gas hob"; "induction"]);
    ("Kitchen Taps", ["kitchen tap"; "sink tap"; "faucet"]);
    ("Basin Taps", ["basin tap"; "bathroom tap"; "basin mixer"]);
    ("Power Tools",
      ["drill"; "power tool"; "grinder"; "saw"; "washer"; "blower"]);
    ("Kitchen Sinks", ["sink"; "kitchen sink"]);
    ("Bathroom Fixtures", ["bathroom"; "shower"; "toilet"]);
    ("Water Heaters", ["water heater"; "heater"]) ].

(** [CATEGORY_KEYWORDS.get(category, [])] *)
Fixpoint keywords_of (table : list (string * list string))
    (category : string) : list string :=
  match table with
  | [] => []
  | (c, kws) :: table' =>
      if String.eqb category c then kws else keywords_of table' category
  end.

(** [for brand_key, brand_name in KNOWN_BRANDS.items():
       if brand_key in s: ...; break] *)
Fixpoint first_brand (table : list (string * string)) (s : string)
  : option string :=
  match table with
  | [] => None
  | (brand_key, brand_name) :: table' =>
      if contains brand_key s then Some brand_name
      else first_brand table' s
  end.

(** [for cat_name, keywords in CATEGORY_KEYWORDS.items():
       if any(kw in s for kw in keywords): ...; break] *)
Fixpoint first_category (table : list (string * list string)) (s : string)
  : option string :=
  match table with
  | [] => None
  | (cat_name, keywords) :: table' =>
      if any_in keywords s then Some cat_name
      else first_category table' s
  end.

(** Truthiness of an [Optional[str]] argument. *)
Definition supplied (o : option string) : bool :=
  match o with
  | Some s => truthy_str s
  | None => false
  end.

Definition or_empty (o : option string) : string :=
  match o with
  | Some s => s
  | None => EmptyString
  end.

(** [product.get('name', '').lower()] *)
Definition product_name_of (product : Product.t) : string :=
  lower (or_empty (Product.name product)).

(** [product.get('clean_name', product_name).lower()] *)
Definition clean_name_of (product : Product.t) : string :=
  match Product.clean_name product with
  | Some s => lower s
  | None => lower (product_name_of product)
  end.

(** [re.sub(r'[^\d.]', '', s)] *)
Fixpoint digits_and_dots (s : string) : string :=
  match s with
  | EmptyString => EmptyString
  | String c s' =>
      if is_digit c || Ascii.eqb c "."%char
      then String c (digits_and_dots s')
      else digits_and_dots s'
  end.

(** [float(s)] for a string of digits and dots: digits with at most one
    dot among them, and [ValueError] for anything else. *)
Definition float_of (s : string) : Result Q :=
  let '(whole, rest) := span is_digit s in
  match rest with
  | EmptyString =>
      if is_empty whole then Raise ValueError
      else Ok (inject_Z (int_of_digits whole))
  | String c frac =>
      let '(fraction, rest') := span is_digit frac in
      if is_empty rest' && negb (is_empty whole && is_empty fraction)
      then Ok (inject_Z (int_of_digits whole)
               + inject_Z (int_of_digits fraction)
                 / inject_Z (10 ^ Z.of_nat (String.length fraction)))%Q
      else Raise ValueError
  end.

(** [float(re.sub(r'[^\d.]', '', s) or 0)] *)
Definition parse_price (s : string) : Result Q :=
  let cleaned := digits_and_dots s in
  if is_empty cleaned then Ok 0%Q else float_of cleaned.

Section Matcher.

(** [SequenceMatcher(None, a, b).ratio()] of the standard library. *)
Variable ratio : string -> string -> Q.

(** The score accumulated by [_score_product] when it reaches the cap,
    and the reasons collected on the way. *)
Definition uncapped_score (product : Product.t) (query : string)
    (brand category : option string) : Q * list Reason :=
  let product_name := product_name_of product in
  let clean_name := clean_name_of product in
  let score := 0%Q in
  let reasons := @nil Reason in
  (* Fuzzy match on name *)
  let name_score := ratio query clean_name in
  let '(score, reasons) :=
    if Qlt_le_dec (3 # 10) name_score
    then ((score + name_score * (5 # 10))%Q,
          reasons ++ [NameMatch name_score])
    else (score, reasons) in
  (* Check for exact word matches *)
  let query_words := set_of (split query) in
  let name_words := set_of (split clean_name) in
  let common_words := set_inter query_words name_words in
  let '(score, reasons) :=
    match common_words with
    | [] => (score, reasons)
    | _ :: _ =>
        let word_score :=
          (inject_Z (Z.of_nat (List.length common_words))
           / inject_Z (Z.of_nat (Nat.max (List.length query_words) 1)))%Q in
        ((score + word_score * (3 # 10))%Q,
         reasons ++ [WordMatch (List.length common_words)])
    end in
  (* Brand match bonus *)
  let '(score, reasons) :=
    if supplied brand
    then let brand_lower := lower (or_empty brand) in
         if contains brand_lower product_name
         then ((score + (3 # 10))%Q, reasons ++ [BrandMatch (or_empty brand)])
         else (score, reasons)
    else (score, reasons) in
  (* Category match bonus *)
  let '(score, reasons) :=
    if supplied category
    then let keywords := keywords_of CATEGORY_KEYWORDS (or_empty category) in
         if any_in keywords product_name
         then ((score + (2 # 10))%Q,
               reasons ++ [CategoryMatch (or_empty category)])
         else (score, reasons)
    else (score, reasons) in
  (score, reasons).

Definition _score_product (product : Product.t) (query : string)
    (brand category : option string) : Q * list Reason :=
  let '(score, reasons) := uncapped_score product query brand category in
  (* Cap score at 1.0 *)
  (qmin score 1, reasons).

Definition _to_matched_product (product : Product.t) (score : Q)
    (reason : list Reason) : Result MatchedProduct.t :=
  let name_lower := lower (or_empty (Product.name product)) in
  let brand := first_brand KNOWN_BRANDS name_lower in
  let category := first_category CATEGORY_KEYWORDS name_lower in
  price <-
    match Product.price_numeric product with
    | Some p =>
        if nonzero p then Ok p
        else parse_price
               (match Product.price product with
                | Some s => s
                | None => "0"
                end)
    | None =>
        parse_price
          (match Product.price product with
           | Some s => s
           | None => "0"
           end)
    end ;;
  original_price <-
    match Product.original_price product with
    | Some s =>
        if truthy_str s
        then p <- parse_price s ;; Ok (Some p)
        else Ok None
    | None => Ok None
    end ;;
  Ok {| MatchedProduct.product_id := or_empty (Product.item_id product);
        MatchedProduct.name := or_empty (Product.name product);
        MatchedProduct.clean_name :=
          match Product.clean_name product with
          | Some s => s
          | None => or_empty (Product.name product)
          end;
        MatchedProduct.price := price;
        MatchedProduct.original_price := original_price;
        MatchedProduct.brand := brand;
        MatchedProduct.category := category;
        MatchedProduct.url := or_empty (Product.url product);
        MatchedProduct.image_path := Product.image_path product;
        MatchedProduct.match_score := score;
        MatchedProduct.match_reason := reason |}.

Definition Scored : Type := Q * Product.t * list Reason.

Definition score_of (x : Scored) : Q := fst (fst x).

Definition detect_brand (brand : option string) (query_lower : string)
  : option string :=
  if supplied brand then brand
  else match first_brand KNOWN_BRANDS query_lower with
       | Some brand_name => Some brand_name
       | None => brand
       end.

Definition detect_category (category : option string)
    (query_lower : string) : option string :=
  if supplied category then category
  else match first_category CATEGORY_KEYWORDS query_lower with
       | Some cat_name => Some cat_name
       | None => category
       end.

(** The list [scored_products] of [match] before it is sorted: the
    records that reach [min_score], in catalog order. *)
Definition scored_products (catalog : list Product.t) (query : string)
    (brand category : option string) (min_score : Q) : list Scored :=
  let query_lower := strip (lower query) in
  let detected_brand := detect_brand brand query_lower in
  let detected_category := detect_category category query_lower in
  List.filter (fun x => Qle_bool min_score (score_of x))
    (map (fun product =>
            let '(score, reason) :=
              _score_product product query_lower detected_brand
                detected_category in
            (score, product, reason))
         catalog).

(** The slice [scored_products[:max_results]] of the sorted list. *)
Definition ranked (catalog : list Product.t) (query : string)
    (brand category : option string) (max_results : Z) (min_score : Q)
  : list Scored :=
  slice_to
    (sort_desc score_of (scored_products catalog query brand category min_score))
    max_results.

Definition match_ (catalog : list Product.t) (query : string)
    (brand category : option string) (max_results : Z) (min_score : Q)
  : Result MatchResult.t :=
  match catalog with
  | [] =>
      Ok {| MatchResult.query := query;
            MatchResult.matches := [];
            MatchResult.best_match := None;
            MatchResult.total_found := 0 |}
  | _ :: _ =>
      matches <-
        mapM (fun x : Scored =>
                let '(score, product, reason) := x in
                _to_matched_product product score reason)
             (ranked catalog query brand category max_results min_score) ;;
      Ok {| MatchResult.query := query;
            MatchResult.matches := matches;
            MatchResult.best_match := hd_error matches;
            MatchResult.total_found :=
              List.length
                (scored_products catalog query brand category min_score) |}
  end.

Definition get_product_by_id (catalog : list Product.t)
    (product_id : string) : Result (option MatchedProduct.t) :=
  match List.find (fun product =>
                     match Product.item_id product with
                     | Some i => String.eqb i product_id
                     | None => false
                     end) catalog with
  | Some product =>
      m <- _to_matched_product product 1 [ExactIdMatch] ;;
      Ok (Some m)
  | None => Ok None
  end.

(** A record whose price fields [_to_matched_product] can convert. *)
Definition priced (product : Product.t) : bool :=
  match _to_matched_product product 0 [] with
  | Ok _ => true
  | Raise _ => false
  end.

End Matcher.

End ProductMatcher.

(* ================================================================== *)
(** * backend/ai/order_extractor.py                                   *)
(* ================================================================== *)

Module OrderExtractor.
Import Py.
Module MatchedProduct := ProductMatcher.MatchedProduct.

(** The dictionaries [extract] receives are the [to_dict] forms of a
    [ParsedIntent] and of the matcher's results: every key is present,
    and a value is of the type the dataclass declares for it, [None]
    included where the declaration is [Optional]. *)
Module ProductIntentDict.
Record t : Type := {
  raw_text : string;
  product_name : option string;
  quantity : option Z;
  brand : option string;
  category : option string;
  confidence : Q }.
End ProductIntentDict.

Module DeliveryIntentDict.
Record t : Type := {
  address : option string;
  date : option string;
  urgency : option string;
  notes : option string }.
End DeliveryIntentDict.

Module ParsedIntentDict.
Record t : Type := {
  intent_type : string;
  products : list ProductIntentDict.t;
  delivery : option DeliveryIntentDict.t;
  customer_name : option string;
  contact_info : option string;
  raw_message : string;
  confidence_score : Q;
  needs_clarification : bool;
  clarification_questions : list string;
  summary : string }.
End ParsedIntentDict.

Module OrderItem.
Record t : Type := {
  product_id : string;
  product_name : string;
  quantity : Z;
  unit_price : Q;
  total_price : Q;
  brand : option string;
  category : option string;
  notes : option string;
  match_confidence : Q }.
End OrderItem.

Module OrderSummary.
Record t : Type := {
  subtotal : Q;
  discount : Q;
  tax : Q;
  shipping : Q;
  total : Q;
  currency : string }.
End OrderSummary.

Module DeliveryDetails.
Record t : Type := {
  address : string;
  city : string;
  postal_code : option string;
  contact_name : option string;
  contact_phone : option string;
  preferred_date : option string;
  preferred_time : option string;
  instructions : option string }.
End DeliveryDetails.

Module ExtractedOrder.
Record t : Type := {
  order_id : string;
  items : list OrderItem.t;
  summary : OrderSummary.t;
  delivery : option DeliveryDetails.t;
  customer_name : option string;
  customer_contact : option string;
  raw_inquiry : string;
  confidence_score : Q;
  needs_confirmation : bool;
  confirmation_notes : list string;
  created_at : string;
  status : string }.

Definition set_summary (order : t) (new_summary : OrderSummary.t) : t :=
  {| order_id := order_id order;
     items := items order;
     summary := new_summary;
     delivery := delivery order;
     customer_name := customer_name order;
     customer_contact := customer_contact order;
     raw_inquiry := raw_inquiry order;
     confidence_score := confidence_score order;
     needs_confirmation := needs_confirmation order;
     confirmation_notes := confirmation_notes order;
     created_at := created_at order;
     status := status order |}.

Definition confirm (order : t) : t :=
  {| order_id := order_id order;
     items := items order;
     summary := summary order;
     delivery := delivery order;
     customer_name := customer_name order;
     customer_contact := customer_contact order;
     raw_inquiry := raw_inquiry order;
     confidence_score := confidence_score order;
     needs_confirmation := false;
     confirmation_notes := confirmation_notes order;
     created_at := created_at order;
     status := "confirmed" |}.
End ExtractedOrder.

Definition DEFAULT_TAX_RATE : Q := 9 # 100.
Definition FREE_SHIPPING_THRESHOLD : Q := 500.
Definition DEFAULT_SHIPPING : Q := 50.

(** The instance: what [__init__] stores. *)
Record Self : Type := {
  tax_rate : Q;
  free_shipping_threshold : Q }.

Definition init (tax_rate free_shipping_threshold : option Q) : Self :=
  {| tax_rate :=
       match tax_rate with
       | Some r => r
       | None => DEFAULT_TAX_RATE
       end;
     free_shipping_threshold :=
       match free_shipping_threshold with
       | Some t => if nonzero t then t else FREE_SHIPPING_THRESHOLD
       | None => FREE_SHIPPING_THRESHOLD
       end |}.

(** What the system clock and [uuid4] give to one call of [extract]. *)
Record Fresh : Type := {
  timestamp : string;      (* utcnow().strftime('%Y%m%d') *)
  unique_part : string;    (* uuid4().hex[:6].upper() *)
  now : string }.          (* utcnow().isoformat() *)

Definition _generate_order_id (fresh : Fresh) : string :=
  ("UB-" ++ timestamp fresh ++ "-" ++ unique_part fresh)%string.

(** [s.lower()] on an [Optional[str]]: [None] has no such method. *)
Definition lower_of (o : option string) : Result string :=
  match o with
  | Some s => Ok (lower s)
  | None => Raise AttributeError
  end.

(** The loop of [_find_best_match], from [(best_match, best_score)]. *)
Fixpoint best_match_from (intent_brand intent_category : string)
    (matched_products : list MatchedProduct.t)
    (best_match : option MatchedProduct.t) (best_score : Q)
  : Result (option MatchedProduct.t) :=
  match matched_products with
  | [] => Ok best_match
  | product :: rest =>
      let score := MatchedProduct.match_score product in
      let score :=
        if truthy_str intent_brand
           && contains intent_brand (lower (MatchedProduct.name product))
        then (score + (2 # 10))%Q else score in
      score <- (if truthy_str intent_category
                then c <- lower_of (MatchedProduct.category product) ;;
                     Ok (if String.eqb intent_category c
                         then (score + (1 # 10))%Q else score)
                else Ok score) ;;
      (if Qlt_le_dec best_score score
       then best_match_from intent_brand intent_category rest
              (Some product) score
       else best_match_from intent_brand intent_category rest
              best_match best_score)
  end.

Definition _find_best_match (intent : ProductIntentDict.t)
    (matched_products : list MatchedProduct.t)
  : Result (option MatchedProduct.t) :=
  intent_brand <- lower_of (ProductIntentDict.brand intent) ;;
  intent_category <- lower_of (ProductIntentDict.category intent) ;;
  best_match_from intent_brand intent_category matched_products None 0.

(** [intent.get('quantity', 1) or 1] *)
Definition quantity_or_1 (q : option Z) : Z :=
  match q with
  | Some n => if (n =? 0)%Z then 1%Z else n
  | None => 1%Z
  end.

(** One turn of the loop of [_extract_items], for the mention at
    position [i]. *)
Definition extract_item (matched_products : list MatchedProduct.t)
    (i : nat) (intent : ProductIntentDict.t) : Result OrderItem.t :=
  let quantity := quantity_or_1 (ProductIntentDict.quantity intent) in
  matched <-
    match nth_error matched_products i with
    | Some m => Ok (Some m)
    | None =>
        match matched_products with
        | [] => Ok None
        | _ :: _ => _find_best_match intent matched_products
        end
    end ;;
  match matched with
  | Some matched =>
      let unit_price := MatchedProduct.price matched in
      Ok {| OrderItem.product_id := MatchedProduct.product_id matched;
            OrderItem.product_name := MatchedProduct.clean_name matched;
            OrderItem.quantity := quantity;
            OrderItem.unit_price := unit_price;
            OrderItem.total_price := (unit_price * inject_Z quantity)%Q;
            OrderItem.brand := MatchedProduct.brand matched;
            OrderItem.category := MatchedProduct.category matched;
            OrderItem.notes := Some (ProductIntentDict.raw_text intent);
            OrderItem.match_confidence := MatchedProduct.match_score matched |}
  | None =>
      Ok {| OrderItem.product_id := "UNMATCHED";
            OrderItem.product_name := ProductIntentDict.raw_text intent;
            OrderItem.quantity := quantity;
            OrderItem.unit_price := 0;
            OrderItem.total_price := 0;
            OrderItem.brand := ProductIntentDict.brand intent;
            OrderItem.category := ProductIntentDict.category intent;
            OrderItem.notes :=
              Some "Product not found in catalog - requires manual matching";
            OrderItem.match_confidence := 0 |}
  end.

Fixpoint extract_items_from (matched_products : list MatchedProduct.t)
    (i : nat) (product_intents : list ProductIntentDict.t)
  : Result (list OrderItem.t) :=
  match product_intents with
  | [] => Ok []
  | intent :: rest =>
      item <- extract_item matched_products i intent ;;
      items <- extract_items_from matched_products (S i) rest ;;
      Ok (item :: items)
  end.

Definition _extract_items (parsed_intent : ParsedIntentDict.t)
    (matched_products : list MatchedProduct.t) : Result (list OrderItem.t) :=
  extract_items_from matched_products 0
    (ParsedIntentDict.products parsed_intent).

Definition _calculate_summary (self : Self) (items : list OrderItem.t)
  : OrderSummary.t :=
  let subtotal := qsum (map OrderItem.total_price items) in
  let shipping :=
    if Qle_bool (free_shipping_threshold self) subtotal
    then 0%Q else DEFAULT_SHIPPING in
  let tax := (subtotal * tax_rate self)%Q in
  let total := (subtotal + tax + shipping)%Q in
  {| OrderSummary.subtotal := round2 subtotal;
     OrderSummary.discount := 0;
     OrderSummary.tax := round2 tax;
     OrderSummary.shipping := round2 shipping;
     OrderSummary.total := round2 total;
     OrderSummary.currency := "SGD" |}.

Definition _extract_delivery (parsed_intent : ParsedIntentDict.t)
  : option DeliveryDetails.t :=
  match ParsedIntentDict.delivery parsed_intent with
  | None => None
  | Some delivery_data =>
      match DeliveryIntentDict.address delivery_data with
      | None => None
      | Some address =>
          if truthy_str address
          then Some
            {| DeliveryDetails.address := address;
               DeliveryDetails.city := "Singapore";
               DeliveryDetails.postal_code := None;
               DeliveryDetails.contact_name :=
                 ParsedIntentDict.customer_name parsed_intent;
               DeliveryDetails.contact_phone :=
                 ParsedIntentDict.contact_info parsed_intent;
               DeliveryDetails.preferred_date :=
                 DeliveryIntentDict.date delivery_data;
               DeliveryDetails.preferred_time := None;
               DeliveryDetails.instructions :=
                 DeliveryIntentDict.notes delivery_data |}
          else None
      end
  end.

Definition _calculate_confidence (parsed_intent : ParsedIntentDict.t)
    (items : list OrderItem.t) : Q :=
  match items with
  | [] => 0%Q
  | _ :: _ =>
      let item_confidence :=
        (qsum (map OrderItem.match_confidence items)
         / inject_Z (Z.of_nat (List.length items)))%Q in
      let intent_confidence :=
        ParsedIntentDict.confidence_score parsed_intent in
      round2 (item_confidence * (6 # 10) + intent_confidence * (4 # 10))
  end.

Definition is_unmatched (item : OrderItem.t) : bool :=
  String.eqb (OrderItem.product_id item) "UNMATCHED".

Definition is_low_confidence (item : OrderItem.t) : bool :=
  (if Qlt_le_dec (OrderItem.match_confidence item) (7 # 10)
   then true else false)
  && negb (is_unmatched item).

Definition is_missing_qty (item : OrderItem.t) : bool :=
  (OrderItem.quantity item <=? 0)%Z.

Definition nonempty {A} (l : list A) : bool :=
  match l with
  | [] => false
  | _ :: _ => true
  end.

Definition _check_confirmation_needs (parsed_intent : ParsedIntentDict.t)
    (items : list OrderItem.t) (delivery : option DeliveryDetails.t)
  : bool * list string :=
  let needs_confirmation := false in
  let notes := @nil string in
  (* Check for unmatched products *)
  let unmatched := List.filter is_unmatched items in
  let '(needs_confirmation, notes) :=
    if nonempty unmatched
    then (true,
          notes ++ [(str_of_nat (List.length unmatched)
                     ++ " product(s) could not be matched - manual selection required")%string])
    else (needs_confirmation, notes) in
  (* Check for low confidence matches *)
  let low_confidence := List.filter is_low_confidence items in
  let '(needs_confirmation, notes) :=
    if nonempty low_confidence
    then (true,
          notes ++ [(str_of_nat (List.length low_confidence)
                     ++ " product(s) have low match confidence - please verify")%string])
    else (needs_confirmation, notes) in
  (* Check for missing quantities *)
  let missing_qty := List.filter is_missing_qty items in
  let '(needs_confirmation, notes) :=
    if nonempty missing_qty
    then (true, notes ++ ["Some items are missing quantities"])
    else (needs_confirmation, notes) in
  (* Check for missing delivery info *)
  let '(needs_confirmation, notes) :=
    match delivery with
    | None => (true, notes ++ ["Delivery address required"])
    | Some _ => (needs_confirmation, notes)
    end in
  (* Check if intent parsing flagged clarification needed *)
  let '(needs_confirmation, notes) :=
    if ParsedIntentDict.needs_clarification parsed_intent
    then (true, notes ++ ParsedIntentDict.clarification_questions parsed_intent)
    else (needs_confirmation, notes) in
  (needs_confirmation, notes).

Definition extract (self : Self) (fresh : Fresh)
    (parsed_intent : ParsedIntentDict.t)
    (matched_products : list MatchedProduct.t) (raw_message : string)
  : Result ExtractedOrder.t :=
  let order_id := _generate_order_id fresh in
  items <- _extract_items parsed_intent matched_products ;;
  (let summary := _calculate_summary self items in
   let delivery := _extract_delivery parsed_intent in
   let confidence_score := _calculate_confidence parsed_intent items in
   let '(needs_confirmation, confirmation_notes) :=
     _check_confirmation_needs parsed_intent items delivery in
   Ok {| ExtractedOrder.order_id := order_id;
         ExtractedOrder.items := items;
         ExtractedOrder.summary := summary;
         ExtractedOrder.delivery := delivery;
         ExtractedOrder.customer_name :=
           ParsedIntentDict.customer_name parsed_intent;
         ExtractedOrder.customer_contact :=
           ParsedIntentDict.contact_info parsed_intent;
         ExtractedOrder.raw_inquiry := raw_message;
         ExtractedOrder.confidence_score := confidence_score;
         ExtractedOrder.needs_confirmation := needs_confirmation;
         ExtractedOrder.confirmation_notes := confirmation_notes;
         ExtractedOrder.created_at := now fresh;
         ExtractedOrder.status := "draft" |}).

Definition apply_discount (self : Self) (order : ExtractedOrder.t)
    (discount_percent : Q) : ExtractedOrder.t :=
  let summary := ExtractedOrder.summary order in
  let discount_amount :=
    (OrderSummary.subtotal summary * (discount_percent / 100))%Q in
  let new_summary :=
    {| OrderSummary.subtotal := OrderSummary.subtotal summary;
       OrderSummary.discount := round2 discount_amount;
       OrderSummary.tax :=
         round2 ((OrderSummary.subtotal summary - discount_amount)
                 * tax_rate self);
       OrderSummary.shipping := OrderSummary.shipping summary;
       OrderSummary.total :=
         round2 (OrderSummary.subtotal summary - discount_amount
                 + (OrderSummary.subtotal summary - discount_amount)
                   * tax_rate self
                 + OrderSummary.shipping summary);
       OrderSummary.currency := OrderSummary.currency summary |} in
  ExtractedOrder.set_summary order new_summary.

Definition confirm_order (order : ExtractedOrder.t) : ExtractedOrder.t :=
  ExtractedOrder.confirm order.

(** The dictionary form of an order, [to_dict(order)]. *)
Module OrderDict.
Record t : Type := {
  order_id : string;
  items : list OrderItem.t;
  summary : OrderSummary.t;
  delivery : option dict;
  customer_name : option string;
  customer_contact : option string;
  raw_inquiry : string;
  confidence_score : Q;
  needs_confirmation : bool;
  confirmation_notes : list string;
  created_at : string;
  status : string }.

(** [order['delivery'] = d] *)
Definition set_delivery (order : t) (d : dict) : t :=
  {| order_id := order_id order;
     items := items order;
     summary := summary order;
     delivery := Some d;
     customer_name := customer_name order;
     customer_contact := customer_contact order;
     raw_inquiry := raw_inquiry order;
     confidence_score := confidence_score order;
     needs_confirmation := needs_confirmation order;
     confirmation_notes := confirmation_notes order;
     created_at := created_at order;
     status := status order |}.
End OrderDict.

(** [asdict(delivery)] *)
Definition delivery_asdict (d : DeliveryDetails.t) : dict :=
  [ ("address", VStr (DeliveryDetails.address d));
    ("city", VStr (DeliveryDetails.city d));
    ("postal_code", opt_str (DeliveryDetails.postal_code d));
    ("contact_name", opt_str (DeliveryDetails.contact_name d));
    ("contact_phone", opt_str (DeliveryDetails.contact_phone d));
    ("preferred_date", opt_str (DeliveryDetails.preferred_date d));
    ("preferred_time", opt_str (DeliveryDetails.preferred_time d));
    ("instructions", opt_str (DeliveryDetails.instructions d)) ].

Definition to_dict (order : ExtractedOrder.t) : OrderDict.t :=
  {| OrderDict.order_id := ExtractedOrder.order_id order;
     OrderDict.items := ExtractedOrder.items order;
     OrderDict.summary := ExtractedOrder.summary order;
     OrderDict.delivery :=
       match ExtractedOrder.delivery order with
       | Some d => Some (delivery_asdict d)
       | None => None
       end;
     OrderDict.customer_name := ExtractedOrder.customer_name order;
     OrderDict.customer_contact := ExtractedOrder.customer_contact order;
     OrderDict.raw_inquiry := ExtractedOrder.raw_inquiry order;
     OrderDict.confidence_score := ExtractedOrder.confidence_score order;
     OrderDict.needs_confirmation := ExtractedOrder.needs_confirmation order;
     OrderDict.confirmation_notes := ExtractedOrder.confirmation_notes order;
     OrderDict.created_at := ExtractedOrder.created_at order;
     OrderDict.status := ExtractedOrder.status order |}.

(** The fields of [DeliveryDetails]. *)
Definition DELIVERY_FIELDS : list string :=
  [ "address"; "city"; "postal_code"; "contact_name"; "contact_phone";
    "preferred_date"; "preferred_time"; "instructions" ].

(** A keyword argument read at the type of its field; [default] when the
    keyword is not given.  The dataclass itself stores any value unchecked;
    a value of another type than the declared one has no place in the typed
    record and stops the reading here. *)
Definition str_keyword (d : dict) (k : string) (default : string)
  : Result string :=
  match assoc k d with
  | None => Ok default
  | Some (VStr s) => Ok s
  | Some _ => Raise TypeError
  end.

Definition opt_str_keyword (d : dict) (k : string) : Result (option string) :=
  match assoc k d with
  | None | Some VNone => Ok None
  | Some (VStr s) => Ok (Some s)
  | Some _ => Raise TypeError
  end.

(** [DeliveryDetails] called with the items of [d] as keyword arguments:
    [TypeError] for a keyword that is not a field and when [address], the
    one field without a default, is not given. *)
Definition delivery_details_of (d : dict) : Result DeliveryDetails.t :=
  if negb (forallb (fun kv => mem (fst kv) DELIVERY_FIELDS) d)
  then Raise TypeError
  else
    match assoc "address" d with
    | None => Raise TypeError
    | Some _ =>
        address <- str_keyword d "address" "" ;;
        city <- str_keyword d "city" "Singapore" ;;
        postal_code <- opt_str_keyword d "postal_code" ;;
        contact_name <- opt_str_keyword d "contact_name" ;;
        contact_phone <- opt_str_keyword d "contact_phone" ;;
        preferred_date <- opt_str_keyword d "preferred_date" ;;
        preferred_time <- opt_str_keyword d "preferred_time" ;;
        instructions <- opt_str_keyword d "instructions" ;;
        Ok {| DeliveryDetails.address := address;
              DeliveryDetails.city := city;
              DeliveryDetails.postal_code := postal_code;
              DeliveryDetails.contact_name := contact_name;
              DeliveryDetails.contact_phone := contact_phone;
              DeliveryDetails.preferred_date := preferred_date;
              DeliveryDetails.preferred_time := preferred_time;
              DeliveryDetails.instructions := instructions |}
    end.

Definition from_dict (data : OrderDict.t) : Result ExtractedOrder.t :=
  delivery <-
    match OrderDict.delivery data with
    | Some d =>
        if truthy (VDict d)
        then x <- delivery_details_of d ;; Ok (Some x)
        else Ok None
    | None => Ok None
    end ;;
  Ok {| ExtractedOrder.order_id := OrderDict.order_id data;
        ExtractedOrder.items := OrderDict.items data;
        ExtractedOrder.summary := OrderDict.summary data;
        ExtractedOrder.delivery := delivery;
        ExtractedOrder.customer_name := OrderDict.customer_name data;
        ExtractedOrder.customer_contact := OrderDict.customer_contact data;
        ExtractedOrder.raw_inquiry := OrderDict.raw_inquiry data;
        ExtractedOrder.confidence_score := OrderDict.confidence_score data;
        ExtractedOrder.needs_confirmation := OrderDict.needs_confirmation data;
        ExtractedOrder.confirmation_notes := OrderDict.confirmation_notes data;
        ExtractedOrder.created_at := OrderDict.created_at data;
        ExtractedOrder.status := OrderDict.status data |}.

End OrderExtractor.

(* ================================================================== *)
(** * backend/whatsapp/message_handler.py                             *)
(* ================================================================== *)

Module MessageHandler.
Import Py.
Module MatchedProduct := ProductMatcher.MatchedProduct.
Module MatchResult := ProductMatcher.MatchResult.
Module OrderItem := OrderExtractor.OrderItem.
Module OrderSummary := OrderExtractor.OrderSummary.
Module ExtractedOrder := OrderExtractor.ExtractedOrder.
Module OrderDict := OrderExtractor.OrderDict.

Inductive ConversationState : Type :=
| IDLE
| AWAITING_INQUIRY
| PROCESSING
| AWAITING_PRODUCT_SELECTION
| AWAITING_QUANTITY
| AWAITING_CONFIRMATION
| AWAITING_DELIVERY_INFO
| ORDER_CONFIRMED
| COMPLETED.

(** An entry of [pending_items]. *)
Module PendingItem.
Record t : Type := {
  product : MatchedProduct.t;
  quantity : option Z }.
End PendingItem.

Record ConversationContext : Type := {
  phone_number : string;
  state : ConversationState;
  parsed_intent : option IntentParser.ParsedIntent;
  matched_products : option (list MatchedProduct.t);
  extracted_order : option OrderDict.t;
  pending_items : option (list PendingItem.t);
  current_item_index : Z;
  last_message_at : option string;
  created_at : string }.

(** Assignments to the attributes of a context. *)
Definition set_state (c : ConversationContext) (s : ConversationState)
  : ConversationContext :=
  {| phone_number := phone_number c; state := s;
     parsed_intent := parsed_intent c;
     matched_products := matched_products c;
     extracted_order := extracted_order c;
     pending_items := pending_items c;
     current_item_index := current_item_index c;
     last_message_at := last_message_at c;
     created_at := created_at c |}.

Definition set_parsed_intent (c : ConversationContext)
    (p : option IntentParser.ParsedIntent) : ConversationContext :=
  {| phone_number := phone_number c; state := state c;
     parsed_intent := p;
     matched_products := matched_products c;
     extracted_order := extracted_order c;
     pending_items := pending_items c;
     current_item_index := current_item_index c;
     last_message_at := last_message_at c;
     created_at := created_at c |}.

Definition set_matched_products (c : ConversationContext)
    (m : option (list MatchedProduct.t)) : ConversationContext :=
  {| phone_number := phone_number c; state := state c;
     parsed_intent := parsed_intent c;
     matched_products := m;
     extracted_order := extracted_order c;
     pending_items := pending_items c;
     current_item_index := current_item_index c;
     last_message_at := last_message_at c;
     created_at := created_at c |}.

Definition set_extracted_order (c : ConversationContext)
    (o : option OrderDict.t) : ConversationContext :=
  {| phone_number := phone_number c; state := state c;
     parsed_intent := parsed_intent c;
     matched_products := matched_products c;
     extracted_order := o;
     pending_items := pending_items c;
     current_item_index := current_item_index c;
     last_message_at := last_message_at c;
     created_at := created_at c |}.

Definition set_pending_items (c : ConversationContext)
    (p : option (list PendingItem.t)) : ConversationContext :=
  {| phone_number := phone_number c; state := state c;
     parsed_intent := parsed_intent c;
     matched_products := matched_products c;
     extracted_order := extracted_order c;
     pending_items := p;
     current_item_index := current_item_index c;
     last_message_at := last_message_at c;
     created_at := created_at c |}.

Definition set_last_message_at (c : ConversationContext)
    (t : option string) : ConversationContext :=
  {| phone_number := phone_number c; state := state c;
     parsed_intent := parsed_intent c;
     matched_products := matched_products c;
     extracted_order := extracted_order c;
     pending_items := pending_items c;
     current_item_index := current_item_index c;
     last_message_at := t;
     created_at := created_at c |}.

(** The collaborators handed to [__init__], by what a call to each of the
    methods the handler uses evaluates to. *)
Record Self : Type := {
  (* await self.intent_parser.parse(message) *)
  parse : string -> Result IntentParser.ParsedIntent;
  (* self.product_matcher.match(query, brand, category, max_results) *)
  match_ : value -> value -> value -> Z -> Result MatchResult.t;
  (* self.product_matcher.get_product_by_id(product_id) *)
  get_product_by_id : string -> Result (option MatchedProduct.t);
  (* self.order_extractor.extract(parsed_intent, matched_products, message) *)
  extract : IntentParser.ParsedIntent -> list MatchedProduct.t -> string
            -> Result ExtractedOrder.t }.

(** The dictionary a handler returns. *)
Inductive Response : Type :=
| send_text (message : string)
| send_interactive (message : string) (buttons : list (string * string))
| send_products (products : list (string * string * Q)) (message : string)
| order_confirmed (order_id : string) (order : OrderDict.t)
                  (message : string).

Definition action (r : Response) : string :=
  match r with
  | send_text _ => "send_text"
  | send_interactive _ _ => "send_interactive"
  | send_products _ _ => "send_products"
  | order_confirmed _ _ _ => "order_confirmed"
  end.

Definition message_of (r : Response) : string :=
  match r with
  | send_text m => m
  | send_interactive m _ => m
  | send_products _ m => m
  | order_confirmed _ _ m => m
  end.

(** [sep.join(lines)] *)
Fixpoint join (sep : string) (lines : list string) : string :=
  match lines with
  | [] => EmptyString
  | [l] => l
  | l :: ls => (l ++ sep ++ join sep ls)%string
  end.

Definition money_or_TBD (x : Q) : string :=
  if Qlt_le_dec 0 x then ("$" ++ format_2f x)%string else "TBD".

Definition summary_item_line (item : OrderItem.t) : string :=
  ("• " ++ OrderItem.product_name item ++ newline
   ++ "  Qty: " ++ str_of_Z (OrderItem.quantity item) ++ " × "
   ++ money_or_TBD (OrderItem.unit_price item) ++ " = "
   ++ money_or_TBD (OrderItem.total_price item))%string.

Definition summary_of (items : list OrderItem.t) (s : OrderSummary.t)
  : string :=
  (join newline (map summary_item_line items)
   ++ newline ++ newline ++ "*Subtotal:* $" ++ format_2f (OrderSummary.subtotal s)
   ++ (if Qlt_le_dec 0 (OrderSummary.tax s)
       then newline ++ "*GST (9%):* $" ++ format_2f (OrderSummary.tax s)
       else "")
   ++ (if Qlt_le_dec 0 (OrderSummary.shipping s)
       then newline ++ "*Shipping:* $" ++ format_2f (OrderSummary.shipping s)
       else "")
   ++ newline ++ "*Total:* $" ++ format_2f (OrderSummary.total s) ++ " SGD")%string.

Definition _build_order_summary (order : ExtractedOrder.t) : string :=
  summary_of (ExtractedOrder.items order) (ExtractedOrder.summary order).

Definition _build_order_summary_from_dict (order_dict : option OrderDict.t)
  : Result string :=
  match order_dict with
  | Some o => Ok (summary_of (OrderDict.items o) (OrderDict.summary o))
  | None => Raise AttributeError
  end.

Definition confirm_modify_cancel : list (string * string) :=
  [ ("confirm_order", "Confirm Order");
    ("modify_order", "Modify Order");
    ("cancel_order", "Cancel") ].

Definition onboarding_message : string :=
  ("Hi! I'm the UnidBox Order Copilot. I can help you with:" ++ newline ++ newline
   ++ "• Placing orders for hardware supplies" ++ newline
   ++ "• Checking product prices and availability" ++ newline
   ++ "• Tracking your order status" ++ newline ++ newline
   ++ "Just tell me what you need! For example:" ++ newline
   ++ "_'I need 10 Acorn ceiling fans for a condo project'_")%string.

Definition order_number_message : string :=
  ("To check your order status, please provide your order number."
   ++ newline ++ newline
   ++ "Example: _UB-20260131-ABC123_")%string.

Definition delivery_request_message : string :=
  ("Great! Please provide your delivery details:" ++ newline ++ newline
   ++ "📍 Delivery address" ++ newline
   ++ "📅 Preferred delivery date" ++ newline
   ++ "📱 Contact number" ++ newline ++ newline
   ++ "Example: _123 Hougang Ave 1, #01-01, Singapore 530123. "
   ++ "Delivery next Monday. Contact: 91234567_")%string.

Definition order_confirmed_message (order_id : string) : string :=
  ("✅ *Order Confirmed!*" ++ newline ++ newline
   ++ "Order ID: *" ++ order_id ++ "*" ++ newline ++ newline
   ++ "We'll process your order and send you a Delivery Order (DO) shortly."
   ++ newline ++ newline
   ++ "Thank you for ordering with UnidBox Hardware! 🙏")%string.

(** The loop over [parsed.products] of [_handle_new_inquiry]: the best
    match of every mention that has one. *)
Fixpoint match_products (self : Self)
    (products : list IntentParser.ProductIntent)
  : Result (list MatchedProduct.t) :=
  match products with
  | [] => Ok []
  | product_intent :: rest =>
      result <- match_ self (IntentParser.raw_text product_intent)
                  (IntentParser.brand product_intent)
                  (IntentParser.category product_intent) 3 ;;
      more <- match_products self rest ;;
      Ok (match MatchResult.matches result with
          | [] => more
          | best :: _ => best :: more
          end)
  end.

Definition _handle_new_inquiry (self : Self) (context : ConversationContext)
    (message : string) : ConversationContext * Result Response :=
  let context := set_state context PROCESSING in
  (* Parse the intent *)
  match parse self message with
  | Raise e => (context, Raise e)
  | Ok parsed =>
  let context := set_parsed_intent context (Some parsed) in
  (* Check intent type *)
  match IntentParser.intent_type parsed with
  | IntentParser.UNCLEAR =>
      (set_state context AWAITING_INQUIRY, Ok (send_text onboarding_message))
  | IntentParser.ORDER_STATUS =>
      (context, Ok (send_text order_number_message))
  | _ =>
  (* Match products from the inquiry *)
  match match_products self (IntentParser.products parsed) with
  | Raise e => (context, Raise e)
  | Ok matched_products =>
  let context := set_matched_products context (Some matched_products) in
  (* Extract order *)
  match extract self parsed matched_products message with
  | Raise e => (context, Raise e)
  | Ok order =>
  let context :=
    set_extracted_order context (Some (OrderExtractor.to_dict order)) in
  if ExtractedOrder.needs_confirmation order
     && OrderExtractor.nonempty (ExtractedOrder.confirmation_notes order)
  then
    let context := set_state context AWAITING_CONFIRMATION in
    let summary := _build_order_summary order in
    let notes :=
      join newline
        (map (fun note => ("⚠️ " ++ note)%string)
             (ExtractedOrder.confirmation_notes order)) in
    (context,
     Ok (send_interactive
           ("📋 *Order Summary*" ++ newline ++ newline ++ summary
            ++ newline ++ newline ++ notes)%string
           confirm_modify_cancel))
  else
    (* If order is ready, ask for confirmation *)
    let context := set_state context AWAITING_CONFIRMATION in
    let summary := _build_order_summary order in
    (context,
     Ok (send_interactive
           ("📋 *Order Summary*" ++ newline ++ newline ++ summary
            ++ newline ++ newline
            ++ "Would you like to proceed with this order?")%string
           confirm_modify_cancel))
  end end end end.

Definition _handle_product_selection (self : Self)
    (context : ConversationContext) (message : string)
  : ConversationContext * Result Response :=
  let search (context : ConversationContext) :=
    (* Treat as search query *)
    match match_ self (VStr message) VNone VNone 5 with
    | Raise e => (context, Raise e)
    | Ok result =>
        match MatchResult.matches result with
        | _ :: _ =>
            (context,
             Ok (send_products
                   (map (fun m => (MatchedProduct.product_id m,
                                   MatchedProduct.clean_name m,
                                   MatchedProduct.price m))
                        (MatchResult.matches result))
                   ("Found " ++ str_of_nat (MatchResult.total_found result)
                    ++ " products matching '" ++ message ++ "':")%string))
        | [] =>
            (context,
             Ok (send_text
                   ("Sorry, I couldn't find any products matching '"
                    ++ message ++ "'. "
                    ++ "Please try a different search term or browse our catalog.")%string))
        end
    end in
  (* Check if message is a product selection *)
  if startswith message "product_"
  then
    let product_id := replace "product_" "" message in
    match get_product_by_id self product_id with
    | Raise e => (context, Raise e)
    | Ok (Some product) =>
        let context := set_state context AWAITING_QUANTITY in
        let pending :=
          match pending_items context with
          | Some (x :: xs) => x :: xs
          | _ => []
          end in
        let context :=
          set_pending_items context
            (Some (pending ++ [ {| PendingItem.product := product;
                                   PendingItem.quantity := None |} ])) in
        (context,
         Ok (send_text
               ("Great choice! *" ++ MatchedProduct.name product ++ "* - $"
                ++ format_2f (MatchedProduct.price product)
                ++ newline ++ newline
                ++ "How many units do you need?")%string))
    | Ok None => search context
    end
  else search context.

(** [pending_items[-1]["quantity"] = quantity] *)
Fixpoint set_last_quantity (items : list PendingItem.t) (quantity : Z)
  : list PendingItem.t :=
  match items with
  | [] => []
  | [x] => [ {| PendingItem.product := PendingItem.product x;
                PendingItem.quantity := Some quantity |} ]
  | x :: xs => x :: set_last_quantity xs quantity
  end.

Definition _handle_quantity_input (context : ConversationContext)
    (message : string) : ConversationContext * Result Response :=
  let invalid :=
    (context,
     Ok (send_text
           ("Please enter a valid quantity (a positive number)."
            ++ newline ++ newline
            ++ "Example: _10_")%string)) in
  match int_of_str (strip message) with
  | Raise _ => invalid
  | Ok quantity =>
      if (quantity <=? 0)%Z then invalid
      else
        (* Update pending item *)
        let context :=
          match pending_items context with
          | Some (x :: xs) =>
              set_pending_items context
                (Some (set_last_quantity (x :: xs) quantity))
          | _ => context
          end in
        (* Ask if they want to add more items *)
        let context := set_state context AWAITING_CONFIRMATION in
        (context,
         Ok (send_interactive
               ("Added " ++ str_of_Z quantity ++ " units to your order."
                ++ newline ++ newline
                ++ "Would you like to add more items or proceed to checkout?")%string
               [ ("add_more", "Add More Items");
                 ("checkout", "Checkout");
                 ("cancel_order", "Cancel") ]))
  end.

(** [not order.get('delivery')] *)
Definition lacks_delivery (order : OrderDict.t) : bool :=
  match OrderDict.delivery order with
  | Some d => negb (truthy (VDict d))
  | None => true
  end.

Definition confirm_synonyms : list string :=
  ["confirm_order"; "yes"; "confirm"; "proceed"].

Definition _handle_confirmation (context : ConversationContext)
    (message : string) : ConversationContext * Result Response :=
  let message_lower := strip (lower message) in
  if mem message_lower confirm_synonyms then
    match extracted_order context with
    | None => (context, Raise AttributeError)
    | Some order =>
        (* Check if we have delivery info *)
        if lacks_delivery order then
          (set_state context AWAITING_DELIVERY_INFO,
           Ok (send_text delivery_request_message))
        else
          (* Order is confirmed *)
          let context := set_state context ORDER_CONFIRMED in
          let order_id := OrderDict.order_id order in
          (context,
           Ok (order_confirmed order_id order
                 (order_confirmed_message order_id)))
    end
  else if mem message_lower ["modify_order"; "modify"; "change"] then
    (set_state context AWAITING_PRODUCT_SELECTION,
     Ok (send_text
           ("No problem! What would you like to change?" ++ newline ++ newline
            ++ "You can:" ++ newline
            ++ "• Add more products" ++ newline
            ++ "• Change quantities" ++ newline
            ++ "• Remove items" ++ newline ++ newline
            ++ "Just tell me what you need!")%string))
  else if mem message_lower ["cancel_order"; "cancel"; "no"] then
    let context := set_state context IDLE in
    let context := set_extracted_order context None in
    let context := set_matched_products context None in
    (context,
     Ok (send_text
           ("Order cancelled. No worries!" ++ newline ++ newline
            ++ "Feel free to start a new order anytime. "
            ++ "Just tell me what you need! 😊")%string))
  else if mem message_lower ["add_more"] then
    (set_state context AWAITING_PRODUCT_SELECTION,
     Ok (send_text
           ("Sure! What else would you like to add?" ++ newline ++ newline
            ++ "Tell me the product name or search for items.")%string))
  else if mem message_lower ["checkout"] then
    (* Proceed to delivery info *)
    (set_state context AWAITING_DELIVERY_INFO,
     Ok (send_text
           ("Please provide your delivery details:" ++ newline ++ newline
            ++ "📍 Delivery address" ++ newline
            ++ "📅 Preferred delivery date" ++ newline
            ++ "📱 Contact number")%string))
  else
    (context,
     Ok (send_interactive "Please select an option:" confirm_modify_cancel)).

Definition _handle_delivery_info (context : ConversationContext)
    (message : string) : ConversationContext * Result Response :=
  let context :=
    match extracted_order context with
    | Some order =>
        set_extracted_order context
          (Some (OrderDict.set_delivery order
                   [ ("address", VStr message);
                     ("city", VStr "Singapore");
                     ("notes", VStr message) ]))
    | None => context
    end in
  let context := set_state context AWAITING_CONFIRMATION in
  match _build_order_summary_from_dict (extracted_order context) with
  | Raise e => (context, Raise e)
  | Ok summary =>
      (context,
       Ok (send_interactive
             ("📋 *Final Order Summary*" ++ newline ++ newline ++ summary
              ++ newline ++ newline
              ++ "📍 Delivery: " ++ message ++ newline ++ newline
              ++ "Ready to confirm?")%string
             [ ("confirm_order", "Confirm Order");
               ("modify_order", "Modify");
               ("cancel_order", "Cancel") ]))
  end.

(** The routing of [handle_message], on the context of the sender. *)
Definition route (self : Self) (context : ConversationContext)
    (message_text : string) : ConversationContext * Result Response :=
  match state context with
  | IDLE | AWAITING_INQUIRY => _handle_new_inquiry self context message_text
  | AWAITING_PRODUCT_SELECTION =>
      _handle_product_selection self context message_text
  | AWAITING_QUANTITY => _handle_quantity_input context message_text
  | AWAITING_CONFIRMATION => _handle_confirmation context message_text
  | AWAITING_DELIVERY_INFO => _handle_delivery_info context message_text
  | _ =>
      (* Default: treat as new inquiry *)
      _handle_new_inquiry self context message_text
  end.

(** [self.conversations]: the contexts by phone number. *)
Definition Conversations : Type := string -> option ConversationContext.

Definition no_conversations : Conversations := fun _ => None.

Definition store (cs : Conversations) (k : string) (c : ConversationContext)
  : Conversations :=
  fun k' => if String.eqb k' k then Some c else cs k'.

Definition remove (cs : Conversations) (k : string) : Conversations :=
  fun k' => if String.eqb k' k then None else cs k'.

(** [utcnow] is the reading of the clock at the call. *)
Definition _get_or_create_context (cs : Conversations) (utcnow : string)
    (phone_number : string) : Conversations * ConversationContext :=
  match cs phone_number with
  | Some c => (cs, c)
  | None =>
      let c := {| phone_number := phone_number;
                  state := IDLE;
                  parsed_intent := None;
                  matched_products := None;
                  extracted_order := None;
                  pending_items := None;
                  current_item_index := 0;
                  last_message_at := None;
                  created_at := utcnow |} in
      (store cs phone_number c, c)
  end.

Definition handle_message (self : Self) (utcnow : string)
    (cs : Conversations) (phone_number message_text : string)
  : Conversations * Result Response :=
  let '(cs, context) := _get_or_create_context cs utcnow phone_number in
  let context := set_last_message_at context (Some utcnow) in
  let '(context, response) := route self context message_text in
  (store cs phone_number context, response).

Definition reset_context (cs : Conversations) (phone_number : string)
  : Conversations :=
  remove cs phone_number.

(** The conversations a handler can hold: none at first, then whatever
    messages and resets make of them.  Every message may find the
    collaborators and the clock in another condition. *)
Inductive reachable : Conversations -> Prop :=
| reachable_initially : reachable no_conversations
| reachable_by_message (self : Self) (utcnow : string) (cs : Conversations)
    (phone_number message_text : string) :
    reachable cs ->
    reachable (fst (handle_message self utcnow cs phone_number message_text))
| reachable_by_reset (cs : Conversations) (phone_number : string) :
    reachable cs ->
    reachable (reset_context cs phone_number).

(** The conversations a handler can hold when its collaborators are among
    those that [allowed] describes. *)
Inductive reachable_with (allowed : Self -> Prop) : Conversations -> Prop :=
| with_none : reachable_with allowed no_conversations
| with_message (self : Self) (utcnow : string) (cs : Conversations)
    (phone_number message_text : string) :
    allowed self ->
    reachable_with allowed cs ->
    reachable_with allowed
      (fst (handle_message self utcnow cs phone_number message_text))
| with_reset (cs : Conversations) (phone_number : string) :
    reachable_with allowed cs ->
    reachable_with allowed (reset_context cs phone_number).

(** The dictionary [_handle_delivery_info] stores for a message. *)
Definition captured_delivery (message : string) : dict :=
  [ ("address", VStr message);
    ("city", VStr "Singapore");
    ("notes", VStr message) ].

End MessageHandler.

(* ================================================================== *)
(** * The collaborators [MessageHandler()] builds by default           *)
(* ================================================================== *)

Module Defaults.
Import Py.
Module ProductIntentDict := OrderExtractor.ProductIntentDict.
Module DeliveryIntentDict := OrderExtractor.DeliveryIntentDict.
Module ParsedIntentDict := OrderExtractor.ParsedIntentDict.

(** Between the parser and the other two modules the values are read at
    the types the dataclasses declare.  A value of another type makes the
    call raise here; in the source it raises, or goes wrong, at its first
    use. *)
Definition str_arg (v : value) : Result string :=
  match v with
  | VStr s => Ok s
  | _ => Raise AttributeError
  end.

Definition opt_str_arg (v : value) : Result (option string) :=
  match v with
  | VNone => Ok None
  | VStr s => Ok (Some s)
  | _ => Raise AttributeError
  end.

Definition opt_int_arg (v : value) : Result (option Z) :=
  match v with
  | VNone => Ok None
  | VInt n => Ok (Some n)
  | _ => Raise TypeError
  end.

Definition float_arg (v : value) : Result Q :=
  match v with
  | VFloat q => Ok q
  | VInt n => Ok (inject_Z n)
  | _ => Raise TypeError
  end.

Definition list_str_arg (v : value) : Result (list string) :=
  match v with
  | VList l => mapM str_arg l
  | _ => Raise TypeError
  end.

Definition product_intent_dict (p : IntentParser.ProductIntent)
  : Result ProductIntentDict.t :=
  raw_text <- str_arg (IntentParser.raw_text p) ;;
  product_name <- opt_str_arg (IntentParser.product_name p) ;;
  quantity <- opt_int_arg (IntentParser.quantity p) ;;
  brand <- opt_str_arg (IntentParser.brand p) ;;
  category <- opt_str_arg (IntentParser.category p) ;;
  confidence <- float_arg (IntentParser.confidence p) ;;
  Ok {| ProductIntentDict.raw_text := raw_text;
        ProductIntentDict.product_name := product_name;
        ProductIntentDict.quantity := quantity;
        ProductIntentDict.brand := brand;
        ProductIntentDict.category := category;
        ProductIntentDict.confidence := confidence |}.

Definition delivery_intent_dict (d : IntentParser.DeliveryIntent)
  : Result DeliveryIntentDict.t :=
  address <- opt_str_arg (IntentParser.address d) ;;
  date <- opt_str_arg (IntentParser.date d) ;;
  urgency <- opt_str_arg (IntentParser.urgency d) ;;
  notes <- opt_str_arg (IntentParser.notes d) ;;
  Ok {| DeliveryIntentDict.address := address;
        DeliveryIntentDict.date := date;
        DeliveryIntentDict.urgency := urgency;
        DeliveryIntentDict.notes := notes |}.

(** [IntentParser.to_dict], read at the declared types. *)
Definition to_dict (intent : IntentParser.ParsedIntent)
  : Result ParsedIntentDict.t :=
  products <- mapM product_intent_dict (IntentParser.products intent) ;;
  delivery <-
    match IntentParser.delivery intent with
    | Some d => d <- delivery_intent_dict d ;; Ok (Some d)
    | None => Ok None
    end ;;
  customer_name <- opt_str_arg (IntentParser.customer_name intent) ;;
  contact_info <- opt_str_arg (IntentParser.contact_info intent) ;;
  confidence <- float_arg (IntentParser.confidence_score intent) ;;
  questions <- list_str_arg (IntentParser.clarification_questions intent) ;;
  summary <- str_arg (IntentParser.summary intent) ;;
  Ok {| ParsedIntentDict.intent_type :=
          IntentParser.IntentType_value (IntentParser.intent_type intent);
        ParsedIntentDict.products := products;
        ParsedIntentDict.delivery := delivery;
        ParsedIntentDict.customer_name := customer_name;
        ParsedIntentDict.contact_info := contact_info;
        ParsedIntentDict.raw_message := IntentParser.raw_message intent;
        ParsedIntentDict.confidence_score := confidence;
        ParsedIntentDict.needs_clarification :=
          truthy (IntentParser.needs_clarification intent);
        ParsedIntentDict.clarification_questions := questions;
        ParsedIntentDict.summary := summary |}.

Section Wiring.
Variable ratio : string -> string -> Q.
Variable catalog : list ProductMatcher.Product.t.
Variable fresh : OrderExtractor.Fresh.

(** [MessageHandler(catalog_path=...)]: an [IntentParser] without a
    client, a [ProductMatcher] on the catalog, an [OrderExtractor] with
    its default rates. *)
Definition self : MessageHandler.Self :=
  {| MessageHandler.parse := IntentParser.parse None;
     MessageHandler.match_ := fun query brand category max_results =>
       query <- str_arg query ;;
       brand <- opt_str_arg brand ;;
       category <- opt_str_arg category ;;
       ProductMatcher.match_ ratio catalog query brand category
         max_results (3 # 10);
     MessageHandler.get_product_by_id :=
       ProductMatcher.get_product_by_id catalog;
     MessageHandler.extract := fun parsed_intent matched_products message =>
       parsed_intent <- to_dict parsed_intent ;;
       OrderExtractor.extract (OrderExtractor.init None None) fresh
         parsed_intent matched_products message |}.
End Wiring.

End Defaults.

(* ================================================================== *)
(** * Notions of the specification                                    *)
(* ================================================================== *)

Module Spec.
Import Py.

(** [mean(xs), or 0 if there is none] *)
Definition mean (xs : list Q) : Q :=
  match xs with
  | [] => 0%Q
  | _ :: _ => (qsum xs / inject_Z (Z.of_nat (List.length xs)))%Q
  end.

(** The order confidence in the words of the specification:
    [round(0.6 * mean(match_confidence) + 0.4 * intent confidence, 2)]. *)
Definition order_confidence (match_confidences : list Q)
    (intent_confidence : Q) : Q :=
  round2 ((6 # 10) * mean match_confidences + (4 # 10) * intent_confidence)%Q.

(** An amount in whole cents. *)
Definition whole_cents (x : Q) : Prop :=
  exists n : Z, (x == inject_Z n / 100)%Q.

(** What every summary the source builds satisfies: subtotal and shipping
    are whole cents, and the total is within a cent of the sum of the
    stored parts. *)
Definition settled (s : OrderExtractor.OrderSummary.t) : Prop :=
  whole_cents (OrderExtractor.OrderSummary.subtotal s)
  /\ whole_cents (OrderExtractor.OrderSummary.shipping s)
  /\ (Qabs (OrderExtractor.OrderSummary.total s
            - (OrderExtractor.OrderSummary.subtotal s
               - OrderExtractor.OrderSummary.discount s
               + OrderExtractor.OrderSummary.tax s
               + OrderExtractor.OrderSummary.shipping s)) <= 1 # 100)%Q.

(** A message of blanks only (none included). *)
Fixpoint blank (s : string) : bool :=
  match s with
  | EmptyString => true
  | String c s' => is_space c && blank s'
  end.

(** Largest score first. *)
Definition by_score_desc {A} (score : A -> Q) (a b : A) : Prop :=
  (score b <= score a)%Q.

(** The elements whose score is [s]. *)
Definition with_score {A} (score : A -> Q) (s : Q) (l : list A) : list A :=
  List.filter (fun x => Qeq_bool (score x) s) l.

(** The states a session is in only while it holds a draft order. *)
Definition needs_draft (s : MessageHandler.ConversationState) : bool :=
  match s with
  | MessageHandler.AWAITING_PRODUCT_SELECTION
  | MessageHandler.AWAITING_QUANTITY
  | MessageHandler.AWAITING_CONFIRMATION
  | MessageHandler.AWAITING_DELIVERY_INFO
  | MessageHandler.ORDER_CONFIRMED => true
  | _ => false
  end.

(** What holds of every session between two messages: past the first
    inquiry there is a draft order, and a confirmed session has delivery
    information on it. *)
Definition session_invariant (c : MessageHandler.ConversationContext)
  : Prop :=
  (needs_draft (MessageHandler.state c) = true ->
   exists order, MessageHandler.extracted_order c = Some order)
  /\ (MessageHandler.state c = MessageHandler.ORDER_CONFIRMED ->
      exists order,
        MessageHandler.extracted_order c = Some order
        /\ MessageHandler.lacks_delivery order = false).

(** Two contexts that agree on the fields a session is opened with. *)
Definition same_session (a b : MessageHandler.ConversationContext) : Prop :=
  MessageHandler.phone_number a = MessageHandler.phone_number b
  /\ MessageHandler.created_at a = MessageHandler.created_at b
  /\ MessageHandler.current_item_index a
     = MessageHandler.current_item_index b
  /\ MessageHandler.last_message_at a = MessageHandler.last_message_at b.

(** Two order dictionaries that differ at most in their delivery entry. *)
Definition same_but_delivery (a b : OrderExtractor.OrderDict.t) : Prop :=
  OrderExtractor.OrderDict.set_delivery a []
  = OrderExtractor.OrderDict.set_delivery b [].

(** Collaborators whose extractor hands out draft orders only, as
    [OrderExtractor.extract] does. *)
Definition drafts (self : MessageHandler.Self) : Prop :=
  forall parsed matched message order,
    MessageHandler.extract self parsed matched message = Py.Ok order ->
    OrderExtractor.ExtractedOrder.status order = "draft"%string.

(** Two summaries with equal amounts. *)
Definition same_amounts (a b : OrderExtractor.OrderSummary.t) : Prop :=
  (OrderExtractor.OrderSummary.subtotal a
   == OrderExtractor.OrderSummary.subtotal b
   /\ OrderExtractor.OrderSummary.discount a
      == OrderExtractor.OrderSummary.discount b
   /\ OrderExtractor.OrderSummary.tax a == OrderExtractor.OrderSummary.tax b
   /\ OrderExtractor.OrderSummary.shipping a
      == OrderExtractor.OrderSummary.shipping b
   /\ OrderExtractor.OrderSummary.total a
      == OrderExtractor.OrderSummary.total b)%Q
  /\ OrderExtractor.OrderSummary.currency a
     = OrderExtractor.OrderSummary.currency b.

(** What an order line owes to its mention, and how its total is made. *)
Definition line_of (mention : OrderExtractor.ProductIntentDict.t)
    (item : OrderExtractor.OrderItem.t) : Prop :=
  OrderExtractor.OrderItem.quantity item
  = OrderExtractor.quantity_or_1
      (OrderExtractor.ProductIntentDict.quantity mention)
  /\ (OrderExtractor.OrderItem.total_price item
      == OrderExtractor.OrderItem.unit_price item
         * inject_Z (OrderExtractor.OrderItem.quantity item))%Q
  /\ (OrderExtractor.OrderItem.product_id item = "UNMATCHED"%string
      \/ OrderExtractor.OrderItem.notes item
         = Some (OrderExtractor.ProductIntentDict.raw_text mention)).

(** A line for a mention that no candidate resolves. *)
Definition placeholder_line (item : OrderExtractor.OrderItem.t) : Prop :=
  OrderExtractor.OrderItem.product_id item = "UNMATCHED"%string
  /\ (OrderExtractor.OrderItem.unit_price item == 0
      /\ OrderExtractor.OrderItem.total_price item == 0
      /\ OrderExtractor.OrderItem.match_confidence item == 0)%Q.

(** A string without a digit. *)
Fixpoint no_digit (s : string) : bool :=
  match s with
  | EmptyString => true
  | String c s' => negb (is_digit c) && no_digit s'
  end.

Fixpoint all_digits (s : string) : bool :=
  match s with
  | EmptyString => true
  | String c s' => is_digit c && all_digits s'
  end.

(** A decimal integer: a non-empty string of digits. *)
Definition is_integer (s : string) : bool :=
  negb (is_empty s) && all_digits s.

(** A string that does not go on with a digit. *)
Definition no_digit_ahead (s : string) : bool :=
  match s with
  | EmptyString => true
  | String c _ => negb (is_digit c)
  end.

End Spec.

(* ================================================================== *)
(** * Sample data                                                     *)
(* ================================================================== *)

Module Sample.
Import Py.
Module Product := ProductMatcher.Product.
Module MatchedProduct := ProductMatcher.MatchedProduct.
Module ProductIntentDict := OrderExtractor.ProductIntentDict.
Module ParsedIntentDict := OrderExtractor.ParsedIntentDict.
Module OrderItem := OrderExtractor.OrderItem.

Definition product (item_id name : string) (price : Q) : Product.t :=
  {| Product.item_id := Some item_id;
     Product.name := Some name;
     Product.clean_name := Some name;
     Product.price_numeric := Some price;
     Product.price := None;
     Product.original_price := None;
     Product.url := None;
     Product.image_path := None |}.

Definition acorn_fan : Product.t := product "P1" "Acorn DC Ceiling Fan" 199.
Definition spin_fan : Product.t := product "P2" "Spin Ceiling Fan" 150.
Definition tecno_hood : Product.t := product "P3" "Tecno Chimney Hood" 420.

Definition catalog : list Product.t := [acorn_fan; spin_fan; tecno_hood].

(** A record whose raw name is written in lower case. *)
Definition plain_fan : Product.t := product "P4" "acorn dc ceiling fan" 199.

Definition fresh : OrderExtractor.Fresh :=
  {| OrderExtractor.timestamp := "20260131";
     OrderExtractor.unique_part := "ABC123";
     OrderExtractor.now := "2026-01-31T08:00:00" |}.

Definition handler : MessageHandler.Self :=
  Defaults.self Difflib.ratio catalog fresh.

Definition mention (raw_text : string) (quantity : option Z)
  : ProductIntentDict.t :=
  {| ProductIntentDict.raw_text := raw_text;
     ProductIntentDict.product_name := None;
     ProductIntentDict.quantity := quantity;
     ProductIntentDict.brand := Some "Acorn";
     ProductIntentDict.category := Some "Ceiling Fans";
     ProductIntentDict.confidence := 6 # 10 |}.

Definition intent (products : list ProductIntentDict.t) (confidence : Q)
  : ParsedIntentDict.t :=
  {| ParsedIntentDict.intent_type := "order_inquiry";
     ParsedIntentDict.products := products;
     ParsedIntentDict.delivery := None;
     ParsedIntentDict.customer_name := None;
     ParsedIntentDict.contact_info := None;
     ParsedIntentDict.raw_message := "";
     ParsedIntentDict.confidence_score := confidence;
     ParsedIntentDict.needs_clarification := false;
     ParsedIntentDict.clarification_questions := [];
     ParsedIntentDict.summary := "" |}.

Definition matched (price score : Q) : MatchedProduct.t :=
  {| MatchedProduct.product_id := "P1";
     MatchedProduct.name := "Acorn DC Ceiling Fan";
     MatchedProduct.clean_name := "Acorn DC Ceiling Fan";
     MatchedProduct.price := price;
     MatchedProduct.original_price := None;
     MatchedProduct.brand := Some "Acorn";
     MatchedProduct.category := Some "Ceiling Fans";
     MatchedProduct.url := "";
     MatchedProduct.image_path := None;
     MatchedProduct.match_score := score;
     MatchedProduct.match_reason := [] |}.

Definition item (product_id : string) (quantity : Z) (confidence : Q)
  : OrderItem.t :=
  {| OrderItem.product_id := product_id;
     OrderItem.product_name := "Acorn DC Ceiling Fan";
     OrderItem.quantity := quantity;
     OrderItem.unit_price := 10;
     OrderItem.total_price := 10 * inject_Z quantity;
     OrderItem.brand := None;
     OrderItem.category := None;
     OrderItem.notes := None;
     OrderItem.match_confidence := confidence |}.

(** A mention with a category and no brand, as the pattern matcher emits
    it for a message that names no brand. *)
Definition hood_mention : ProductIntentDict.t :=
  {| ProductIntentDict.raw_text := "2 hoods";
     ProductIntentDict.product_name := None;
     ProductIntentDict.quantity := Some 2%Z;
     ProductIntentDict.brand := None;
     ProductIntentDict.category := Some "Range Hoods";
     ProductIntentDict.confidence := 6 # 10 |}.

(** A record whose prices are given as text only. *)
Definition text_priced_tap : Product.t :=
  {| Product.item_id := Some "P9";
     Product.name := Some "Pozzi Basin Tap";
     Product.clean_name := None;
     Product.price_numeric := None;
     Product.price := Some "-S$1,299.50";
     Product.original_price := Some "$1,500";
     Product.url := None;
     Product.image_path := None |}.

End Sample.

(* ================================================================== *)
(** * Properties                                                      *)
(* ================================================================== *)

(** ** Strings *)

Section StringFacts.
Import Py.

Lemma to_lower_idempotent (c : ascii) : to_lower (to_lower c) = to_lower c.
Proof.
  destruct c as [[] [] [] [] [] [] [] []]; reflexivity.
Qed.

Lemma lower_idempotent (s : string) : lower (lower s) = lower s.
Proof.
  induction s as [|c s IH]; simpl; [reflexivity|].
  now rewrite to_lower_idempotent, IH.
Qed.

Lemma prefix_empty (b : string) : String.prefix "" b = true.
Proof. destruct b; reflexivity. Qed.

Lemma prefix_cons (c d : ascii) (a b : string) :
  String.prefix (String c a) (String d b)
  = if ascii_dec c d then String.prefix a b else false.
Proof. reflexivity. Qed.

Lemma prefix_lower (a b : string) :
  String.prefix a b = true -> String.prefix (lower a) (lower b) = true.
Proof.
  revert b; induction a as [|c a IH]; intros b H.
  - apply prefix_empty.
  - destruct b as [|d b]; [discriminate|].
    rewrite prefix_cons in H. simpl lower. rewrite prefix_cons.
    revert H. destruct (ascii_dec c d) as [->|Hne]; intros H; [|discriminate].
    destruct (ascii_dec (to_lower d) (to_lower d)) as [_|Hn]; [|now elim Hn].
    now apply IH.
Qed.

Lemma contains_empty (a : string) :
  contains a "" = String.prefix a "".
Proof. destruct a; reflexivity. Qed.

Lemma contains_cons (a : string) (d : ascii) (b : string) :
  contains a (String d b)
  = if String.prefix a (String d b) then true else contains a b.
Proof. reflexivity. Qed.

(** A needle found in a string is found, in lower case, in the lower-cased
    string. *)
Lemma contains_lower (a b : string) :
  contains a b = true -> contains (lower a) (lower b) = true.
Proof.
  induction b as [|d b IH]; intros H.
  - rewrite contains_empty in H. apply prefix_lower in H.
    simpl lower in *. now rewrite contains_empty.
  - rewrite contains_cons in H. simpl lower. rewrite contains_cons.
    destruct (String.prefix a (String d b)) eqn:E.
    + apply prefix_lower in E. simpl lower in E. now rewrite E.
    + destruct (String.prefix (lower a) (String (to_lower d) (lower b)));
        [reflexivity|]. now apply IH.
Qed.

End StringFacts.

(** ** C1: the bonuses of [_score_product] *)

Section ScoreBonus.
Import Py ProductMatcher.
Variable ratio : string -> string -> Q.

Lemma brand_bonus (product : Product.t) (query : string)
    (brand category : option string) :
  supplied brand = true ->
  contains (lower (or_empty brand)) (product_name_of product) = true ->
  fst (uncapped_score ratio product query brand category)
  == fst (uncapped_score ratio product query None category) + (3 # 10).
Proof.
  intros Hs Hc. unfold uncapped_score. rewrite Hs, Hc. simpl supplied.
  destruct (Qlt_le_dec (3 # 10) _); destruct (set_inter _ _);
    destruct (supplied category); try destruct (any_in _ _);
    cbn [fst]; ring.
Qed.

Lemma category_bonus (product : Product.t) (query : string)
    (brand category : option string) :
  supplied category = true ->
  any_in (keywords_of CATEGORY_KEYWORDS (or_empty category))
         (product_name_of product) = true ->
  fst (uncapped_score ratio product query brand category)
  == fst (uncapped_score ratio product query brand None) + (2 # 10).
Proof.
  intros Hs Hc. unfold uncapped_score. rewrite Hs, Hc. simpl supplied.
  destruct (Qlt_le_dec (3 # 10) _); destruct (set_inter _ _);
    destruct (supplied brand); try destruct (contains _ _);
    cbn [fst]; ring.
Qed.

End ScoreBonus.

(** C1 (as amended).  For every catalog record, a brand hint that is
    supplied (not empty) and whose lower-cased form occurs in the
    lower-cased raw name adds exactly 0.3 to the score before the cap, and a
    category hint that is supplied and one of whose keywords occurs in the
    lower-cased raw name adds exactly 0.2. *)
Theorem C1_bonuses_are_three_and_two_tenths
    (ratio : string -> string -> Q) (product : ProductMatcher.Product.t)
    (query : string) (brand category : option string) :
  (ProductMatcher.supplied brand = true ->
   Py.contains (Py.lower (ProductMatcher.or_empty brand))
     (ProductMatcher.product_name_of product) = true ->
   fst (ProductMatcher.uncapped_score ratio product query brand category)
   == fst (ProductMatcher.uncapped_score ratio product query None category)
      + (3 # 10))
  /\
  (ProductMatcher.supplied category = true ->
   Py.any_in
     (ProductMatcher.keywords_of ProductMatcher.CATEGORY_KEYWORDS
        (ProductMatcher.or_empty category))
     (ProductMatcher.product_name_of product) = true ->
   fst (ProductMatcher.uncapped_score ratio product query brand category)
   == fst (ProductMatcher.uncapped_score ratio product query brand None)
      + (2 # 10)).
Proof.
  split; [apply brand_bonus | apply category_bonus].
Qed.

Lemma C1_bonuses_witness :
  fst (ProductMatcher.uncapped_score Difflib.ratio Sample.plain_fan
         "fans" (Some "Acorn") (Some "Ceiling Fans"))
  == fst (ProductMatcher.uncapped_score Difflib.ratio Sample.plain_fan
            "fans" None (Some "Ceiling Fans")) + (3 # 10)
  /\
  fst (ProductMatcher.uncapped_score Difflib.ratio Sample.plain_fan
         "fans" (Some "Acorn") (Some "Ceiling Fans"))
  == fst (ProductMatcher.uncapped_score Difflib.ratio Sample.plain_fan
            "fans" (Some "Acorn") None) + (2 # 10).
Proof.
  destruct (C1_bonuses_are_three_and_two_tenths Difflib.ratio
              Sample.plain_fan "fans" (Some "Acorn") (Some "Ceiling Fans"))
    as [Hb Hc].
  split; [apply Hb | apply Hc]; reflexivity.
Defined.

(** C1 as the specification words it fails: on the record named
    [acorn dc ceiling fan], the hint [Acorn] is supplied and its lower-cased
    form occurs in the raw name, and the hint [Ceiling Fans] has a keyword
    in the raw name; the score gains 0.3 and 0.2, not 0.2 and 0.1. *)
Lemma C1_bonuses_are_not_two_and_one_tenth :
  ProductMatcher.supplied (Some "Acorn") = true
  /\ Py.contains (Py.lower "Acorn") "acorn dc ceiling fan" = true
  /\ Py.any_in
       (ProductMatcher.keywords_of ProductMatcher.CATEGORY_KEYWORDS
          "Ceiling Fans") "acorn dc ceiling fan" = true
  /\ ~ fst (ProductMatcher.uncapped_score Difflib.ratio Sample.plain_fan
              "fans" (Some "Acorn") None)
       == fst (ProductMatcher.uncapped_score Difflib.ratio
                 Sample.plain_fan "fans" None None) + (2 # 10)
  /\ ~ fst (ProductMatcher.uncapped_score Difflib.ratio Sample.plain_fan
              "fans" None (Some "Ceiling Fans"))
       == fst (ProductMatcher.uncapped_score Difflib.ratio
                 Sample.plain_fan "fans" None None) + (1 # 10).
Proof.
  repeat split; try reflexivity; vm_compute; discriminate.
Qed.

(** ** Rounding *)

Section Rounding.
Import Py Spec.
Local Open Scope Q_scope.

Lemma round_half_even_comp (x y : Q) :
  x == y -> round_half_even x = round_half_even y.
Proof.
  intros E. unfold round_half_even.
  rewrite (Qfloor_comp _ _ E).
  assert (E' : x - inject_Z (Qfloor y) == y - inject_Z (Qfloor y))
    by now rewrite E.
  now rewrite (Qcompare_comp _ _ E' (1 # 2) (1 # 2) (Qeq_refl _)).
Qed.

#[local] Instance round2_Proper : Proper (Qeq ==> Qeq) round2.
Proof.
  intros x y E. unfold round2.
  assert (E' : x * 100 == y * 100) by now rewrite E.
  now rewrite (round_half_even_comp _ _ E').
Qed.

(** The rounded value is at most half a unit away. *)
Lemma round_half_even_near (q : Q) :
  q - (1 # 2) <= inject_Z (round_half_even q) <= q + (1 # 2).
Proof.
  unfold round_half_even.
  pose proof (Qfloor_le q) as Hlo. pose proof (Qlt_floor q) as Hhi.
  rewrite inject_Z_plus in Hhi. change (inject_Z 1) with 1 in Hhi.
  destruct (Qcompare_spec (q - inject_Z (Qfloor q)) (1 # 2)) as [E|L|G].
  - destruct (Z.even (Qfloor q)).
    + split; lra.
    + rewrite inject_Z_plus. change (inject_Z 1) with 1. split; lra.
  - split; lra.
  - rewrite inject_Z_plus. change (inject_Z 1) with 1. split; lra.
Qed.

Lemma round_half_even_Z (n : Z) : round_half_even (inject_Z n) = n.
Proof.
  unfold round_half_even. rewrite Qfloor_Z.
  destruct (Qcompare_spec (inject_Z n - inject_Z n) (1 # 2)) as [E|L|G].
  - exfalso. lra.
  - reflexivity.
  - exfalso. lra.
Qed.

Lemma round2_whole_cents (x : Q) : whole_cents (round2 x).
Proof. now exists (round_half_even (x * 100)). Qed.

Lemma round2_of_whole_cents (x : Q) : whole_cents x -> round2 x == x.
Proof.
  intros [n Hn]. unfold round2.
  assert (E : x * 100 == inject_Z n) by (rewrite Hn; field).
  rewrite (round_half_even_comp _ _ E), round_half_even_Z. now rewrite Hn.
Qed.

Lemma round2_near (x : Q) :
  x - (1 # 200) <= round2 x <= x + (1 # 200).
Proof.
  unfold round2. pose proof (round_half_even_near (x * 100)) as [Hlo Hhi].
  set (n := inject_Z (round_half_even (x * 100))) in *.
  split.
  - apply Qle_shift_div_l; lra.
  - apply Qle_shift_div_r; lra.
Qed.

(** Two integers less than two units apart are at most one unit apart. *)
Lemma Z_within_one (a b : Z) :
  inject_Z a - inject_Z b <= 3 # 2 ->
  inject_Z b - inject_Z a <= 3 # 2 ->
  Qabs (inject_Z a / 100 - inject_Z b / 100) <= 1 # 100.
Proof.
  intros H1 H2.
  assert (Ha : (a - b <= 1)%Z).
  { unfold Qle in H1. simpl in H1. lia. }
  assert (Hb : (b - a <= 1)%Z).
  { unfold Qle in H2. simpl in H2. lia. }
  apply Qabs_Qle_condition.
  assert (Ha' : inject_Z a - inject_Z b <= 1).
  { unfold Qle. simpl. lia. }
  assert (Hb' : inject_Z b - inject_Z a <= 1).
  { unfold Qle. simpl. lia. }
  split.
  - apply Qle_minus_iff.
    setoid_replace (inject_Z a / 100 - inject_Z b / 100 + - - (1 # 100))
      with ((1 - (inject_Z b - inject_Z a)) / 100) by field.
    apply Qle_shift_div_l; lra.
  - apply Qle_minus_iff.
    setoid_replace ((1 # 100) + - (inject_Z a / 100 - inject_Z b / 100))
      with ((1 - (inject_Z a - inject_Z b)) / 100) by field.
    apply Qle_shift_div_l; lra.
Qed.

(** The rounded sum of a whole amount of cents and two other amounts, one
    of them subtracted, is within a cent of the sum of the roundings. *)
Lemma rounded_sum_within_a_cent (k d t : Q) :
  whole_cents k ->
  Qabs (round2 (k - d + t) - (k - round2 d + round2 t)) <= 1 # 100.
Proof.
  intros [n Hn].
  pose proof (round_half_even_near ((k - d + t) * 100)) as [T1 T2].
  pose proof (round_half_even_near (d * 100)) as [D1 D2].
  pose proof (round_half_even_near (t * 100)) as [X1 X2].
  unfold round2.
  set (T := round_half_even ((k - d + t) * 100)) in *.
  set (D := round_half_even (d * 100)) in *.
  set (X := round_half_even (t * 100)) in *.
  assert (E : inject_Z T / 100 - (k - inject_Z D / 100 + inject_Z X / 100)
              == inject_Z T / 100 - inject_Z (n + - D + X) / 100).
  { rewrite Hn, inject_Z_plus, inject_Z_plus, inject_Z_opp. field. }
  rewrite E. apply Z_within_one.
  - rewrite inject_Z_plus, inject_Z_plus, inject_Z_opp.
    assert (Hk : k * 100 == inject_Z n) by (rewrite Hn; field). lra.
  - rewrite inject_Z_plus, inject_Z_plus, inject_Z_opp.
    assert (Hk : k * 100 == inject_Z n) by (rewrite Hn; field). lra.
Qed.

Lemma rounded_add_within_a_cent (k a b : Q) :
  whole_cents k ->
  Qabs (round2 (k + a + b) - (k + round2 a + round2 b)) <= 1 # 100.
Proof.
  intros [n Hn].
  pose proof (round_half_even_near ((k + a + b) * 100)) as [T1 T2].
  pose proof (round_half_even_near (a * 100)) as [A1 A2].
  pose proof (round_half_even_near (b * 100)) as [B1 B2].
  unfold round2.
  set (T := round_half_even ((k + a + b) * 100)) in *.
  set (A := round_half_even (a * 100)) in *.
  set (B := round_half_even (b * 100)) in *.
  assert (E : inject_Z T / 100 - (k + inject_Z A / 100 + inject_Z B / 100)
              == inject_Z T / 100 - inject_Z (n + A + B) / 100).
  { rewrite Hn, inject_Z_plus, inject_Z_plus. field. }
  rewrite E. apply Z_within_one.
  - rewrite inject_Z_plus, inject_Z_plus.
    assert (Hk : k * 100 == inject_Z n) by (rewrite Hn; field). lra.
  - rewrite inject_Z_plus, inject_Z_plus.
    assert (Hk : k * 100 == inject_Z n) by (rewrite Hn; field). lra.
Qed.

Lemma whole_cents_plus (x y : Q) :
  whole_cents x -> whole_cents y -> whole_cents (x + y).
Proof.
  intros [n Hn] [m Hm]. exists (n + m)%Z.
  rewrite Hn, Hm, inject_Z_plus. field.
Qed.

End Rounding.

(** ** C2: the confidence of an order *)

Section Confidence.
Import Py OrderExtractor.
Local Open Scope Q_scope.

Lemma calculate_confidence_nonempty (intent : ParsedIntentDict.t)
    (item : OrderItem.t) (items : list OrderItem.t) :
  _calculate_confidence intent (item :: items)
  == Spec.order_confidence (map OrderItem.match_confidence (item :: items))
       (ParsedIntentDict.confidence_score intent).
Proof.
  unfold _calculate_confidence, Spec.order_confidence, Spec.mean.
  cbn [map List.length]. rewrite length_map. apply round2_Proper. ring.
Qed.

End Confidence.

(** C2 (as amended).  For every parsed intent and every non-empty list of
    order lines the order confidence is
    [round(0.6 * mean(match_confidence) + 0.4 * intent confidence, 2)];
    for an order with no line it is 0. *)
Theorem C2_confidence_blends_lines_and_intent
    (intent : OrderExtractor.ParsedIntentDict.t)
    (items : list OrderExtractor.OrderItem.t) :
  (items <> [] ->
   OrderExtractor._calculate_confidence intent items
   == Spec.order_confidence
        (map OrderExtractor.OrderItem.match_confidence items)
        (OrderExtractor.ParsedIntentDict.confidence_score intent))
  /\ (items = [] -> OrderExtractor._calculate_confidence intent items == 0).
Proof.
  split.
  - destruct items as [|item items]; [now intros H|intros _].
    apply calculate_confidence_nonempty.
  - intros ->. reflexivity.
Qed.

Lemma C2_confidence_witness :
  OrderExtractor._calculate_confidence (Sample.intent [] (5 # 10))
    [Sample.item "P1" 2 (9 # 10); Sample.item "P2" 1 (6 # 10)]
  == Spec.order_confidence [9 # 10; 6 # 10] (5 # 10)
  /\ OrderExtractor._calculate_confidence (Sample.intent [] (5 # 10)) [] == 0.
Proof.
  split.
  - apply (C2_confidence_blends_lines_and_intent (Sample.intent [] (5 # 10))
             [Sample.item "P1" 2 (9 # 10); Sample.item "P2" 1 (6 # 10)]).
    discriminate.
  - apply (C2_confidence_blends_lines_and_intent (Sample.intent [] (5 # 10)) []).
    reflexivity.
Defined.

(** C2 as the specification words it fails on an order without lines: for
    an intent of confidence 0.5 the source answers 0, the formula 0.2. *)
Lemma C2_confidence_without_lines_is_not_the_formula :
  OrderExtractor._calculate_confidence (Sample.intent [] (5 # 10)) [] == 0
  /\ Spec.order_confidence [] (5 # 10) == 2 # 10
  /\ ~ OrderExtractor._calculate_confidence (Sample.intent [] (5 # 10)) []
       == Spec.order_confidence [] (5 # 10).
Proof.
  repeat split; try reflexivity. vm_compute. discriminate.
Qed.

(** ** C3: the total and its parts *)

Section Totals.
Import Py Spec OrderExtractor.
Local Open Scope Q_scope.

Lemma whole_cents_0 : whole_cents 0.
Proof. exists 0%Z. reflexivity. Qed.

Lemma whole_cents_DEFAULT_SHIPPING : whole_cents DEFAULT_SHIPPING.
Proof. exists 5000%Z. reflexivity. Qed.

Lemma calculate_summary_settled (self : Self) (items : list OrderItem.t) :
  settled (_calculate_summary self items).
Proof.
  unfold settled, _calculate_summary.
  cbn [OrderSummary.subtotal OrderSummary.discount OrderSummary.tax
       OrderSummary.shipping OrderSummary.total ExtractedOrder.summary
       ExtractedOrder.set_summary].
  set (subtotal := qsum (map OrderItem.total_price items)).
  set (shipping := if Qle_bool (free_shipping_threshold self) subtotal
                   then 0 else DEFAULT_SHIPPING).
  assert (Hs : whole_cents shipping).
  { unfold shipping. destruct (Qle_bool _ _);
      [apply whole_cents_0 | apply whole_cents_DEFAULT_SHIPPING]. }
  repeat split; try apply round2_whole_cents.
  rewrite (round2_of_whole_cents shipping Hs).
  pose proof (rounded_add_within_a_cent shipping subtotal
                (subtotal * tax_rate self) Hs) as H.
  assert (E1 : subtotal + subtotal * tax_rate self + shipping
               == shipping + subtotal + subtotal * tax_rate self) by ring.
  rewrite (round2_Proper _ _ E1).
  assert (E2 : round2 (shipping + subtotal + subtotal * tax_rate self)
               - (round2 subtotal - 0 + round2 (subtotal * tax_rate self)
                  + shipping)
               == round2 (shipping + subtotal + subtotal * tax_rate self)
                  - (shipping + round2 subtotal
                     + round2 (subtotal * tax_rate self))) by ring.
  now rewrite E2.
Qed.

Lemma apply_discount_settled (self : Self) (order : ExtractedOrder.t)
    (discount_percent : Q) :
  settled (ExtractedOrder.summary order) ->
  settled (ExtractedOrder.summary (apply_discount self order discount_percent)).
Proof.
  intros (Hsub & Hship & _). unfold settled, apply_discount.
  cbn [OrderSummary.subtotal OrderSummary.discount OrderSummary.tax
       OrderSummary.shipping OrderSummary.total ExtractedOrder.summary
       ExtractedOrder.set_summary].
  set (S := OrderSummary.subtotal (ExtractedOrder.summary order)) in *.
  set (Sh := OrderSummary.shipping (ExtractedOrder.summary order)) in *.
  set (d := S * (discount_percent / 100)).
  repeat split; try assumption.
  pose proof (rounded_sum_within_a_cent (S + Sh) d ((S - d) * tax_rate self)
                (whole_cents_plus _ _ Hsub Hship)) as H.
  assert (E1 : S - d + (S - d) * tax_rate self + Sh
               == S + Sh - d + (S - d) * tax_rate self) by ring.
  rewrite (round2_Proper _ _ E1).
  assert (E2 : round2 (S + Sh - d + (S - d) * tax_rate self)
               - (S - round2 d + round2 ((S - d) * tax_rate self) + Sh)
               == round2 (S + Sh - d + (S - d) * tax_rate self)
                  - (S + Sh - round2 d + round2 ((S - d) * tax_rate self)))
    by ring.
  now rewrite E2.
Qed.

Lemma discounts_settled (self : Self) (percents : list Q)
    (order : ExtractedOrder.t) :
  settled (ExtractedOrder.summary order) ->
  settled (ExtractedOrder.summary
             (fold_left (apply_discount self) percents order)).
Proof.
  revert order. induction percents as [|p percents IH]; intros order H.
  - exact H.
  - cbn [fold_left]. apply IH. now apply apply_discount_settled.
Qed.

Lemma extract_summary (self : Self) (fresh : Fresh)
    (intent : ParsedIntentDict.t) (matched : list MatchedProduct.t)
    (raw_message : string) (order : ExtractedOrder.t) :
  extract self fresh intent matched raw_message = Ok order ->
  ExtractedOrder.summary order
  = _calculate_summary self (ExtractedOrder.items order).
Proof.
  unfold extract. destruct (_extract_items intent matched) as [items|e];
    cbn [bind]; [|discriminate].
  destruct (_check_confirmation_needs _ _ _) as [needs notes].
  intros [= <-]. reflexivity.
Qed.

Lemma totals_within_a_cent (self : Self) (fresh : Fresh)
    (intent : ParsedIntentDict.t) (matched : list MatchedProduct.t)
    (raw_message : string) (order : ExtractedOrder.t) (percents : list Q) :
  extract self fresh intent matched raw_message = Ok order ->
  settled (ExtractedOrder.summary
             (fold_left (apply_discount self) percents order)).
Proof.
  intros H. apply discounts_settled.
  rewrite (extract_summary _ _ _ _ _ _ H). apply calculate_summary_settled.
Qed.

End Totals.




(** ** C4: what asks for a confirmation *)

Section Confirmation.
Import Py OrderExtractor.
Local Open Scope Q_scope.

Lemma nonempty_filter {A} (p : A -> bool) (l : list A) :
  nonempty (List.filter p l) = true <-> exists x, In x l /\ p x = true.
Proof.
  induction l as [|x l IH]; cbn [List.filter].
  - split; [discriminate | intros (x & [] & _)].
  - destruct (p x) eqn:E.
    + split; [intros _; exists x; split; [now left | assumption] | reflexivity].
    + rewrite IH. split.
      * intros (y & Hy & Hp). exists y. split; [now right | assumption].
      * intros (y & [<-|Hy] & Hp); [congruence|]. now exists y.
Qed.

Lemma check_confirmation_flag (intent : ParsedIntentDict.t)
    (items : list OrderItem.t) (delivery : option DeliveryDetails.t) :
  fst (_check_confirmation_needs intent items delivery)
  = nonempty (List.filter is_unmatched items)
    || nonempty (List.filter is_low_confidence items)
    || nonempty (List.filter is_missing_qty items)
    || match delivery with None => true | Some _ => false end
    || ParsedIntentDict.needs_clarification intent.
Proof.
  unfold _check_confirmation_needs.
  destruct (nonempty (List.filter is_unmatched items));
    destruct (nonempty (List.filter is_low_confidence items));
    destruct (nonempty (List.filter is_missing_qty items));
    destruct delivery;
    destruct (ParsedIntentDict.needs_clarification intent); reflexivity.
Qed.

Lemma is_low_confidence_spec (item : OrderItem.t) :
  is_low_confidence item = true
  <-> OrderItem.product_id item <> "UNMATCHED"%string
      /\ OrderItem.match_confidence item < 7 # 10.
Proof.
  unfold is_low_confidence, is_unmatched.
  destruct (Qlt_le_dec (OrderItem.match_confidence item) (7 # 10)) as [L|G];
    destruct (String.eqb_spec (OrderItem.product_id item) "UNMATCHED");
    cbn; split; try discriminate; try tauto;
    intros [_ L]; exfalso; apply (Qlt_not_le _ _ L G).
Qed.

End Confirmation.

(** C4.  The flag [needs_confirmation] is true exactly when one of the five
    triggers holds: a line is UNMATCHED; a line that is not UNMATCHED has a
    match confidence below 0.7; a line has a quantity of 0 or less; there is
    no delivery; the intent needs clarification. *)
Theorem C4_needs_confirmation_iff_a_trigger_holds
    (intent : OrderExtractor.ParsedIntentDict.t)
    (items : list OrderExtractor.OrderItem.t)
    (delivery : option OrderExtractor.DeliveryDetails.t) :
  fst (OrderExtractor._check_confirmation_needs intent items delivery) = true
  <->
  (exists item, In item items
     /\ OrderExtractor.OrderItem.product_id item = "UNMATCHED")
  \/ (exists item, In item items
        /\ OrderExtractor.OrderItem.product_id item <> "UNMATCHED"
        /\ OrderExtractor.OrderItem.match_confidence item < 7 # 10)
  \/ (exists item, In item items
        /\ (OrderExtractor.OrderItem.quantity item <= 0)%Z)
  \/ delivery = None
  \/ OrderExtractor.ParsedIntentDict.needs_clarification intent = true.
Proof.
  rewrite check_confirmation_flag.
  rewrite !orb_true_iff, !nonempty_filter.
  assert (U : (exists x, In x items /\ OrderExtractor.is_unmatched x = true)
              <-> (exists item, In item items
                    /\ OrderExtractor.OrderItem.product_id item = "UNMATCHED")).
  { split; intros (x & Hx & H); exists x; split; try assumption;
      now apply String.eqb_eq. }
  assert (L : (exists x, In x items
                 /\ OrderExtractor.is_low_confidence x = true)
              <-> (exists item, In item items
                    /\ OrderExtractor.OrderItem.product_id item <> "UNMATCHED"
                    /\ OrderExtractor.OrderItem.match_confidence item < 7 # 10)).
  { split; intros (x & Hx & H); exists x; split; try assumption;
      now apply is_low_confidence_spec. }
  assert (M : (exists x, In x items /\ OrderExtractor.is_missing_qty x = true)
              <-> (exists item, In item items
                    /\ (OrderExtractor.OrderItem.quantity item <= 0)%Z)).
  { split; intros (x & Hx & H); exists x; split; try assumption;
      now apply Z.leb_le. }
  assert (D : match delivery with None => true | Some _ => false end = true
              <-> delivery = None).
  { destruct delivery; split; congruence. }
  rewrite U, L, M, D. tauto.
Qed.

(** ** C10: the quantities of the lines of a fresh order *)

Section Quantities.
Import Py OrderExtractor.

Lemma quantity_or_1_positive (q : option Z) :
  (forall n, q = Some n -> (0 <= n)%Z) -> (1 <= quantity_or_1 q)%Z.
Proof.
  intros H. destruct q as [n|]; cbn; [|lia].
  specialize (H n eq_refl). destruct (Z.eqb_spec n 0); lia.
Qed.

Lemma extract_item_quantity (matched : list MatchedProduct.t) (i : nat)
    (intent : ProductIntentDict.t) (item : OrderItem.t) :
  extract_item matched i intent = Ok item ->
  OrderItem.quantity item = quantity_or_1 (ProductIntentDict.quantity intent).
Proof.
  unfold extract_item.
  destruct (match nth_error matched i with
            | Some m => Ok (Some m)
            | None => match matched with
                      | [] => Ok None
                      | _ :: _ => _find_best_match intent matched
                      end
            end) as [[m|]|e]; cbn [bind]; intros [= <-]; reflexivity.
Qed.

Lemma extract_items_from_quantities (matched : list MatchedProduct.t)
    (intents : list ProductIntentDict.t) :
  forall (i : nat) (items : list OrderItem.t),
  extract_items_from matched i intents = Ok items ->
  map OrderItem.quantity items
  = map (fun intent => quantity_or_1 (ProductIntentDict.quantity intent))
        intents.
Proof.
  induction intents as [|intent intents IH]; intros i items; cbn.
  - intros [= <-]. reflexivity.
  - destruct (extract_item matched i intent) as [item|e] eqn:E;
      cbn [bind]; [|discriminate].
    destruct (extract_items_from matched (S i) intents) as [rest|e] eqn:R;
      cbn [bind]; [|discriminate].
    intros [= <-]. cbn. f_equal.
    + now apply extract_item_quantity with (1 := E).
    + now apply IH with (1 := R).
Qed.

Lemma extract_items (self : Self) (fresh : Fresh)
    (intent : ParsedIntentDict.t) (matched : list MatchedProduct.t)
    (raw_message : string) (order : ExtractedOrder.t) :
  extract self fresh intent matched raw_message = Ok order ->
  _extract_items intent matched = Ok (ExtractedOrder.items order).
Proof.
  unfold extract. destruct (_extract_items intent matched) as [items|e];
    cbn [bind]; [|discriminate].
  destruct (_check_confirmation_needs _ _ _) as [needs notes].
  intros [= <-]. reflexivity.
Qed.

End Quantities.

(** C10 (as amended).  For every parsed intent whose mentions have a quantity
    that is null or not negative, and every candidate list, every order line
    produced by [extract] has a quantity of at least 1 (a null or zero
    quantity is assembled as 1), so no line of the fresh order is counted as
    missing its quantity. *)
Theorem C10_fresh_lines_have_a_positive_quantity
    (self : OrderExtractor.Self) (fresh : OrderExtractor.Fresh)
    (intent : OrderExtractor.ParsedIntentDict.t)
    (matched : list ProductMatcher.MatchedProduct.t) (raw_message : string)
    (order : OrderExtractor.ExtractedOrder.t) :
  (forall mention n,
     In mention (OrderExtractor.ParsedIntentDict.products intent) ->
     OrderExtractor.ProductIntentDict.quantity mention = Some n ->
     (0 <= n)%Z) ->
  OrderExtractor.extract self fresh intent matched raw_message = Py.Ok order ->
  Forall (fun item => (1 <= OrderExtractor.OrderItem.quantity item)%Z)
         (OrderExtractor.ExtractedOrder.items order)
  /\ List.filter OrderExtractor.is_missing_qty
       (OrderExtractor.ExtractedOrder.items order) = [].
Proof.
  intros Hq H. apply extract_items in H. unfold OrderExtractor._extract_items in H.
  apply extract_items_from_quantities in H.
  assert (F : Forall (fun item => (1 <= OrderExtractor.OrderItem.quantity item)%Z)
                (OrderExtractor.ExtractedOrder.items order)).
  { apply Forall_forall. intros item Hin.
    apply (in_map OrderExtractor.OrderItem.quantity) in Hin.
    rewrite H in Hin. apply in_map_iff in Hin as (mention & <- & Hm).
    apply quantity_or_1_positive. intros n. now apply Hq. }
  split; [exact F|]. clear H.
  induction F as [|item items Hi _ IH]; [reflexivity|].
  cbn. unfold OrderExtractor.is_missing_qty at 1.
  destruct (Z.leb_spec (OrderExtractor.OrderItem.quantity item) 0); [lia|].
  exact IH.
Qed.

Lemma C10_fresh_lines_witness :
  exists order,
    OrderExtractor.extract (OrderExtractor.init None None) Sample.fresh
      (Sample.intent [Sample.mention "acorn fan" None;
                      Sample.mention "acorn fans" (Some 0%Z);
                      Sample.mention "ten acorn fans" (Some 10%Z)] (5 # 10))
      [Sample.matched 199 (9 # 10)] "fans" = Py.Ok order
    /\ map OrderExtractor.OrderItem.quantity
         (OrderExtractor.ExtractedOrder.items order) = [1; 1; 10]%Z
    /\ Forall (fun item => (1 <= OrderExtractor.OrderItem.quantity item)%Z)
         (OrderExtractor.ExtractedOrder.items order)
    /\ List.filter OrderExtractor.is_missing_qty
         (OrderExtractor.ExtractedOrder.items order) = [].
Proof.
  eexists. split; [vm_compute; reflexivity|].
  split; [reflexivity|].
  apply (C10_fresh_lines_have_a_positive_quantity
           (OrderExtractor.init None None) Sample.fresh
           (Sample.intent [Sample.mention "acorn fan" None;
                           Sample.mention "acorn fans" (Some 0%Z);
                           Sample.mention "ten acorn fans" (Some 10%Z)] (5 # 10))
           [Sample.matched 199 (9 # 10)] "fans").
  - intros mention n [<-|[<-|[<-|[]]]]; cbn; intros [= <-]; lia.
  - reflexivity.
Defined.

(** C10 as it is worded fails on a mention with a negative quantity: the
    line keeps the quantity -3, and the fresh order carries the note on
    missing quantities. *)
Lemma C10_a_negative_quantity_is_kept :
  exists order,
    OrderExtractor.extract (OrderExtractor.init None None) Sample.fresh
      (Sample.intent [Sample.mention "acorn fan" (Some (-3)%Z)] (5 # 10))
      [Sample.matched 199 (9 # 10)] "acorn fan" = Py.Ok order
    /\ map OrderExtractor.OrderItem.quantity
         (OrderExtractor.ExtractedOrder.items order) = [(-3)%Z]
    /\ ~ Forall (fun item => (1 <= OrderExtractor.OrderItem.quantity item)%Z)
           (OrderExtractor.ExtractedOrder.items order)
    /\ In "Some items are missing quantities"
          (OrderExtractor.ExtractedOrder.confirmation_notes order).
Proof.
  eexists. split; [vm_compute; reflexivity|].
  split; [reflexivity|]. split.
  - intros F. inversion F as [|? ? Hq _]. cbn in Hq. lia.
  - cbn. auto.
Qed.

(** ** C7: the parser always answers *)

Section ParserTotal.
Import Py IntentParser.

(** The four intent types the pattern matcher can name. *)
Lemma detect_intent_type_cases (message_lower : string) :
  In (detect_intent_type message_lower)
     ["price_check"; "stock_check"; "order_status"; "order_inquiry"].
Proof.
  unfold detect_intent_type.
  destruct (any_in _ message_lower); [cbn; auto|].
  destruct (any_in _ message_lower); [cbn; auto|].
  destruct (any_in _ message_lower); cbn; auto.
Qed.

(** The fallback path returns, and its mentions are the one that
    [_pattern_match] built, if any. *)
Lemma fallback_parse_returns (message : string) :
  exists intent,
    _fallback_parse message = Ok intent
    /\ products intent
       = if is_some (detect_category (lower message))
            || is_some (detect_brand (lower message))
         then [fallback_mention message] else [].
Proof.
  unfold _fallback_parse, _pattern_match, fallback_mention.
  set (ml := lower message).
  pose proof (detect_intent_type_cases ml) as Hi.
  set (ty := detect_intent_type ml) in *.
  set (q := detect_quantity ml). set (b := detect_brand ml).
  set (c := detect_category ml).
  set (u := detect_urgency ml). set (a := detect_address ml).
  cbn in Hi.
  destruct Hi as [<-|[<-|[<-|[<-|[]]]]];
    destruct c, b; cbn; eexists; split; reflexivity.
Qed.

Lemma blank_strip (s : string) : Spec.blank s = true -> strip s = "".
Proof.
  unfold strip. induction s as [|c s IH]; cbn; [reflexivity|].
  intros H. apply andb_true_iff in H as [-> Hs]. now apply IH.
Qed.

Lemma parse_returns (llm_client : option LLMClient) (message : string) :
  exists intent, parse llm_client message = Ok intent.
Proof.
  unfold parse.
  destruct (negb (truthy_str message) || negb (truthy_str (strip message))).
  - now exists (_empty_intent message).
  - destruct (bind (_call_llm llm_client message)
                (fun response => _parse_response response message))
      as [intent|e]; cbn [catch].
    + now exists intent.
    + destruct (fallback_parse_returns message) as (intent & H & _).
      now exists intent.
Qed.

Lemma parse_blank (llm_client : option LLMClient) (message : string) :
  Spec.blank message = true ->
  parse llm_client message = Ok (_empty_intent message).
Proof.
  intros H. unfold parse. rewrite (blank_strip _ H). cbn.
  now rewrite orb_true_r.
Qed.

End ParserTotal.



(** ** C8: the quantity found by the pattern matcher *)

Section Quantity.
Import Py IntentParser.

Lemma is_digit_to_lower (c : ascii) : is_digit (to_lower c) = is_digit c.
Proof.
  destruct c as [[] [] [] [] [] [] [] []]; reflexivity.
Qed.

Lemma to_lower_digit (c : ascii) : is_digit c = true -> to_lower c = c.
Proof.
  destruct c as [[] [] [] [] [] [] [] []]; cbn; intros H;
    reflexivity || discriminate H.
Qed.

Lemma lower_append (a b : string) :
  lower (a ++ b) = (lower a ++ lower b)%string.
Proof.
  induction a as [|c a IH]; cbn; [reflexivity|]. now rewrite IH.
Qed.

Lemma lower_digits (ds : string) : Spec.all_digits ds = true -> lower ds = ds.
Proof.
  induction ds as [|c ds IH]; cbn; [reflexivity|].
  intros H. apply andb_true_iff in H as [Hc Hds].
  now rewrite (to_lower_digit _ Hc), (IH Hds).
Qed.

Lemma no_digit_lower (s : string) : Spec.no_digit (lower s) = Spec.no_digit s.
Proof.
  induction s as [|c s IH]; cbn; [reflexivity|].
  now rewrite is_digit_to_lower, IH.
Qed.

Lemma no_digit_ahead_lower (s : string) :
  Spec.no_digit_ahead (lower s) = Spec.no_digit_ahead s.
Proof.
  destruct s as [|c s]; cbn; [reflexivity|]. now rewrite is_digit_to_lower.
Qed.

(** The search skips what has no digit. *)
Lemma quantity_search_skips (pre s : string) :
  Spec.no_digit pre = true ->
  quantity_search (pre ++ s) = quantity_search s.
Proof.
  induction pre as [|c pre IH]; cbn; [reflexivity|].
  intros H. apply andb_true_iff in H as [Hc Hp].
  apply negb_true_iff in Hc. rewrite Hc. now apply IH.
Qed.

(** The digits taken are all the digits there are. *)
Lemma span_digits (ds rest : string) :
  Spec.all_digits ds = true -> Spec.no_digit_ahead rest = true ->
  span is_digit (ds ++ rest) = (ds, rest).
Proof.
  intros Hd Hr. induction ds as [|c ds IH]; cbn.
  - destruct rest as [|c rest]; cbn in *; [reflexivity|].
    apply negb_true_iff in Hr. now rewrite Hr.
  - cbn in Hd. apply andb_true_iff in Hd as [Hc Hd].
    rewrite Hc, (IH Hd). reflexivity.
Qed.

Lemma quantity_search_integer (ds rest : string) :
  Spec.is_integer ds = true -> Spec.no_digit_ahead rest = true ->
  exists m, quantity_search (ds ++ rest) = Some m /\ group1 m = ds.
Proof.
  unfold Spec.is_integer. intros H Hr.
  apply andb_true_iff in H as [Hne Hd].
  destruct ds as [|c ds]; [discriminate|].
  pose proof (span_digits _ _ Hd Hr) as Hs.
  cbn [Spec.all_digits] in Hd. apply andb_true_iff in Hd as [Hc _].
  cbn [append quantity_search]. rewrite Hc.
  unfold quantity_match_here. cbn [append] in Hs. rewrite Hs.
  destruct (span is_space rest) as [blanks rest'].
  eexists. split; reflexivity.
Qed.

Lemma quantity_search_none (s : string) :
  Spec.no_digit s = true -> quantity_search s = None.
Proof.
  induction s as [|c s IH]; cbn; [reflexivity|].
  intros H. apply andb_true_iff in H as [Hc Hs].
  apply negb_true_iff in Hc. rewrite Hc. now apply IH.
Qed.

Lemma detect_quantity_first_integer (pre ds rest : string) :
  Spec.no_digit pre = true -> Spec.is_integer ds = true ->
  Spec.no_digit_ahead rest = true ->
  detect_quantity (lower (pre ++ ds ++ rest)) = Some (int_of_digits ds).
Proof.
  intros Hp Hd Hr. unfold detect_quantity.
  rewrite !lower_append.
  rewrite quantity_search_skips by now rewrite no_digit_lower.
  assert (Hd' : Spec.all_digits ds = true).
  { unfold Spec.is_integer in Hd. now apply andb_true_iff in Hd as [_ Hd]. }
  rewrite (lower_digits _ Hd').
  destruct (quantity_search_integer ds (lower rest) Hd) as (m & -> & ->);
    [now rewrite no_digit_ahead_lower|reflexivity].
Qed.

Lemma detect_quantity_no_digit (message : string) :
  Spec.no_digit message = true -> detect_quantity (lower message) = None.
Proof.
  intros H. unfold detect_quantity.
  rewrite quantity_search_none; [reflexivity|now rewrite no_digit_lower].
Qed.

Lemma fallback_parse_quantity (message : string) :
  exists intent,
    _fallback_parse message = Ok intent
    /\ Forall (fun mention =>
                 quantity mention = opt_int (detect_quantity (lower message)))
              (products intent).
Proof.
  destruct (fallback_parse_returns message) as (intent & H & Hp).
  exists intent. split; [assumption|]. rewrite Hp.
  destruct (is_some _ || is_some _); repeat constructor.
Qed.

End Quantity.



(** ** C9: the ranked candidates *)

Section SortFacts.
Import Py Spec.
Context {A : Type} (key : A -> Q).
Local Open Scope Q_scope.

Lemma insert_desc_Forall (P : A -> Prop) (x : A) (l : list A) :
  P x -> Forall P l -> Forall P (insert_desc key x l).
Proof.
  intros Hx Hl. induction Hl as [|y ys Hy Hys IH]; cbn.
  - now constructor.
  - destruct (Qlt_le_dec (key x) (key y)); repeat constructor; assumption.
Qed.

Lemma sort_desc_Forall (P : A -> Prop) (l : list A) :
  Forall P l -> Forall P (sort_desc key l).
Proof.
  induction 1 as [|x l Hx Hl IH]; cbn; [constructor|].
  now apply insert_desc_Forall.
Qed.

Lemma insert_desc_permutation (x : A) (l : list A) :
  Permutation (insert_desc key x l) (x :: l).
Proof.
  induction l as [|y ys IH]; cbn; [reflexivity|].
  destruct (Qlt_le_dec (key x) (key y)); [|reflexivity].
  rewrite IH. apply perm_swap.
Qed.

Lemma sort_desc_permutation (l : list A) : Permutation (sort_desc key l) l.
Proof.
  induction l as [|x l IH]; cbn; [reflexivity|].
  rewrite insert_desc_permutation. now constructor.
Qed.

Lemma insert_desc_sorted (x : A) (l : list A) :
  StronglySorted (by_score_desc key) l ->
  StronglySorted (by_score_desc key) (insert_desc key x l).
Proof.
  induction 1 as [|y ys Hys IH Hy]; cbn.
  - repeat constructor.
  - destruct (Qlt_le_dec (key x) (key y)) as [L|G].
    + constructor; [assumption|].
      apply insert_desc_Forall; [|assumption].
      unfold by_score_desc. now apply Qlt_le_weak.
    + constructor; [now constructor|].
      constructor; [exact G|].
      apply Forall_impl with (2 := Hy). unfold by_score_desc.
      intros z Hz. now apply Qle_trans with (key y).
Qed.

Lemma sort_desc_sorted (l : list A) :
  StronglySorted (by_score_desc key) (sort_desc key l).
Proof.
  induction l as [|x l IH]; cbn; [constructor|].
  now apply insert_desc_sorted.
Qed.

(** Stability: an element goes in front of the elements it ties with. *)
Lemma with_score_insert_desc (s : Q) (x : A) (l : list A) :
  with_score key s (insert_desc key x l) = with_score key s (x :: l).
Proof.
  unfold with_score. induction l as [|y ys IH]; [reflexivity|].
  cbn [insert_desc]. destruct (Qlt_le_dec (key x) (key y)) as [L|G];
    [|reflexivity].
  cbn [List.filter] in *. rewrite IH.
  destruct (Qeq_bool (key x) s) eqn:Ex; [|reflexivity].
  destruct (Qeq_bool (key y) s) eqn:Ey; [|reflexivity].
  apply Qeq_bool_iff in Ex, Ey. exfalso.
  rewrite Ex, Ey in L. now apply (Qlt_irrefl s).
Qed.

Lemma with_score_sort_desc (s : Q) (l : list A) :
  with_score key s (sort_desc key l) = with_score key s l.
Proof.
  induction l as [|x l IH]; [reflexivity|].
  cbn [sort_desc fold_right]. rewrite with_score_insert_desc.
  unfold with_score in *. cbn [List.filter].
  change (fold_right (insert_desc key) [] l) with (sort_desc key l).
  now rewrite IH.
Qed.

End SortFacts.

Section SliceFacts.
Import Py Spec.
Context {A : Type}.

Lemma slice_to_firstn (l : list A) (k : Z) :
  exists n, slice_to l k = firstn n l /\ ((0 <= k)%Z -> n = Z.to_nat k).
Proof.
  unfold slice_to. destruct (Z.ltb_spec k 0).
  - eexists. split; [reflexivity|lia].
  - eexists. split; reflexivity.
Qed.

Lemma firstn_Forall (P : A -> Prop) (n : nat) (l : list A) :
  Forall P l -> Forall P (firstn n l).
Proof.
  intros H. revert n. induction H as [|x l Hx Hl IH]; intros [|n]; cbn;
    constructor; [assumption|apply IH].
Qed.

Lemma firstn_strongly_sorted (R : A -> A -> Prop) (n : nat) (l : list A) :
  StronglySorted R l -> StronglySorted R (firstn n l).
Proof.
  intros H. revert n. induction H as [|x l Hl IH Hx]; intros [|n]; cbn;
    try constructor.
  - apply IH.
  - now apply firstn_Forall.
Qed.

(** The elements selected in a prefix are a prefix of the selection. *)
Lemma filter_firstn (p : A -> bool) (n : nat) (l : list A) :
  exists m, List.filter p (firstn n l) = firstn m (List.filter p l).
Proof.
  revert n. induction l as [|x l IH]; intros n.
  - exists 0%nat. now rewrite firstn_nil.
  - destruct n as [|n]; [now exists 0%nat|].
    cbn [firstn List.filter]. destruct (IH n) as (m & Hm).
    destruct (p x); [exists (S m); cbn; now rewrite Hm | now exists m].
Qed.

End SliceFacts.

Section MapM.
Import Py.
Context {A B : Type} (f : A -> Result B).

Lemma mapM_Forall2 (l : list A) :
  forall l', mapM f l = Ok l' -> Forall2 (fun x y => f x = Ok y) l l'.
Proof.
  induction l as [|x l IH]; cbn; intros l'.
  - intros [= <-]. constructor.
  - destruct (f x) as [y|e] eqn:E; cbn [bind]; [|discriminate].
    destruct (mapM f l) as [ys|e]; cbn [bind]; [|discriminate].
    intros [= <-]. constructor; [assumption|now apply IH].
Qed.

End MapM.

Section Ranking.
Import Py Spec ProductMatcher.
Variable ratio : string -> string -> Q.
Local Open Scope Q_scope.

Lemma word_score_nonneg (n m : nat) :
  0 <= inject_Z (Z.of_nat n) / inject_Z (Z.of_nat (Nat.max m 1)).
Proof.
  apply Qle_shift_div_l.
  - change 0 with (inject_Z 0). rewrite <- Zlt_Qlt. lia.
  - rewrite Qmult_0_l. change 0 with (inject_Z 0). rewrite <- Zle_Qle. lia.
Qed.

Lemma uncapped_score_nonneg (product : Product.t) (query : string)
    (brand category : option string) :
  0 <= fst (uncapped_score ratio product query brand category).
Proof.
  unfold uncapped_score.
  set (name_score := ratio query (clean_name_of product)).
  set (common := set_inter _ _).
  pose proof (word_score_nonneg (List.length common)
                (List.length (set_of (split query)))) as Hw.
  set (word_score := inject_Z (Z.of_nat (List.length common)) / _) in *.
  destruct (Qlt_le_dec (3 # 10) name_score) as [L|G];
    destruct common;
    destruct (supplied brand); try destruct (contains _ _);
    destruct (supplied category); try destruct (any_in _ _);
    cbn [fst]; nra.
Qed.

Lemma qmin_le_r (a b : Q) : qmin a b <= b.
Proof.
  unfold qmin. destruct (Qlt_le_dec b a); [apply Qle_refl|assumption].
Qed.

Lemma qmin_nonneg (a b : Q) : 0 <= a -> 0 <= b -> 0 <= qmin a b.
Proof. unfold qmin. now destruct (Qlt_le_dec b a). Qed.

Lemma score_product_range (product : Product.t) (query : string)
    (brand category : option string) :
  0 <= fst (_score_product ratio product query brand category) <= 1.
Proof.
  unfold _score_product.
  pose proof (uncapped_score_nonneg product query brand category) as H.
  destruct (uncapped_score ratio product query brand category) as [s r].
  cbn [fst] in *. split; [apply qmin_nonneg; [assumption|lra] | apply qmin_le_r].
Qed.

Lemma scored_products_range (catalog : list Product.t) (query : string)
    (brand category : option string) (min_score : Q) :
  Forall (fun x => 0 <= score_of x <= 1 /\ min_score <= score_of x)
         (scored_products ratio catalog query brand category min_score).
Proof.
  unfold scored_products. apply Forall_forall. intros x Hx.
  apply filter_In in Hx as [Hx Hmin]. apply Qle_bool_iff in Hmin.
  split; [|assumption].
  apply in_map_iff in Hx as (product & <- & _).
  pose proof (score_product_range product (strip (lower query))
                (detect_brand brand (strip (lower query)))
                (detect_category category (strip (lower query)))) as H.
  destruct (_score_product _ _ _ _ _) as [s r]. exact H.
Qed.

Lemma ranked_firstn (catalog : list Product.t) (query : string)
    (brand category : option string) (max_results : Z) (min_score : Q) :
  exists n,
    ranked ratio catalog query brand category max_results min_score
    = firstn n (sort_desc score_of
                  (scored_products ratio catalog query brand category min_score))
    /\ ((0 <= max_results)%Z -> n = Z.to_nat max_results).
Proof. apply slice_to_firstn. Qed.

Lemma to_matched_product_score (product : Product.t) (score : Q)
    (reason : list Reason) (m : MatchedProduct.t) :
  _to_matched_product product score reason = Ok m ->
  MatchedProduct.match_score m = score.
Proof.
  unfold _to_matched_product.
  destruct (match Product.price_numeric product with
            | Some p => _ | None => _ end) as [price|e];
    cbn [bind]; [|discriminate].
  destruct (match Product.original_price product with
            | Some s => _ | None => _ end) as [original|e];
    cbn [bind]; [|discriminate].
  intros [= <-]. reflexivity.
Qed.

(** The candidates [match] returns are the ranked records, one for one. *)
Lemma match_candidates (catalog : list Product.t) (query : string)
    (brand category : option string) (max_results : Z) (min_score : Q)
    (r : MatchResult.t) :
  match_ ratio catalog query brand category max_results min_score = Ok r ->
  Forall2 (fun (x : Scored) m =>
             _to_matched_product (snd (fst x)) (score_of x) (snd x) = Ok m)
          (ranked ratio catalog query brand category max_results min_score)
          (MatchResult.matches r).
Proof.
  unfold match_. destruct catalog as [|product catalog].
  - intros [= <-]. cbn.
    destruct (ranked_firstn [] query brand category max_results min_score)
      as (n & -> & _).
    cbn. rewrite firstn_nil. constructor.
  - destruct (mapM _ _) as [matches|e] eqn:E; cbn [bind]; [|discriminate].
    intros [= <-]. cbn [MatchResult.matches].
    apply mapM_Forall2 in E.
    apply Forall2_impl with (2 := E). now intros [[s p] reason] m.
Qed.

Lemma Forall2_scores (xs : list Scored) (ms : list MatchedProduct.t) :
  Forall2 (fun (x : Scored) m =>
             _to_matched_product (snd (fst x)) (score_of x) (snd x) = Ok m)
          xs ms ->
  map MatchedProduct.match_score ms = map score_of xs.
Proof.
  induction 1 as [|x m xs ms H _ IH]; cbn; [reflexivity|].
  now rewrite (to_matched_product_score _ _ _ _ H), IH.
Qed.

End Ranking.

Section RankedScores.
Import Py Spec.
Local Open Scope Q_scope.

Lemma strongly_sorted_scores {A} (score : A -> Q) (l : list A) :
  StronglySorted (by_score_desc score) l
  <-> StronglySorted (by_score_desc (fun s : Q => s)) (map score l).
Proof.
  induction l as [|x l IH]; cbn.
  - split; constructor.
  - split; intros H; inversion H as [|? ? Hl Hx]; subst; constructor.
    + now apply IH.
    + rewrite Forall_map. exact Hx.
    + now apply IH.
    + rewrite Forall_map in Hx. exact Hx.
Qed.

End RankedScores.

(** C9 (as amended).  Whenever [match] returns, the returned candidates are
    the conversions of the records of [ranked], one for one, and:
    every score is in [0,1] and none is below [min_score]; the list is
    sorted by score, largest first; for every score, the returned records
    with that score are, in catalog order, the first of the catalog's
    records that reached [min_score] with that score; and when
    [max_results] is not negative the list has at most [max_results]
    candidates. *)
Theorem C9_candidates_are_ranked
    (ratio : string -> string -> Q) (catalog : list ProductMatcher.Product.t)
    (query : string) (brand category : option string) (max_results : Z)
    (min_score : Q) (r : ProductMatcher.MatchResult.t) :
  ProductMatcher.match_ ratio catalog query brand category max_results
    min_score = Py.Ok r ->
  let candidates := ProductMatcher.MatchResult.matches r in
  let passing :=
    ProductMatcher.scored_products ratio catalog query brand category
      min_score in
  let top :=
    ProductMatcher.ranked ratio catalog query brand category max_results
      min_score in
  Forall2 (fun (x : ProductMatcher.Scored) m =>
             ProductMatcher._to_matched_product (snd (fst x))
               (ProductMatcher.score_of x) (snd x) = Py.Ok m)
          top candidates
  /\ Forall (fun m =>
               0 <= ProductMatcher.MatchedProduct.match_score m <= 1
               /\ min_score <= ProductMatcher.MatchedProduct.match_score m)
            candidates
  /\ StronglySorted
       (Spec.by_score_desc ProductMatcher.MatchedProduct.match_score)
       candidates
  /\ (forall s, exists n,
        Spec.with_score ProductMatcher.score_of s top
        = firstn n (Spec.with_score ProductMatcher.score_of s passing))
  /\ ((0 <= max_results)%Z ->
      (Z.of_nat (List.length candidates) <= max_results)%Z).
Proof.
  intros H candidates passing top.
  pose proof (match_candidates _ _ _ _ _ _ _ _ H) as F2.
  pose proof (Forall2_scores _ _ F2) as Hs.
  fold top candidates in F2, Hs.
  destruct (ranked_firstn ratio catalog query brand category max_results
              min_score) as (n & Htop & Hn).
  fold top passing in Htop.
  split; [exact F2|]. split; [|split; [|split]].
  - apply (Forall_map ProductMatcher.MatchedProduct.match_score
             (fun s => 0 <= s <= 1 /\ min_score <= s)).
    rewrite Hs. apply Forall_map. rewrite Htop.
    apply firstn_Forall, sort_desc_Forall, scored_products_range.
  - apply (proj2 (strongly_sorted_scores
                    ProductMatcher.MatchedProduct.match_score candidates)).
    rewrite Hs.
    apply (proj1 (strongly_sorted_scores ProductMatcher.score_of top)).
    rewrite Htop.
    apply firstn_strongly_sorted, sort_desc_sorted.
  - intros s. rewrite Htop. unfold Spec.with_score at 1.
    destruct (filter_firstn
                (fun x => Qeq_bool (ProductMatcher.score_of x) s) n
                (Py.sort_desc ProductMatcher.score_of passing)) as (m & Hm).
    exists m. rewrite Hm.
    change (List.filter (fun x => Qeq_bool (ProductMatcher.score_of x) s)
              (Py.sort_desc ProductMatcher.score_of passing))
      with (Spec.with_score ProductMatcher.score_of s
              (Py.sort_desc ProductMatcher.score_of passing)).
    now rewrite with_score_sort_desc.
  - intros Hk. rewrite <- (Forall2_length F2), Htop, (Hn Hk).
    pose proof (firstn_le_length (Z.to_nat max_results)
                  (Py.sort_desc ProductMatcher.score_of passing)).
    rewrite length_firstn. lia.
Qed.

Lemma C9_candidates_witness :
  exists r,
    ProductMatcher.match_ Difflib.ratio Sample.catalog "ceiling fan"
      None None 5 (3 # 10) = Py.Ok r
    /\ map ProductMatcher.MatchedProduct.product_id
         (ProductMatcher.MatchResult.matches r) = ["P2"; "P1"]
    /\ Forall (fun m =>
                 0 <= ProductMatcher.MatchedProduct.match_score m <= 1
                 /\ 3 # 10 <= ProductMatcher.MatchedProduct.match_score m)
              (ProductMatcher.MatchResult.matches r)
    /\ StronglySorted
         (Spec.by_score_desc ProductMatcher.MatchedProduct.match_score)
         (ProductMatcher.MatchResult.matches r)
    /\ (Z.of_nat (List.length (ProductMatcher.MatchResult.matches r)) <= 5)%Z.
Proof.
  eexists. split; [vm_compute; reflexivity|].
  split; [reflexivity|].
  destruct (C9_candidates_are_ranked Difflib.ratio Sample.catalog
              "ceiling fan" None None 5 (3 # 10) _ eq_refl)
    as (_ & Hrange & Hsorted & _ & Hlen).
  split; [exact Hrange|]. split; [exact Hsorted|].
  apply Hlen. lia.
Defined.

(** C9 as it is worded fails on a negative [max_results]: with -1 the slice
    drops the last of the two candidates and returns one, which is more
    than -1. *)
Lemma C9_a_negative_max_results_returns_candidates :
  exists r,
    ProductMatcher.match_ Difflib.ratio Sample.catalog "ceiling fan"
      None None (-1) (3 # 10) = Py.Ok r
    /\ map ProductMatcher.MatchedProduct.product_id
         (ProductMatcher.MatchResult.matches r) = ["P2"]
    /\ ~ (Z.of_nat (List.length (ProductMatcher.MatchResult.matches r))
          <= -1)%Z.
Proof.
  eexists. split; [vm_compute; reflexivity|].
  split; [reflexivity|]. cbn. lia.
Qed.

(** ** C5 and C6: the conversation *)

Section Conversation.
Import Py Spec MessageHandler.

(** [_handle_new_inquiry] on an intent of type [ORDER_STATUS]. *)
Lemma new_inquiry_order_status (self : Self) (context : ConversationContext)
    (message : string) (parsed : IntentParser.ParsedIntent) :
  parse self message = Ok parsed ->
  IntentParser.intent_type parsed = IntentParser.ORDER_STATUS ->
  _handle_new_inquiry self context message
  = (set_parsed_intent (set_state context PROCESSING) (Some parsed),
     Ok (send_text order_number_message)).
Proof.
  intros Hp Ht. unfold _handle_new_inquiry. now rewrite Hp, Ht.
Qed.

(** The state and the draft order after [_handle_new_inquiry]. *)
Lemma new_inquiry_invariant (self : Self) (context : ConversationContext)
    (message : string) :
  session_invariant (fst (_handle_new_inquiry self context message)).
Proof.
  unfold _handle_new_inquiry.
  destruct (parse self message) as [parsed|e]; [|split; discriminate].
  destruct (IntentParser.intent_type parsed); try (split; discriminate);
    (destruct (match_products self (IntentParser.products parsed))
       as [matched|e]; [|split; discriminate]);
    (destruct (extract self parsed matched message) as [order|e];
       [|split; discriminate]);
    destruct (ExtractedOrder.needs_confirmation order
              && OrderExtractor.nonempty
                   (ExtractedOrder.confirmation_notes order));
    (split; [intros _; eexists; reflexivity | discriminate]).
Qed.

Lemma product_selection_invariant (self : Self)
    (context : ConversationContext) (message : string) :
  state context = AWAITING_PRODUCT_SELECTION ->
  session_invariant context ->
  session_invariant (fst (_handle_product_selection self context message)).
Proof.
  intros Hs [Hd _]. rewrite Hs in Hd. destruct (Hd eq_refl) as (order & Ho).
  assert (K : forall c, extracted_order c = Some order ->
                        state c <> ORDER_CONFIRMED -> session_invariant c).
  { intros c Hc Hn. split; [intros _; now exists order | intros E; now elim Hn]. }
  unfold _handle_product_selection.
  destruct (startswith message "product_").
  - destruct (get_product_by_id self _) as [[product|]|e]; cbn [fst].
    + apply K; [exact Ho | discriminate].
    + destruct (match_ self (VStr message) VNone VNone 5) as [result|e];
        [destruct (MatchResult.matches result)|];
        (apply K; [exact Ho | cbn; rewrite Hs; discriminate]).
    + apply K; [exact Ho | rewrite Hs; discriminate].
  - destruct (match_ self (VStr message) VNone VNone 5) as [result|e];
      [destruct (MatchResult.matches result)|];
      (apply K; [exact Ho | cbn; rewrite Hs; discriminate]).
Qed.

Lemma quantity_input_invariant (context : ConversationContext)
    (message : string) :
  state context = AWAITING_QUANTITY ->
  session_invariant context ->
  session_invariant (fst (_handle_quantity_input context message)).
Proof.
  intros Hs [Hd _]. rewrite Hs in Hd. destruct (Hd eq_refl) as (order & Ho).
  assert (K : forall c, extracted_order c = Some order ->
                        state c <> ORDER_CONFIRMED -> session_invariant c).
  { intros c Hc Hn. split; [intros _; now exists order | intros E; now elim Hn]. }
  unfold _handle_quantity_input.
  destruct (int_of_str (strip message)) as [quantity|e]; cbn [fst].
  - destruct (quantity <=? 0)%Z; cbn [fst].
    + apply K; [exact Ho | rewrite Hs; discriminate].
    + destruct (pending_items context) as [[|x xs]|];
        (apply K; [exact Ho | discriminate]).
  - apply K; [exact Ho | rewrite Hs; discriminate].
Qed.

(** A confirmation word, on a session that holds a draft order. *)
Lemma confirmation_confirm (context : ConversationContext) (message : string)
    (order : OrderDict.t) :
  extracted_order context = Some order ->
  mem (strip (lower message)) confirm_synonyms = true ->
  _handle_confirmation context message
  = if lacks_delivery order
    then (set_state context AWAITING_DELIVERY_INFO,
          Ok (send_text delivery_request_message))
    else (set_state context ORDER_CONFIRMED,
          Ok (order_confirmed (OrderDict.order_id order) order
                (order_confirmed_message (OrderDict.order_id order)))).
Proof.
  intros Ho Hm. unfold _handle_confirmation. now rewrite Hm, Ho.
Qed.

Lemma confirmation_invariant (context : ConversationContext)
    (message : string) :
  state context = AWAITING_CONFIRMATION ->
  session_invariant context ->
  session_invariant (fst (_handle_confirmation context message)).
Proof.
  intros Hs [Hd _]. rewrite Hs in Hd. destruct (Hd eq_refl) as (order & Ho).
  assert (K : forall c, extracted_order c = Some order ->
                        state c <> ORDER_CONFIRMED -> session_invariant c).
  { intros c Hc Hn. split; [intros _; now exists order | intros E; now elim Hn]. }
  unfold _handle_confirmation.
  destruct (mem (strip (lower message)) confirm_synonyms).
  { rewrite Ho. destruct (lacks_delivery order) eqn:Hl; cbn [fst].
    - apply K; [exact Ho | discriminate].
    - split; intros _; exists order; [exact Ho | now split]. }
  destruct (mem _ ["modify_order"; "modify"; "change"]); cbn [fst].
  { apply K; [exact Ho | discriminate]. }
  destruct (mem _ ["cancel_order"; "cancel"; "no"]); cbn [fst].
  { split; discriminate. }
  destruct (mem _ ["add_more"]); cbn [fst].
  { apply K; [exact Ho | discriminate]. }
  destruct (mem _ ["checkout"]); cbn [fst].
  { apply K; [exact Ho | discriminate]. }
  apply K; [exact Ho | rewrite Hs; discriminate].
Qed.

Lemma delivery_info_invariant (context : ConversationContext)
    (message : string) :
  state context = AWAITING_DELIVERY_INFO ->
  session_invariant context ->
  session_invariant (fst (_handle_delivery_info context message)).
Proof.
  intros Hs [Hd _]. rewrite Hs in Hd. destruct (Hd eq_refl) as (order & Ho).
  unfold _handle_delivery_info. rewrite Ho. cbn.
  split; [intros _; eexists; reflexivity | discriminate].
Qed.

Lemma route_invariant (self : Self) (context : ConversationContext)
    (message : string) :
  session_invariant context ->
  session_invariant (fst (route self context message)).
Proof.
  intros H. unfold route. destruct (state context) eqn:Hs;
    try apply new_inquiry_invariant.
  - now apply product_selection_invariant.
  - now apply quantity_input_invariant.
  - now apply confirmation_invariant.
  - now apply delivery_info_invariant.
Qed.

Lemma handle_message_lookup (self : Self) (utcnow : string)
    (cs : Conversations) (phone_number message_text : string)
    (context : ConversationContext) :
  cs phone_number = Some context ->
  handle_message self utcnow cs phone_number message_text
  = (store cs phone_number
       (fst (route self (set_last_message_at context (Some utcnow))
               message_text)),
     snd (route self (set_last_message_at context (Some utcnow))
            message_text)).
Proof.
  intros H. unfold handle_message, _get_or_create_context. rewrite H.
  now destruct (route self _ message_text).
Qed.

Lemma handle_message_invariant (self : Self) (utcnow : string)
    (cs : Conversations) (phone_number message_text : string) :
  (forall k c, cs k = Some c -> session_invariant c) ->
  forall k c,
    fst (handle_message self utcnow cs phone_number message_text) k = Some c ->
    session_invariant c.
Proof.
  intros Hcs k c. unfold handle_message, _get_or_create_context.
  destruct (cs phone_number) as [c0|] eqn:E.
  - destruct (route self (set_last_message_at c0 (Some utcnow)) message_text)
      as [c1 r] eqn:R. cbn [fst]. unfold store.
    destruct (String.eqb_spec k phone_number) as [->|Hk].
    + intros [= <-]. change c1 with (fst (c1, r)). rewrite <- R.
      apply route_invariant. apply (Hcs _ _ E).
    + apply Hcs.
  - match goal with
    | |- context [route self ?c0 message_text] =>
        destruct (route self c0 message_text) as [c1 r] eqn:R
    end.
    cbn [fst]. unfold store.
    destruct (String.eqb_spec k phone_number) as [->|Hk].
    + intros [= <-]. change c1 with (fst (c1, r)). rewrite <- R.
      apply route_invariant. split; discriminate.
    + apply Hcs.
Qed.

(** The invariant holds of every session of a reachable handler. *)
Lemma reachable_invariant (cs : Conversations) :
  reachable cs -> forall k c, cs k = Some c -> session_invariant c.
Proof.
  induction 1 as [|self utcnow cs phone message _ IH|cs phone _ IH].
  - discriminate.
  - now apply handle_message_invariant.
  - intros k c. unfold reset_context, remove.
    destruct (String.eqb k phone); [discriminate|apply IH].
Qed.

End Conversation.

(** C5.  What the source does for a session in [IDLE] or
    [AWAITING_INQUIRY] on a message whose intent is [ORDER_STATUS]: it asks
    for the order number, and it leaves the session in [PROCESSING], the
    state it entered on the first line of the handler, instead of the state
    the session was in. *)
Theorem C5_order_status_leaves_the_session_processing
    (self : MessageHandler.Self) (context : MessageHandler.ConversationContext)
    (message : string) (parsed : IntentParser.ParsedIntent) :
  MessageHandler.state context = MessageHandler.IDLE
  \/ MessageHandler.state context = MessageHandler.AWAITING_INQUIRY ->
  MessageHandler.parse self message = Py.Ok parsed ->
  IntentParser.intent_type parsed = IntentParser.ORDER_STATUS ->
  snd (MessageHandler.route self context message)
  = Py.Ok (MessageHandler.send_text MessageHandler.order_number_message)
  /\ MessageHandler.state (fst (MessageHandler.route self context message))
     = MessageHandler.PROCESSING
  /\ MessageHandler.state (fst (MessageHandler.route self context message))
     <> MessageHandler.state context.
Proof.
  intros Hs Hp Ht. unfold MessageHandler.route.
  destruct Hs as [Hs|Hs]; rewrite Hs;
    rewrite (new_inquiry_order_status _ _ _ _ Hp Ht); cbn;
    repeat split; discriminate.
Qed.

Lemma C5_order_status_witness :
  exists context,
    fst (MessageHandler._get_or_create_context
           MessageHandler.no_conversations "2026-01-31T08:00:00" "+6591234567")
        "+6591234567" = Some context
    /\ MessageHandler.state context = MessageHandler.IDLE
    /\ snd (MessageHandler.route Sample.handler context "Where is my order?")
       = Py.Ok (MessageHandler.send_text MessageHandler.order_number_message)
    /\ MessageHandler.state
         (fst (MessageHandler.route Sample.handler context "Where is my order?"))
       = MessageHandler.PROCESSING
    /\ MessageHandler.state
         (fst (MessageHandler.route Sample.handler context "Where is my order?"))
       <> MessageHandler.state context.
Proof.
  eexists. split; [vm_compute; reflexivity|]. split; [reflexivity|].
  eapply C5_order_status_leaves_the_session_processing.
  - left. reflexivity.
  - vm_compute. reflexivity.
  - reflexivity.
Defined.

(** C6.  For every session of a reachable handler: in
    [AWAITING_CONFIRMATION] the session holds a draft order, and on a
    confirmation word it moves to [AWAITING_DELIVERY_INFO] with the request
    for delivery details when the draft lacks delivery information, and
    otherwise to [ORDER_CONFIRMED] with the final confirmation that carries
    the order id; and a session in [ORDER_CONFIRMED] holds a draft order
    with delivery information. *)
Theorem C6_confirmed_orders_have_delivery_information
    (cs : MessageHandler.Conversations) (phone_number : string)
    (context : MessageHandler.ConversationContext) :
  MessageHandler.reachable cs ->
  cs phone_number = Some context ->
  (MessageHandler.state context = MessageHandler.AWAITING_CONFIRMATION ->
   forall (self : MessageHandler.Self) (utcnow message : string),
     Py.mem (Py.strip (Py.lower message)) MessageHandler.confirm_synonyms
     = true ->
     exists order context',
       MessageHandler.extracted_order context = Some order
       /\ fst (MessageHandler.handle_message self utcnow cs phone_number
                 message) phone_number = Some context'
       /\ if MessageHandler.lacks_delivery order
          then MessageHandler.state context'
               = MessageHandler.AWAITING_DELIVERY_INFO
               /\ snd (MessageHandler.handle_message self utcnow cs
                         phone_number message)
                  = Py.Ok (MessageHandler.send_text
                             MessageHandler.delivery_request_message)
          else MessageHandler.state context' = MessageHandler.ORDER_CONFIRMED
               /\ snd (MessageHandler.handle_message self utcnow cs
                         phone_number message)
                  = Py.Ok (MessageHandler.order_confirmed
                             (OrderExtractor.OrderDict.order_id order) order
                             (MessageHandler.order_confirmed_message
                                (OrderExtractor.OrderDict.order_id order))))
  /\ (MessageHandler.state context = MessageHandler.ORDER_CONFIRMED ->
      exists order,
        MessageHandler.extracted_order context = Some order
        /\ MessageHandler.lacks_delivery order = false).
Proof.
  intros Hr Hc. destruct (reachable_invariant cs Hr _ _ Hc) as [Hd Hconf].
  split; [|exact Hconf].
  intros Hs self utcnow message Hm. rewrite Hs in Hd.
  destruct (Hd eq_refl) as (order & Ho). exists order.
  rewrite (handle_message_lookup _ _ _ _ _ _ Hc). cbn [fst snd].
  unfold MessageHandler.route. cbn [MessageHandler.state
    MessageHandler.set_last_message_at]. rewrite Hs.
  rewrite (confirmation_confirm _ message order); [|exact Ho|exact Hm].
  unfold MessageHandler.store. rewrite String.eqb_refl.
  destruct (MessageHandler.lacks_delivery order); cbn [fst snd];
    eexists; (split; [exact Ho|]); (split; [reflexivity|]); split; reflexivity.
Qed.

Lemma C6_confirmed_orders_witness :
  let cs :=
    fst (MessageHandler.handle_message Sample.handler "2026-01-31T08:00:00"
           MessageHandler.no_conversations "+6591234567"
           "I need 10 Acorn ceiling fans, deliver to Bedok next week") in
  exists context order context',
    cs "+6591234567" = Some context
    /\ MessageHandler.state context = MessageHandler.AWAITING_CONFIRMATION
    /\ MessageHandler.extracted_order context = Some order
    /\ MessageHandler.lacks_delivery order = false
    /\ fst (MessageHandler.handle_message Sample.handler "2026-01-31T08:01:00"
              cs "+6591234567" " Yes ") "+6591234567" = Some context'
    /\ MessageHandler.state context' = MessageHandler.ORDER_CONFIRMED
    /\ snd (MessageHandler.handle_message Sample.handler "2026-01-31T08:01:00"
              cs "+6591234567" " Yes ")
       = Py.Ok (MessageHandler.order_confirmed "UB-20260131-ABC123" order
                  (MessageHandler.order_confirmed_message "UB-20260131-ABC123")).
Proof.
  intros cs.
  assert (Hr : MessageHandler.reachable cs)
    by (apply MessageHandler.reachable_by_message,
          MessageHandler.reachable_initially).
  destruct (cs "+6591234567") as [context|] eqn:Hc;
    [|exfalso; revert Hc; vm_compute; discriminate].
  assert (Hs : MessageHandler.state context
               = MessageHandler.AWAITING_CONFIRMATION).
  { revert Hc. vm_compute. now intros [= <-]. }
  destruct (C6_confirmed_orders_have_delivery_information cs "+6591234567"
              context Hr Hc) as [Hconfirm _].
  destruct (Hconfirm Hs Sample.handler "2026-01-31T08:01:00" " Yes " eq_refl)
    as (order & context' & Ho & Hc' & Hif).
  assert (Hl : MessageHandler.lacks_delivery order = false
               /\ OrderExtractor.OrderDict.order_id order
                  = "UB-20260131-ABC123").
  { revert Hc Ho. vm_compute. intros [= <-] [= <-]. now split. }
  destruct Hl as [Hl Hid]. rewrite Hl, Hid in Hif. destruct Hif as [Hs' Hresp].
  exists context, order, context'. repeat split; assumption.
Defined.

(** A session that confirms before it has given an address is asked for
    it, and is confirmed on the second confirmation. *)
Example confirmation_after_delivery_details :
  let step (cs : MessageHandler.Conversations) (message : string) :=
    fst (MessageHandler.handle_message Sample.handler "2026-01-31T08:00:00"
           cs "+6591234567" message) in
  let state_of (cs : MessageHandler.Conversations) :=
    option_map MessageHandler.state (cs "+6591234567") in
  let cs1 := step MessageHandler.no_conversations "5 acorn fans please" in
  let cs2 := step cs1 "confirm" in
  let cs3 := step cs2 "12 Hougang Ave 1" in
  let cs4 := step cs3 "confirm_order" in
  state_of cs1 = Some MessageHandler.AWAITING_CONFIRMATION
  /\ state_of cs2 = Some MessageHandler.AWAITING_DELIVERY_INFO
  /\ state_of cs3 = Some MessageHandler.AWAITING_CONFIRMATION
  /\ state_of cs4 = Some MessageHandler.ORDER_CONFIRMED.
Proof. vm_compute. repeat split. Qed.

(** ** Runs of the pipeline *)

(** The scenario of the specification: ten Acorn ceiling fans for Bedok,
    next week.  One line of 10 at 199.00, no shipping, 179.10 of tax, a
    total of 2169.10, and the delivery to Bedok. *)
Example ten_acorn_fans_for_bedok :
  let cs :=
    fst (MessageHandler.handle_message Sample.handler "2026-01-31T08:00:00"
           MessageHandler.no_conversations "+6591234567"
           "I need 10 Acorn ceiling fans, deliver to Bedok next week") in
  exists context order item,
    cs "+6591234567" = Some context
    /\ MessageHandler.state context = MessageHandler.AWAITING_CONFIRMATION
    /\ MessageHandler.extracted_order context = Some order
    /\ OrderExtractor.OrderDict.items order = [item]
    /\ OrderExtractor.OrderItem.product_id item = "P1"
    /\ OrderExtractor.OrderItem.quantity item = 10%Z
    /\ OrderExtractor.OrderItem.unit_price item == 199
    /\ OrderExtractor.OrderItem.total_price item == 1990
    /\ OrderExtractor.OrderSummary.shipping
         (OrderExtractor.OrderDict.summary order) == 0
    /\ OrderExtractor.OrderSummary.tax
         (OrderExtractor.OrderDict.summary order) == 17910 # 100
    /\ OrderExtractor.OrderSummary.total
         (OrderExtractor.OrderDict.summary order) == 216910 # 100
    /\ option_map (fun d => Py.get d "address")
         (OrderExtractor.OrderDict.delivery order)
       = Some (Py.VStr "Bedok").
Proof.
  intros cs. vm_compute. do 3 eexists. repeat split.
Qed.

(** Records with the same score come back in the order of the catalog. *)
Example ties_keep_the_order_of_the_catalog :
  exists r,
    ProductMatcher.match_ Difflib.ratio
      [Sample.product "B" "Spin Ceiling Fan" 150;
       Sample.acorn_fan;
       Sample.product "A" "Spin Ceiling Fan" 160]
      "ceiling fan" None None 5 (3 # 10) = Py.Ok r
    /\ map ProductMatcher.MatchedProduct.product_id
         (ProductMatcher.MatchResult.matches r) = ["B"; "A"; "P1"].
Proof.
  eexists. split; [vm_compute; reflexivity | reflexivity].
Qed.

(* ================================================================== *)
(** * Further properties of the sources                               *)
(* ================================================================== *)

(** ** intent_parser.py *)

Section ParserFacts.
Import Py IntentParser.

Lemma fallback_intent_type_of (message : string) :
  IntentType_of (VStr (detect_intent_type (lower message)))
  = Ok (fallback_intent_type message).
Proof.
  unfold fallback_intent_type.
  pose proof (detect_intent_type_cases (lower message)) as H. cbn in H.
  destruct H as [<-|[<-|[<-|[<-|[]]]]]; reflexivity.
Qed.

(** What the fallback path returns, field by field. *)
Lemma fallback_parse_is (message : string) :
  _fallback_parse message
  = Ok {| intent_type := fallback_intent_type message;
          products := fallback_products message;
          delivery :=
            Some {| address := opt_str (detect_address (lower message));
                    date := VNone;
                    urgency := opt_str (detect_urgency (lower message));
                    notes := VNone |};
          customer_name := VNone;
          contact_info := VNone;
          raw_message := message;
          confidence_score := VFloat (5 # 10);
          needs_clarification :=
            VBool (match fallback_products message with
                   | [] => true
                   | _ :: _ => false
                   end
                   || negb (is_some (detect_quantity (lower message))));
          clarification_questions :=
            VList (map VStr (fallback_questions message));
          summary :=
            VStr ("Request for "
                  ++ match detect_category (lower message) with
                     | Some c => c
                     | None => "products"
                     end
                  ++ match detect_brand (lower message) with
                     | Some b => " from " ++ b
                     | None => ""
                     end)%string |}.
Proof.
  unfold _fallback_parse, _pattern_match, _parse_response,
    fallback_questions, fallback_products, fallback_mention,
    fallback_intent_type.
  set (ml := lower message).
  pose proof (detect_intent_type_cases ml) as Hi.
  set (ty := detect_intent_type ml) in *.
  set (q := detect_quantity ml). set (b := detect_brand ml).
  set (c := detect_category ml).
  set (u := detect_urgency ml). set (a := detect_address ml).
  cbn in Hi. clearbody ty q b c u a.
  destruct Hi as [<-|[<-|[<-|[<-|[]]]]]; destruct c, b, q; reflexivity.
Qed.

End ParserFacts.



Section ParserPaths.
Import Py IntentParser.

Lemma lstrip_not_blank (s : string) :
  Spec.blank s = false ->
  exists c t, lstrip s = String c t /\ is_space c = false.
Proof.
  induction s as [|c s IH]; cbn; [discriminate|].
  destruct (is_space c) eqn:E; cbn.
  - exact IH.
  - intros _. now exists c, s.
Qed.

Lemma strip_not_blank (s : string) :
  Spec.blank s = false -> truthy_str s = true /\ truthy_str (strip s) = true.
Proof.
  intros H. split.
  - destruct s; [discriminate|reflexivity].
  - unfold strip. destruct (lstrip_not_blank s H) as (c & t & -> & Hc).
    cbn. now rewrite Hc.
Qed.

Lemma parse_not_blank (llm_client : option LLMClient) (message : string) :
  Spec.blank message = false ->
  parse llm_client message
  = catch (response <- _call_llm llm_client message ;;
           _parse_response response message)
          (fun _ => _fallback_parse message).
Proof.
  intros H. unfold parse.
  destruct (strip_not_blank message H) as [-> ->]. reflexivity.
Qed.

Lemma product_intent_of_asdict (p : ProductIntent) :
  product_intent_of (VDict (product_asdict p)) = Ok p.
Proof. now destruct p. Qed.

Lemma mapM_product_intent_of_asdict (ps : list ProductIntent) :
  mapM product_intent_of (map (fun p => VDict (product_asdict p)) ps) = Ok ps.
Proof.
  induction ps as [|p ps IH]; [reflexivity|].
  cbn [map mapM]. rewrite product_intent_of_asdict. cbn [bind].
  now rewrite IH.
Qed.

Lemma IntentType_of_value (t : IntentType) :
  IntentType_of (VStr (IntentType_value t)) = Ok t.
Proof. now destruct t. Qed.

End ParserPaths.



(** X4.  [to_dict] loses nothing: [_parse_response] on the dictionary of an
    intent, with its raw message, gives the intent back. *)
Theorem X4_parse_response_inverts_to_dict
    (intent : IntentParser.ParsedIntent) :
  IntentParser._parse_response (IntentParser.to_dict intent)
    (IntentParser.raw_message intent) = Py.Ok intent.
Proof.
  destruct intent as [ty ps d cn ci raw cs nc cq sm].
  unfold IntentParser._parse_response, IntentParser.to_dict.
  cbn -[IntentParser.product_intent_of IntentParser.IntentType_of
        IntentParser.IntentType_value Py.mapM].
  rewrite mapM_product_intent_of_asdict. cbn [Py.bind].
  destruct d as [[a dt u n]|];
    cbn -[IntentParser.IntentType_of IntentParser.IntentType_value];
    rewrite IntentType_of_value; reflexivity.
Qed.

(** ** product_matcher.py *)

Section MatcherFacts.
Import Py Spec ProductMatcher.
Variable ratio : string -> string -> Q.
Local Open Scope Q_scope.

Lemma match_total_found (catalog : list Product.t) (query : string)
    (brand category : option string) (max_results : Z) (min_score : Q)
    (r : MatchResult.t) :
  match_ ratio catalog query brand category max_results min_score = Ok r ->
  MatchResult.total_found r
  = List.length (scored_products ratio catalog query brand category min_score)
  /\ MatchResult.best_match r = hd_error (MatchResult.matches r).
Proof.
  unfold match_. destruct catalog as [|product catalog].
  - intros [= <-]. split; reflexivity.
  - destruct (mapM _ _) as [matches|e]; cbn [bind]; [|discriminate].
    intros [= <-]. split; reflexivity.
Qed.

Lemma scored_products_length (catalog : list Product.t) (query : string)
    (brand category : option string) (min_score : Q) :
  (List.length (scored_products ratio catalog query brand category min_score)
   <= List.length catalog)%nat.
Proof.
  unfold scored_products.
  eapply Nat.le_trans; [apply filter_length_le|]. now rewrite length_map.
Qed.

(** The head of a list sorted by score has the largest score. *)
Lemma sorted_head_is_largest {A} (score : A -> Q) (x : A) (l : list A) :
  hd_error (sort_desc score l) = Some x ->
  forall y, In y l -> score y <= score x.
Proof.
  intros Hx y Hy.
  pose proof (sort_desc_sorted score l) as Hs.
  apply (Permutation_in _ (Permutation_sym (sort_desc_permutation score l)))
    in Hy.
  destruct (sort_desc score l) as [|z zs]; [discriminate|].
  injection Hx as ->. inversion Hs as [|? ? _ Hall]; subst.
  destruct Hy as [<-|Hy]; [apply Qle_refl|].
  rewrite Forall_forall in Hall. now apply Hall.
Qed.

Lemma hd_error_firstn {A} (n : nat) (l : list A) :
  (1 <= n)%nat -> hd_error (firstn n l) = hd_error l.
Proof. destruct n; [lia|]. now destruct l. Qed.

Lemma scored_products_brand (catalog : list Product.t) (query : string)
    (brand category : option string) (min_score : Q) (product : Product.t) :
  supplied brand = true ->
  min_score <= 3 # 10 ->
  In product catalog ->
  contains (lower (or_empty brand)) (product_name_of product) = true ->
  exists x,
    In x (scored_products ratio catalog query brand category min_score)
    /\ snd (fst x) = product /\ 3 # 10 <= score_of x.
Proof.
  intros Hs Hmin Hin Hc. unfold scored_products.
  set (q := strip (lower query)).
  assert (Hb : detect_brand brand q = brand)
    by (unfold detect_brand; now rewrite Hs).
  rewrite Hb.
  set (c := detect_category category q).
  assert (Hscore : 3 # 10 <= fst (_score_product ratio product q brand c)).
  { unfold _score_product.
    pose proof (brand_bonus ratio product q brand c Hs Hc) as Hbonus.
    pose proof (uncapped_score_nonneg ratio product q None c) as Hnn.
    destruct (uncapped_score ratio product q brand c) as [s rs].
    cbn [fst] in *. unfold qmin. destruct (Qlt_le_dec 1 s); lra. }
  destruct (_score_product ratio product q brand c) as [s rs] eqn:E.
  cbn [fst] in Hscore.
  exists (s, product, rs). repeat split; [|exact Hscore].
  apply filter_In. split.
  - apply in_map_iff. exists product. now rewrite E.
  - apply Qle_bool_iff. cbn. lra.
Qed.

End MatcherFacts.

(** X5.  When [match] returns and [max_results] is at least 1, [best_match]
    is absent exactly when no record of the catalog reaches [min_score], and
    otherwise its score is the largest of all the records that reach it. *)
Theorem X5_best_match_has_the_largest_score
    (ratio : string -> string -> Q) (catalog : list ProductMatcher.Product.t)
    (query : string) (brand category : option string) (max_results : Z)
    (min_score : Q) (r : ProductMatcher.MatchResult.t) :
  (1 <= max_results)%Z ->
  ProductMatcher.match_ ratio catalog query brand category max_results
    min_score = Py.Ok r ->
  let passing :=
    ProductMatcher.scored_products ratio catalog query brand category
      min_score in
  (ProductMatcher.MatchResult.best_match r = None <-> passing = [])
  /\ forall best,
       ProductMatcher.MatchResult.best_match r = Some best ->
       forall x, In x passing ->
         ProductMatcher.score_of x
         <= ProductMatcher.MatchedProduct.match_score best.
Proof.
  intros Hk H passing.
  destruct (match_total_found _ _ _ _ _ _ _ _ H) as [_ Hbest].
  pose proof (match_candidates _ _ _ _ _ _ _ _ H) as F2.
  destruct (ranked_firstn ratio catalog query brand category max_results
              min_score) as (n & Htop & Hn).
  fold passing in Htop. rewrite Htop, (Hn ltac:(lia)) in F2. clear Htop Hn.
  assert (Hhd : hd_error (firstn (Z.to_nat max_results)
                            (Py.sort_desc ProductMatcher.score_of passing))
                = hd_error (Py.sort_desc ProductMatcher.score_of passing))
    by (apply hd_error_firstn; lia).
  rewrite Hbest. split.
  - destruct F2 as [|x m xs ms Hxm _].
    + split; [intros _|reflexivity].
      symmetry in Hhd. cbn in Hhd.
      pose proof (sort_desc_permutation ProductMatcher.score_of passing) as P.
      destruct (Py.sort_desc ProductMatcher.score_of passing);
        [|discriminate].
      now apply Permutation_nil.
    + split; [discriminate|]. intros E. rewrite E in Hhd. discriminate.
  - intros best Hb x Hx.
    destruct F2 as [|x0 m xs ms Hxm _]; [discriminate|].
    injection Hb as ->. cbn in Hhd. symmetry in Hhd.
    rewrite (to_matched_product_score _ _ _ _ Hxm).
    now apply (sorted_head_is_largest ProductMatcher.score_of x0 passing).
Qed.

Lemma X5_best_match_witness :
  exists r best,
    ProductMatcher.match_ Difflib.ratio Sample.catalog "ceiling fan" None None
      1 (3 # 10) = Py.Ok r
    /\ ProductMatcher.MatchResult.best_match r = Some best
    /\ ProductMatcher.MatchedProduct.product_id best = "P2"
    /\ forall x,
         In x (ProductMatcher.scored_products Difflib.ratio Sample.catalog
                 "ceiling fan" None None (3 # 10)) ->
         ProductMatcher.score_of x
         <= ProductMatcher.MatchedProduct.match_score best.
Proof.
  eexists. eexists. split; [vm_compute; reflexivity|].
  split; [reflexivity|]. split; [reflexivity|].
  refine (proj2 (X5_best_match_has_the_largest_score Difflib.ratio
                   Sample.catalog "ceiling fan" None None 1 (3 # 10) _
                   ltac:(lia) eq_refl) _ eq_refl).
Defined.

(** X6.  When [match] returns, it never returns more candidates than it
    found, and never finds more than the catalog holds, whatever
    [max_results] is; with a [min_score] above 1 it finds none. *)
Theorem X6_match_counts
    (ratio : string -> string -> Q) (catalog : list ProductMatcher.Product.t)
    (query : string) (brand category : option string) (max_results : Z)
    (min_score : Q) (r : ProductMatcher.MatchResult.t) :
  ProductMatcher.match_ ratio catalog query brand category max_results
    min_score = Py.Ok r ->
  (List.length (ProductMatcher.MatchResult.matches r)
   <= ProductMatcher.MatchResult.total_found r
   <= List.length catalog)%nat
  /\ (1 < min_score ->
      ProductMatcher.MatchResult.total_found r = 0%nat
      /\ ProductMatcher.MatchResult.matches r = []).
Proof.
  intros H.
  destruct (match_total_found _ _ _ _ _ _ _ _ H) as [Htotal _].
  pose proof (match_candidates _ _ _ _ _ _ _ _ H) as F2.
  destruct (ranked_firstn ratio catalog query brand category max_results
              min_score) as (n & Htop & _).
  pose proof (Forall2_length F2) as Hlen. rewrite Htop in Hlen.
  rewrite length_firstn,
    (Permutation_length (sort_desc_permutation ProductMatcher.score_of _))
    in Hlen.
  assert (Hcount :
    (List.length (ProductMatcher.MatchResult.matches r)
     <= ProductMatcher.MatchResult.total_found r)%nat) by (rewrite Htotal; lia).
  split.
  - split; [exact Hcount|]. rewrite Htotal. apply scored_products_length.
  - intros Hmin.
    assert (E : ProductMatcher.scored_products ratio catalog query brand
                  category min_score = []).
    { pose proof (scored_products_range ratio catalog query brand category
                    min_score) as Hr.
      destruct (ProductMatcher.scored_products ratio catalog query brand
                  category min_score) as [|x xs]; [reflexivity|].
      inversion Hr as [|? ? [[_ H1] H2] _]; subst. exfalso. lra. }
    rewrite Htotal, E in *. split; [reflexivity|].
    destruct (ProductMatcher.MatchResult.matches r); [reflexivity|].
    cbn in Hcount. lia.
Qed.

Lemma X6_match_counts_witness :
  exists r,
    ProductMatcher.match_ Difflib.ratio Sample.catalog "ceiling fan" None None
      1 (3 # 10) = Py.Ok r
    /\ (List.length (ProductMatcher.MatchResult.matches r)
        <= ProductMatcher.MatchResult.total_found r
        <= List.length Sample.catalog)%nat
    /\ ProductMatcher.MatchResult.total_found r = 2%nat.
Proof.
  eexists. split; [vm_compute; reflexivity|]. split; [|reflexivity].
  apply (X6_match_counts Difflib.ratio Sample.catalog "ceiling fan" None None
           1 (3 # 10) _ eq_refl).
Defined.

(** X7.  A brand hint is enough: when the hint is supplied and [min_score]
    is at most 0.3 (the default), every record of the catalog whose
    lower-cased name contains the lower-cased hint reaches [min_score],
    whatever the query. *)
Theorem X7_a_brand_hint_is_enough
    (ratio : string -> string -> Q) (catalog : list ProductMatcher.Product.t)
    (query : string) (brand category : option string) (min_score : Q)
    (product : ProductMatcher.Product.t) :
  ProductMatcher.supplied brand = true ->
  min_score <= 3 # 10 ->
  In product catalog ->
  Py.contains (Py.lower (ProductMatcher.or_empty brand))
    (ProductMatcher.product_name_of product) = true ->
  exists x,
    In x (ProductMatcher.scored_products ratio catalog query brand category
            min_score)
    /\ snd (fst x) = product /\ 3 # 10 <= ProductMatcher.score_of x.
Proof. apply scored_products_brand. Qed.

Lemma X7_a_brand_hint_witness :
  exists x,
    In x (ProductMatcher.scored_products Difflib.ratio Sample.catalog
            "something for the kitchen" (Some "Tecno") None (3 # 10))
    /\ snd (fst x) = Sample.tecno_hood /\ 3 # 10 <= ProductMatcher.score_of x.
Proof.
  apply (X7_a_brand_hint_is_enough Difflib.ratio Sample.catalog
           "something for the kitchen" (Some "Tecno") None (3 # 10)
           Sample.tecno_hood).
  - reflexivity.
  - apply Qle_refl.
  - cbn. auto.
  - reflexivity.
Defined.

Section PriceFacts.
Import Py ProductMatcher.
Local Open Scope Q_scope.

Lemma int_of_digits_from_nonneg (s : string) :
  forall acc, (0 <= acc)%Z -> (0 <= int_of_digits_from acc s)%Z.
Proof.
  induction s as [|c s IH]; cbn [int_of_digits_from]; intros acc H;
    [assumption|].
  apply IH. unfold digit_value. lia.
Qed.

Lemma int_of_digits_nonneg (s : string) : (0 <= int_of_digits s)%Z.
Proof. apply int_of_digits_from_nonneg. lia. Qed.

Lemma float_of_nonneg (s : string) (q : Q) : float_of s = Ok q -> 0 <= q.
Proof.
  unfold float_of. destruct (span is_digit s) as [whole rest].
  pose proof (int_of_digits_nonneg whole) as Hw.
  assert (Hw' : 0 <= inject_Z (int_of_digits whole))
    by (change 0 with (inject_Z 0); now rewrite <- Zle_Qle).
  destruct rest as [|c frac].
  - destruct (is_empty whole); [discriminate|]. now intros [= <-].
  - destruct (span is_digit frac) as [fraction rest'].
    destruct (is_empty rest' && negb (is_empty whole && is_empty fraction));
      [|discriminate].
    intros [= <-].
    pose proof (int_of_digits_nonneg fraction) as Hf.
    assert (Hf' : 0 <= inject_Z (int_of_digits fraction))
      by (change 0 with (inject_Z 0); now rewrite <- Zle_Qle).
    assert (Hp : 0 < inject_Z (10 ^ Z.of_nat (String.length fraction))).
    { change 0 with (inject_Z 0). rewrite <- Zlt_Qlt.
      apply Z.pow_pos_nonneg; lia. }
    assert (Hd : 0 <= inject_Z (int_of_digits fraction)
                      / inject_Z (10 ^ Z.of_nat (String.length fraction))).
    { apply Qle_shift_div_l; [exact Hp|]. now rewrite Qmult_0_l. }
    lra.
Qed.

Lemma parse_price_nonneg (s : string) (q : Q) :
  parse_price s = Ok q -> 0 <= q.
Proof.
  unfold parse_price. destruct (is_empty (digits_and_dots s)).
  - intros [= <-]. apply Qle_refl.
  - apply float_of_nonneg.
Qed.

End PriceFacts.

(** X8.  In every record [_to_matched_product] converts, a price read from
    the price string (the numeric price is missing or zero) is not negative,
    nor is the original price: signs and currency marks are dropped.  A
    numeric price that is not zero is taken as it is. *)
Theorem X8_prices_read_from_text_are_not_negative
    (product : ProductMatcher.Product.t) (score : Q)
    (reason : list ProductMatcher.Reason)
    (m : ProductMatcher.MatchedProduct.t) :
  ProductMatcher._to_matched_product product score reason = Py.Ok m ->
  (forall q, ProductMatcher.MatchedProduct.original_price m = Some q -> 0 <= q)
  /\ ((forall x, ProductMatcher.Product.price_numeric product = Some x ->
                 x == 0) ->
      0 <= ProductMatcher.MatchedProduct.price m)
  /\ (forall x, ProductMatcher.Product.price_numeric product = Some x ->
                ~ x == 0 ->
                ProductMatcher.MatchedProduct.price m = x).
Proof.
  unfold ProductMatcher._to_matched_product.
  destruct (match ProductMatcher.Product.price_numeric product with
            | Some p => _ | None => _ end) as [price|e] eqn:Ep;
    cbn [Py.bind]; [|discriminate].
  destruct (match ProductMatcher.Product.original_price product with
            | Some s => _ | None => _ end) as [original|e] eqn:Eo;
    cbn [Py.bind]; [|discriminate].
  intros [= <-]. cbn. repeat split.
  - intros q ->.
    destruct (ProductMatcher.Product.original_price product) as [s|];
      [|discriminate].
    destruct (Py.truthy_str s); [|discriminate].
    destruct (ProductMatcher.parse_price s) as [p|e] eqn:E; [|discriminate].
    cbn in Eo. injection Eo as <-. now apply parse_price_nonneg with (1 := E).
  - intros Hz.
    destruct (ProductMatcher.Product.price_numeric product) as [p|].
    + unfold Py.nonzero in Ep.
      destruct (Qeq_bool p 0) eqn:E; cbn in Ep.
      * now apply parse_price_nonneg with (1 := Ep).
      * apply Qeq_bool_neq in E. elim E. now apply Hz.
    + now apply parse_price_nonneg with (1 := Ep).
  - intros x Hx Hnz. rewrite Hx in Ep. unfold Py.nonzero in Ep.
    destruct (Qeq_bool x 0) eqn:E; cbn in Ep.
    + apply Qeq_bool_iff in E. now elim Hnz.
    + now injection Ep.
Qed.

Lemma X8_prices_witness :
  exists m,
    ProductMatcher._to_matched_product Sample.text_priced_tap 1 [] = Py.Ok m
    /\ ProductMatcher.MatchedProduct.price m == 12995 # 10
    /\ 0 <= ProductMatcher.MatchedProduct.price m.
Proof.
  eexists. split; [vm_compute; reflexivity|]. split; [reflexivity|].
  refine (proj1 (proj2 (X8_prices_read_from_text_are_not_negative
                          Sample.text_priced_tap 1 [] _ eq_refl)) _).
  intros x. discriminate.
Defined.

(** X9.  [get_product_by_id] answers [None] exactly when no record of the
    catalog has the id; a product it returns has the id that was asked for,
    a score of 1, and comes from a record of the catalog. *)
Theorem X9_lookup_by_id
    (catalog : list ProductMatcher.Product.t) (product_id : string) :
  (ProductMatcher.get_product_by_id catalog product_id = Py.Ok None
   <-> forall product, In product catalog ->
         ProductMatcher.Product.item_id product <> Some product_id)
  /\ forall m,
       ProductMatcher.get_product_by_id catalog product_id = Py.Ok (Some m) ->
       ProductMatcher.MatchedProduct.product_id m = product_id
       /\ ProductMatcher.MatchedProduct.match_score m = 1
       /\ exists product,
            In product catalog
            /\ ProductMatcher.Product.item_id product = Some product_id
            /\ ProductMatcher.MatchedProduct.name m
               = ProductMatcher.or_empty (ProductMatcher.Product.name product).
Proof.
  unfold ProductMatcher.get_product_by_id.
  set (has_id := fun product =>
         match ProductMatcher.Product.item_id product with
         | Some i => String.eqb i product_id
         | None => false
         end).
  assert (Hid : forall product,
            has_id product = true
            <-> ProductMatcher.Product.item_id product = Some product_id).
  { intros product. unfold has_id.
    destruct (ProductMatcher.Product.item_id product) as [i|].
    - rewrite String.eqb_eq. split; congruence.
    - split; discriminate. }
  destruct (List.find has_id catalog) as [product|] eqn:F.
  - apply find_some in F as [Hin Hp]. apply Hid in Hp.
    split.
    + split.
      * destruct (ProductMatcher._to_matched_product product 1 _);
          discriminate.
      * intros H. elim (H product Hin Hp).
    + intros m.
      destruct (ProductMatcher._to_matched_product product 1 _) as [m'|e]
        eqn:E; cbn [Py.bind]; [|discriminate].
      intros [= <-].
      pose proof (to_matched_product_score _ _ _ _ E) as Hs.
      unfold ProductMatcher._to_matched_product in E.
      destruct (match ProductMatcher.Product.price_numeric product with
                | Some p => _ | None => _ end) as [price|e];
        cbn [Py.bind] in E; [|discriminate].
      destruct (match ProductMatcher.Product.original_price product with
                | Some s => _ | None => _ end) as [original|e];
        cbn [Py.bind] in E; [|discriminate].
      injection E as <-. cbn. rewrite Hp. cbn.
      repeat split. exists product. now repeat split.
  - split; [|discriminate]. split; [|reflexivity].
    intros _ product Hin Hp. apply Hid in Hp.
    pose proof (find_none _ _ F product Hin) as Hf. congruence.
Qed.

Lemma X9_lookup_by_id_witness :
  exists m,
    ProductMatcher.get_product_by_id Sample.catalog "P2" = Py.Ok (Some m)
    /\ ProductMatcher.MatchedProduct.product_id m = "P2"
    /\ ProductMatcher.MatchedProduct.match_score m = 1.
Proof.
  eexists. split; [vm_compute; reflexivity|].
  destruct (proj2 (X9_lookup_by_id Sample.catalog "P2") _ eq_refl)
    as (Hid & Hs & _).
  now split.
Defined.

(** ** order_extractor.py *)

Section DiscountFacts.
Import Py Spec OrderExtractor.
Local Open Scope Q_scope.

Lemma apply_discount_twice (self : Self) (order : ExtractedOrder.t)
    (p1 p2 : Q) :
  apply_discount self (apply_discount self order p1) p2
  = apply_discount self order p2.
Proof. reflexivity. Qed.

Lemma round2_0 : round2 0 == 0.
Proof. reflexivity. Qed.

End DiscountFacts.

(** X10.  Discounts do not add up: after any sequence of [apply_discount]
    calls the order is the one a single call with the last percentage
    gives, and its lines, subtotal and shipping are those of the order
    before the first call. *)
Theorem X10_only_the_last_discount_counts
    (self : OrderExtractor.Self) (order : OrderExtractor.ExtractedOrder.t)
    (percents : list Q) (last : Q) :
  let discounted :=
    fold_left (OrderExtractor.apply_discount self) (percents ++ [last])
      order in
  discounted = OrderExtractor.apply_discount self order last
  /\ OrderExtractor.ExtractedOrder.items discounted
     = OrderExtractor.ExtractedOrder.items order
  /\ OrderExtractor.OrderSummary.subtotal
       (OrderExtractor.ExtractedOrder.summary discounted)
     = OrderExtractor.OrderSummary.subtotal
         (OrderExtractor.ExtractedOrder.summary order)
  /\ OrderExtractor.OrderSummary.shipping
       (OrderExtractor.ExtractedOrder.summary discounted)
     = OrderExtractor.OrderSummary.shipping
         (OrderExtractor.ExtractedOrder.summary order).
Proof.
  intros discounted.
  assert (E : discounted = OrderExtractor.apply_discount self order last).
  { unfold discounted. rewrite fold_left_app. cbn [fold_left].
    clear discounted. revert order.
    induction percents as [|p percents IH]; intros order; [reflexivity|].
    cbn [fold_left]. rewrite IH. apply apply_discount_twice. }
  rewrite E. repeat split.
Qed.

Section Thresholds.
Import Py Spec OrderExtractor.
Local Open Scope Q_scope.

Lemma round2_DEFAULT_SHIPPING : round2 DEFAULT_SHIPPING == 50.
Proof. reflexivity. Qed.

Lemma calculate_summary_shipping (self : Self) (items : list OrderItem.t) :
  OrderSummary.shipping (_calculate_summary self items)
  == if Qle_bool (free_shipping_threshold self)
          (qsum (map OrderItem.total_price items))
     then 0 else 50.
Proof.
  unfold _calculate_summary. cbn [OrderSummary.shipping].
  destruct (Qle_bool _ _); [apply round2_0|apply round2_DEFAULT_SHIPPING].
Qed.

End Thresholds.

(** X11.  Zero is a tax rate but not a threshold.  An extractor built with
    a tax rate of 0 charges no tax; one built with a free-shipping threshold
    of 0 falls back to the threshold of 500, so that an order under 500
    still pays the shipping fee of 50; any other threshold is the one that
    decides on free shipping. *)
Theorem X11_zero_is_a_tax_rate_but_not_a_threshold
    (tax_rate threshold : option Q)
    (items : list OrderExtractor.OrderItem.t) :
  let subtotal := Py.qsum (map OrderExtractor.OrderItem.total_price items) in
  OrderExtractor.OrderSummary.tax
    (OrderExtractor._calculate_summary
       (OrderExtractor.init (Some 0) threshold) items) == 0
  /\ (subtotal < 500 ->
      OrderExtractor.OrderSummary.shipping
        (OrderExtractor._calculate_summary
           (OrderExtractor.init tax_rate (Some 0)) items) == 50)
  /\ (forall t, ~ t == 0 ->
        (OrderExtractor.OrderSummary.shipping
           (OrderExtractor._calculate_summary
              (OrderExtractor.init tax_rate (Some t)) items) == 0
         <-> t <= subtotal)).
Proof.
  intros subtotal. split; [|split].
  - unfold OrderExtractor._calculate_summary.
    cbn [OrderExtractor.OrderSummary.tax OrderExtractor.tax_rate
         OrderExtractor.init].
    fold subtotal.
    assert (E : subtotal * 0 == 0) by ring.
    now rewrite (round2_Proper _ _ E).
  - intros Hlt. rewrite calculate_summary_shipping. fold subtotal.
    change (OrderExtractor.free_shipping_threshold
              (OrderExtractor.init tax_rate (Some 0))) with 500.
    destruct (Qle_bool 500 subtotal) eqn:B; [|reflexivity].
    apply Qle_bool_iff in B. exfalso. now apply (Qlt_not_le _ _ Hlt).
  - intros t Ht. rewrite calculate_summary_shipping. fold subtotal.
    assert (E : OrderExtractor.free_shipping_threshold
                  (OrderExtractor.init tax_rate (Some t)) = t).
    { cbn. unfold Py.nonzero. destruct (Qeq_bool t 0) eqn:B; [|reflexivity].
      apply Qeq_bool_iff in B. now elim Ht. }
    rewrite E. destruct (Qle_bool t subtotal) eqn:B.
    + apply Qle_bool_iff in B. split; [now intros _|reflexivity].
    + split; [discriminate|]. intros Hle. apply Qle_bool_iff in Hle.
      congruence.
Qed.

Lemma X11_zero_threshold_witness :
  OrderExtractor.OrderSummary.shipping
    (OrderExtractor._calculate_summary
       (OrderExtractor.init None (Some 0)) [Sample.item "P1" 2 (9 # 10)])
  == 50.
Proof.
  refine (proj1 (proj2 (X11_zero_is_a_tax_rate_but_not_a_threshold
                          None None [Sample.item "P1" 2 (9 # 10)])) _).
  reflexivity.
Defined.

Section ZeroDiscount.
Import Py Spec OrderExtractor.
Local Open Scope Q_scope.

Lemma zero_discount_amounts (self : Self) (items : list OrderItem.t)
    (order : ExtractedOrder.t) :
  ExtractedOrder.summary order = _calculate_summary self items ->
  whole_cents (qsum (map OrderItem.total_price items)) ->
  same_amounts (ExtractedOrder.summary (apply_discount self order 0))
               (ExtractedOrder.summary order).
Proof.
  intros Hs Hw. unfold same_amounts, apply_discount.
  cbn [OrderSummary.subtotal OrderSummary.discount OrderSummary.tax
       OrderSummary.shipping OrderSummary.total OrderSummary.currency
       ExtractedOrder.summary ExtractedOrder.set_summary].
  rewrite Hs. unfold _calculate_summary.
  cbn [OrderSummary.subtotal OrderSummary.discount OrderSummary.tax
       OrderSummary.shipping OrderSummary.total OrderSummary.currency].
  set (subtotal := qsum (map OrderItem.total_price items)) in *.
  set (shipping := if Qle_bool (free_shipping_threshold self) subtotal
                   then 0 else DEFAULT_SHIPPING).
  assert (Hship : round2 shipping == shipping).
  { apply round2_of_whole_cents. unfold shipping.
    destruct (Qle_bool _ _);
      [apply whole_cents_0 | apply whole_cents_DEFAULT_SHIPPING]. }
  pose proof (round2_of_whole_cents subtotal Hw) as Hsub.
  refine (conj (conj _ (conj _ (conj _ (conj _ _)))) eq_refl).
  - reflexivity.
  - assert (E : round2 subtotal * (0 / 100) == 0) by field.
    now rewrite (round2_Proper _ _ E).
  - apply round2_Proper. rewrite Hsub. field.
  - reflexivity.
  - apply round2_Proper. rewrite Hsub, Hship. field.
Qed.

End ZeroDiscount.



Section LineFacts.
Import Py Spec OrderExtractor.
Local Open Scope Q_scope.

Lemma extract_item_line (matched : list MatchedProduct.t) (i : nat)
    (mention : ProductIntentDict.t) (item : OrderItem.t) :
  extract_item matched i mention = Ok item -> line_of mention item.
Proof.
  unfold extract_item.
  destruct (match nth_error matched i with
            | Some m => Ok (Some m)
            | None => match matched with
                      | [] => Ok None
                      | _ :: _ => _find_best_match mention matched
                      end
            end) as [[m|]|e]; cbn [bind]; intros [= <-]; unfold line_of; cbn.
  - refine (conj eq_refl (conj _ (or_intror eq_refl))). reflexivity.
  - refine (conj eq_refl (conj _ (or_introl eq_refl))). ring.
Qed.

Lemma extract_items_from_lines (matched : list MatchedProduct.t)
    (mentions : list ProductIntentDict.t) :
  forall (i : nat) (items : list OrderItem.t),
  extract_items_from matched i mentions = Ok items ->
  Forall2 line_of mentions items.
Proof.
  induction mentions as [|mention mentions IH]; intros i items; cbn.
  - intros [= <-]. constructor.
  - destruct (extract_item matched i mention) as [item|e] eqn:E;
      cbn [bind]; [|discriminate].
    destruct (extract_items_from matched (S i) mentions) as [rest|e] eqn:R;
      cbn [bind]; [|discriminate].
    intros [= <-]. constructor.
    + now apply extract_item_line with (1 := E).
    + now apply IH with (1 := R).
Qed.

(** With a candidate at its position, a mention is priced by it. *)
Lemma extract_item_positional (matched : list MatchedProduct.t) (i : nat)
    (mention : ProductIntentDict.t) (m : MatchedProduct.t) :
  nth_error matched i = Some m ->
  exists item,
    extract_item matched i mention = Ok item
    /\ OrderItem.product_id item = MatchedProduct.product_id m
    /\ OrderItem.unit_price item = MatchedProduct.price m
    /\ OrderItem.match_confidence item = MatchedProduct.match_score m.
Proof.
  intros H. unfold extract_item. rewrite H. cbn [bind].
  eexists. split; [reflexivity|]. now repeat split.
Qed.

Lemma extract_items_from_positional (matched : list MatchedProduct.t)
    (mentions : list ProductIntentDict.t) :
  forall i,
  (i + List.length mentions <= List.length matched)%nat ->
  exists items,
    extract_items_from matched i mentions = Ok items
    /\ Forall2 (fun (m : MatchedProduct.t) item =>
                  OrderItem.product_id item = MatchedProduct.product_id m
                  /\ OrderItem.unit_price item = MatchedProduct.price m
                  /\ OrderItem.match_confidence item
                     = MatchedProduct.match_score m)
               (firstn (List.length mentions) (skipn i matched)) items.
Proof.
  induction mentions as [|mention mentions IH]; intros i Hlen; cbn.
  - exists []. split; [reflexivity|constructor].
  - cbn in Hlen.
    destruct (nth_error matched i) as [m|] eqn:E;
      [|apply nth_error_None in E; lia].
    destruct (extract_item_positional matched i mention m E)
      as (item & Hi & Hitem).
    destruct (IH (S i) ltac:(lia)) as (items & His & Hitems).
    exists (item :: items). rewrite Hi, His. cbn [bind].
    split; [reflexivity|].
    assert (Hs : skipn i matched = m :: skipn (S i) matched).
    { clear -E. revert i E.
      induction matched as [|x xs IHm]; intros [|i] E; try discriminate.
      - now injection E as ->.
      - cbn in *. now apply IHm. }
    rewrite Hs. cbn [firstn]. now constructor.
Qed.

End LineFacts.

(** X13.  Every order [extract] returns has one line per mention, in the
    order of the mentions; each line has the quantity of its mention (1 for
    a null or zero quantity), a total that is its unit price times its
    quantity, and, unless it is UNMATCHED, the raw text of its mention as
    its note. *)
Theorem X13_one_line_per_mention
    (self : OrderExtractor.Self) (fresh : OrderExtractor.Fresh)
    (intent : OrderExtractor.ParsedIntentDict.t)
    (matched : list ProductMatcher.MatchedProduct.t) (raw_message : string)
    (order : OrderExtractor.ExtractedOrder.t) :
  OrderExtractor.extract self fresh intent matched raw_message = Py.Ok order ->
  Forall2 Spec.line_of (OrderExtractor.ParsedIntentDict.products intent)
    (OrderExtractor.ExtractedOrder.items order)
  /\ List.length (OrderExtractor.ExtractedOrder.items order)
     = List.length (OrderExtractor.ParsedIntentDict.products intent).
Proof.
  intros H. apply extract_items in H.
  apply extract_items_from_lines in H.
  split; [exact H|]. symmetry. now apply Forall2_length with (1 := H).
Qed.

Lemma X13_one_line_per_mention_witness :
  exists order,
    OrderExtractor.extract (OrderExtractor.init None None) Sample.fresh
      (Sample.intent [Sample.mention "acorn fan" None;
                      Sample.mention "two more" (Some 2%Z)] (5 # 10))
      [Sample.matched 199 (9 # 10)] "fans" = Py.Ok order
    /\ Forall2 Spec.line_of
         [Sample.mention "acorn fan" None; Sample.mention "two more" (Some 2%Z)]
         (OrderExtractor.ExtractedOrder.items order)
    /\ map OrderExtractor.OrderItem.total_price
         (OrderExtractor.ExtractedOrder.items order) = [199 * 1; 199 * 2].
Proof.
  eexists. split; [vm_compute; reflexivity|].
  split; [|reflexivity].
  apply (X13_one_line_per_mention (OrderExtractor.init None None) Sample.fresh
           (Sample.intent [Sample.mention "acorn fan" None;
                           Sample.mention "two more" (Some 2%Z)] (5 # 10))
           [Sample.matched 199 (9 # 10)] "fans" _ eq_refl).
Defined.



Section NoCandidates.
Import Py Spec OrderExtractor.
Local Open Scope Q_scope.

Lemma extract_items_from_nothing (mentions : list ProductIntentDict.t) :
  forall i, exists items,
    extract_items_from [] i mentions = Ok items
    /\ Forall placeholder_line items
    /\ List.length items = List.length mentions.
Proof.
  induction mentions as [|mention mentions IH]; intros i; cbn.
  - exists []. repeat split. constructor.
  - destruct (IH (S i)) as (items & -> & Hp & Hl).
    unfold extract_item. destruct i; cbn [nth_error bind];
      (eexists; split; [reflexivity|]; split;
       [constructor; [|exact Hp]; unfold placeholder_line; cbn;
        repeat split; reflexivity
       |cbn; now rewrite Hl]).
Qed.

Lemma qsum_from (xs : list Q) : forall a, fold_left Qplus xs a == a + qsum xs.
Proof.
  unfold qsum. induction xs as [|x xs IH]; intros a; cbn.
  - ring.
  - rewrite (IH (a + x)), (IH (0 + x)). ring.
Qed.

Lemma qsum_cons (x : Q) (xs : list Q) : qsum (x :: xs) == x + qsum xs.
Proof. unfold qsum at 1. cbn. rewrite qsum_from. ring. Qed.

Lemma qsum_placeholders (items : list OrderItem.t) :
  Forall placeholder_line items ->
  qsum (map OrderItem.total_price items) == 0.
Proof.
  induction 1 as [|item items (_ & _ & Ht & _) _ IH]; [reflexivity|].
  cbn [map]. rewrite qsum_cons, Ht, IH. ring.
Qed.

End NoCandidates.

(** X15.  Without any candidate [extract] does not fail: it returns an
    order with one UNMATCHED line per mention, each of price, total and
    match confidence 0; the subtotal and the tax are 0, yet the total is the
    shipping fee of 50 whenever the free-shipping threshold is positive; and
    the order needs confirmation as soon as there is a mention. *)
Theorem X15_without_candidates_every_line_is_a_placeholder
    (self : OrderExtractor.Self) (fresh : OrderExtractor.Fresh)
    (intent : OrderExtractor.ParsedIntentDict.t) (raw_message : string) :
  exists order,
    OrderExtractor.extract self fresh intent [] raw_message = Py.Ok order
    /\ Forall Spec.placeholder_line (OrderExtractor.ExtractedOrder.items order)
    /\ List.length (OrderExtractor.ExtractedOrder.items order)
       = List.length (OrderExtractor.ParsedIntentDict.products intent)
    /\ OrderExtractor.OrderSummary.subtotal
         (OrderExtractor.ExtractedOrder.summary order) == 0
    /\ OrderExtractor.OrderSummary.tax
         (OrderExtractor.ExtractedOrder.summary order) == 0
    /\ (0 < OrderExtractor.free_shipping_threshold self ->
        OrderExtractor.OrderSummary.total
          (OrderExtractor.ExtractedOrder.summary order)
        == OrderExtractor.DEFAULT_SHIPPING)
    /\ (OrderExtractor.ParsedIntentDict.products intent <> [] ->
        OrderExtractor.ExtractedOrder.needs_confirmation order = true).
Proof.
  destruct (extract_items_from_nothing
              (OrderExtractor.ParsedIntentDict.products intent) 0)
    as (items & Hi & Hp & Hl).
  unfold OrderExtractor.extract, OrderExtractor._extract_items.
  rewrite Hi. cbn [Py.bind].
  destruct (OrderExtractor._check_confirmation_needs intent items
              (OrderExtractor._extract_delivery intent)) as [needs notes] eqn:E.
  eexists. split; [reflexivity|].
  cbn [OrderExtractor.ExtractedOrder.items OrderExtractor.ExtractedOrder.summary
       OrderExtractor.ExtractedOrder.needs_confirmation].
  pose proof (qsum_placeholders items Hp) as Hz.
  unfold OrderExtractor._calculate_summary.
  cbn [OrderExtractor.OrderSummary.subtotal OrderExtractor.OrderSummary.tax
       OrderExtractor.OrderSummary.total].
  split; [exact Hp|]. split; [exact Hl|]. split; [|split; [|split]].
  - now rewrite (round2_Proper _ _ Hz).
  - assert (E0 : Py.qsum (map OrderExtractor.OrderItem.total_price items)
                 * OrderExtractor.tax_rate self == 0) by (rewrite Hz; ring).
    now rewrite (round2_Proper _ _ E0).
  - intros Ht.
    assert (Hs : Qle_bool (OrderExtractor.free_shipping_threshold self)
                   (Py.qsum (map OrderExtractor.OrderItem.total_price items))
                 = false).
    { destruct (Qle_bool _ _) eqn:B; [|reflexivity].
      apply Qle_bool_iff in B. rewrite Hz in B. exfalso.
      now apply (Qlt_not_le _ _ Ht). }
    rewrite Hs.
    assert (E0 : Py.qsum (map OrderExtractor.OrderItem.total_price items)
                 + Py.qsum (map OrderExtractor.OrderItem.total_price items)
                   * OrderExtractor.tax_rate self
                 + OrderExtractor.DEFAULT_SHIPPING
                 == OrderExtractor.DEFAULT_SHIPPING) by (rewrite Hz; ring).
    now rewrite (round2_Proper _ _ E0).
  - intros Hne.
    change needs with (fst (needs, notes)). rewrite <- E.
    rewrite check_confirmation_flag.
    destruct items as [|item items].
    + destruct (OrderExtractor.ParsedIntentDict.products intent);
        [now elim Hne|discriminate].
    + inversion Hp as [|? ? [Hid _] _]. cbn [filter].
      unfold OrderExtractor.is_unmatched at 1. rewrite Hid. reflexivity.
Qed.

Lemma X15_without_candidates_witness :
  exists order,
    OrderExtractor.extract (OrderExtractor.init None None) Sample.fresh
      (Sample.intent [Sample.hood_mention] (5 # 10)) [] "2 hoods"
    = Py.Ok order
    /\ OrderExtractor.OrderSummary.total
         (OrderExtractor.ExtractedOrder.summary order) == 50
    /\ OrderExtractor.ExtractedOrder.needs_confirmation order = true.
Proof.
  destruct (X15_without_candidates_every_line_is_a_placeholder
              (OrderExtractor.init None None) Sample.fresh
              (Sample.intent [Sample.hood_mention] (5 # 10)) "2 hoods")
    as (order & H & _ & _ & _ & _ & Ht & Hn).
  exists order. split; [exact H|]. split.
  - apply Ht. reflexivity.
  - apply Hn. discriminate.
Defined.

Section BeyondTheCandidates.
Import Py Spec OrderExtractor.

Lemma find_best_match_null (intent : ProductIntentDict.t)
    (matched : list MatchedProduct.t) :
  ProductIntentDict.brand intent = None
  \/ ProductIntentDict.category intent = None ->
  _find_best_match intent matched = Raise AttributeError.
Proof.
  unfold _find_best_match.
  destruct (ProductIntentDict.brand intent) as [b|];
    destruct (ProductIntentDict.category intent) as [c|];
    intros [H|H]; try discriminate; reflexivity.
Qed.

Lemma extract_items_from_beyond (matched : list MatchedProduct.t)
    (mention : ProductIntentDict.t) (mentions : list ProductIntentDict.t) :
  matched <> [] ->
  ProductIntentDict.brand mention = None
  \/ ProductIntentDict.category mention = None ->
  forall i,
    (i <= List.length matched)%nat ->
    nth_error mentions (List.length matched - i) = Some mention ->
    extract_items_from matched i mentions = Raise AttributeError.
Proof.
  intros Hne Hnull.
  induction mentions as [|m mentions IH]; intros i Hi Hnth.
  - now destruct (List.length matched - i)%nat.
  - cbn [extract_items_from].
    destruct (Nat.eq_dec i (List.length matched)) as [->|Hlt].
    + rewrite Nat.sub_diag in Hnth. injection Hnth as ->.
      unfold extract_item.
      assert (E : nth_error matched (List.length matched) = None)
        by (apply nth_error_None; lia).
      rewrite E. destruct matched as [|m0 ms]; [now elim Hne|].
      now rewrite (find_best_match_null _ _ Hnull).
    + destruct (nth_error matched i) as [m0|] eqn:E;
        [|apply nth_error_None in E; lia].
      destruct (extract_item_positional matched i m m0 E) as (item & -> & _).
      cbn [bind].
      rewrite (IH (S i)); [reflexivity|lia|].
      replace (List.length matched - i)%nat
        with (S (List.length matched - S i)) in Hnth by lia.
      exact Hnth.
Qed.

End BeyondTheCandidates.

(** X16.  With fewer candidates than mentions, but at least one, [extract]
    raises [AttributeError] as soon as the first mention beyond the
    candidates has a null brand or a null category: [_find_best_match]
    calls [lower] on it. *)
Theorem X16_a_null_brand_beyond_the_candidates_raises
    (self : OrderExtractor.Self) (fresh : OrderExtractor.Fresh)
    (intent : OrderExtractor.ParsedIntentDict.t)
    (matched : list ProductMatcher.MatchedProduct.t) (raw_message : string)
    (mention : OrderExtractor.ProductIntentDict.t) :
  matched <> [] ->
  nth_error (OrderExtractor.ParsedIntentDict.products intent)
    (List.length matched) = Some mention ->
  OrderExtractor.ProductIntentDict.brand mention = None
  \/ OrderExtractor.ProductIntentDict.category mention = None ->
  OrderExtractor.extract self fresh intent matched raw_message
  = Py.Raise Py.AttributeError.
Proof.
  intros Hne Hnth Hnull.
  unfold OrderExtractor.extract, OrderExtractor._extract_items.
  rewrite (extract_items_from_beyond matched mention _ Hne Hnull 0);
    [reflexivity|lia|now rewrite Nat.sub_0_r].
Qed.

Lemma X16_a_null_brand_witness :
  OrderExtractor.extract (OrderExtractor.init None None) Sample.fresh
    (Sample.intent [Sample.mention "acorn fan" (Some 2%Z); Sample.hood_mention]
       (5 # 10))
    [Sample.matched 199 (9 # 10)] "acorn fan and 2 hoods"
  = Py.Raise Py.AttributeError.
Proof.
  apply (X16_a_null_brand_beyond_the_candidates_raises
           (OrderExtractor.init None None) Sample.fresh
           (Sample.intent
              [Sample.mention "acorn fan" (Some 2%Z); Sample.hood_mention]
              (5 # 10))
           [Sample.matched 199 (9 # 10)] "acorn fan and 2 hoods"
           Sample.hood_mention).
  - discriminate.
  - reflexivity.
  - now left.
Defined.

Section DeliveryFacts.
Import Py Spec OrderExtractor.

Lemma check_confirmation_notes_delivery (intent : ParsedIntentDict.t)
    (items : list OrderItem.t) :
  In "Delivery address required"%string
     (snd (_check_confirmation_needs intent items None)).
Proof.
  unfold _check_confirmation_needs.
  destruct (nonempty (List.filter is_unmatched items));
    destruct (nonempty (List.filter is_low_confidence items));
    destruct (nonempty (List.filter is_missing_qty items));
    destruct (ParsedIntentDict.needs_clarification intent);
    cbn [snd app]; rewrite ?in_app_iff; cbn [In]; tauto.
Qed.

Lemma extract_delivery_none (intent : ParsedIntentDict.t) :
  _extract_delivery intent = None
  <-> (forall d a,
         ParsedIntentDict.delivery intent = Some d ->
         DeliveryIntentDict.address d = Some a -> a = ""%string).
Proof.
  unfold _extract_delivery.
  destruct (ParsedIntentDict.delivery intent) as [d|].
  - destruct (DeliveryIntentDict.address d) as [[|c a]|] eqn:E; cbn.
    + split; [|reflexivity]. intros _ d' a' [= <-]. congruence.
    + split; [discriminate|]. intros H.
      specialize (H d (String c a) eq_refl E). discriminate.
    + split; [|reflexivity]. intros _ d' a' [= <-]. congruence.
  - split; [|reflexivity]. discriminate.
Qed.

Lemma extract_delivery_some (intent : ParsedIntentDict.t)
    (d : DeliveryDetails.t) :
  _extract_delivery intent = Some d ->
  DeliveryDetails.address d <> ""%string
  /\ DeliveryDetails.city d = "Singapore"%string
  /\ DeliveryDetails.postal_code d = None
  /\ DeliveryDetails.preferred_time d = None
  /\ DeliveryDetails.contact_name d = ParsedIntentDict.customer_name intent
  /\ DeliveryDetails.contact_phone d = ParsedIntentDict.contact_info intent.
Proof.
  unfold _extract_delivery.
  destruct (ParsedIntentDict.delivery intent) as [dd|]; [|discriminate].
  destruct (DeliveryIntentDict.address dd) as [[|c a]|]; cbn;
    try discriminate.
  intros [= <-]. cbn. repeat split. discriminate.
Qed.

End DeliveryFacts.

(** X17.  An order has delivery details exactly when the intent carries a
    non-empty address.  Without them the order needs confirmation and says
    that the delivery address is required; with them the city is always
    Singapore, there is never a postal code or a preferred time, and the
    contact is the customer of the intent. *)
Theorem X17_delivery_details_come_from_the_address
    (self : OrderExtractor.Self) (fresh : OrderExtractor.Fresh)
    (intent : OrderExtractor.ParsedIntentDict.t)
    (matched : list ProductMatcher.MatchedProduct.t) (raw_message : string)
    (order : OrderExtractor.ExtractedOrder.t) :
  OrderExtractor.extract self fresh intent matched raw_message = Py.Ok order ->
  (OrderExtractor.ExtractedOrder.delivery order = None
   <-> (forall d a,
          OrderExtractor.ParsedIntentDict.delivery intent = Some d ->
          OrderExtractor.DeliveryIntentDict.address d = Some a ->
          a = ""%string))
  /\ (OrderExtractor.ExtractedOrder.delivery order = None ->
      OrderExtractor.ExtractedOrder.needs_confirmation order = true
      /\ In "Delivery address required"%string
            (OrderExtractor.ExtractedOrder.confirmation_notes order))
  /\ (forall d,
        OrderExtractor.ExtractedOrder.delivery order = Some d ->
        OrderExtractor.DeliveryDetails.address d <> ""%string
        /\ OrderExtractor.DeliveryDetails.city d = "Singapore"%string
        /\ OrderExtractor.DeliveryDetails.postal_code d = None
        /\ OrderExtractor.DeliveryDetails.preferred_time d = None
        /\ OrderExtractor.DeliveryDetails.contact_name d
           = OrderExtractor.ParsedIntentDict.customer_name intent
        /\ OrderExtractor.DeliveryDetails.contact_phone d
           = OrderExtractor.ParsedIntentDict.contact_info intent).
Proof.
  unfold OrderExtractor.extract.
  destruct (OrderExtractor._extract_items intent matched) as [items|e];
    cbn [Py.bind]; [|discriminate].
  destruct (OrderExtractor._check_confirmation_needs intent items
              (OrderExtractor._extract_delivery intent)) as [needs notes] eqn:E.
  intros [= <-].
  cbn [OrderExtractor.ExtractedOrder.delivery
       OrderExtractor.ExtractedOrder.needs_confirmation
       OrderExtractor.ExtractedOrder.confirmation_notes].
  split; [apply extract_delivery_none|]. split.
  - intros Hd. rewrite Hd in E. split.
    + change needs with (fst (needs, notes)). rewrite <- E.
      rewrite check_confirmation_flag. cbn. now rewrite orb_true_r.
    + change notes with (snd (needs, notes)). rewrite <- E.
      apply check_confirmation_notes_delivery.
  - apply extract_delivery_some.
Qed.

Lemma X17_delivery_details_witness :
  exists order,
    OrderExtractor.extract (OrderExtractor.init None None) Sample.fresh
      (Sample.intent [Sample.mention "acorn fan" (Some 2%Z)] (5 # 10))
      [Sample.matched 199 (9 # 10)] "2 acorn fans" = Py.Ok order
    /\ OrderExtractor.ExtractedOrder.needs_confirmation order = true
    /\ In "Delivery address required"%string
          (OrderExtractor.ExtractedOrder.confirmation_notes order).
Proof.
  eexists. split; [vm_compute; reflexivity|].
  apply (X17_delivery_details_come_from_the_address
           (OrderExtractor.init None None) Sample.fresh
           (Sample.intent [Sample.mention "acorn fan" (Some 2%Z)] (5 # 10))
           [Sample.matched 199 (9 # 10)] "2 acorn fans" _ eq_refl).
  reflexivity.
Defined.

Section Dictionaries.
Import Py Spec OrderExtractor.

Lemma delivery_details_of_asdict (d : DeliveryDetails.t) :
  delivery_details_of (delivery_asdict d) = Ok d.
Proof.
  destruct d as [a c [pc|] [cn|] [cp|] [pd|] [pt|] [i|]]; reflexivity.
Qed.

Lemma assoc_In (k : string) (v : value) (d : dict) :
  In (k, v) d -> exists v', assoc k d = Some v'.
Proof.
  induction d as [|[k' v'] d IH]; [contradiction|].
  intros [[= -> ->]|H]; cbn.
  - rewrite String.eqb_refl. now exists v.
  - destruct (String.eqb k k'); [now exists v'|now apply IH].
Qed.

Lemma delivery_details_of_other_key (d : dict) (k : string) (v : value) :
  In (k, v) d -> mem k DELIVERY_FIELDS = false ->
  delivery_details_of d = Raise TypeError.
Proof.
  intros Hin Hk. unfold delivery_details_of.
  assert (E : forallb (fun kv => mem (fst kv) DELIVERY_FIELDS) d = false).
  { destruct (forallb _ d) eqn:F; [|reflexivity].
    rewrite forallb_forall in F. specialize (F _ Hin). cbn [fst] in F.
    congruence. }
  now rewrite E.
Qed.

End Dictionaries.

(** X18.  [from_dict] undoes [to_dict]: an order written to its dictionary
    and read back is the same order, with or without delivery details. *)
Theorem X18_from_dict_inverts_to_dict (order : OrderExtractor.ExtractedOrder.t) :
  OrderExtractor.from_dict (OrderExtractor.to_dict order) = Py.Ok order.
Proof.
  destruct order as [id items s [d|] cn cc raw conf nc notes created st];
    unfold OrderExtractor.from_dict, OrderExtractor.to_dict;
    cbn [OrderExtractor.OrderDict.delivery
         OrderExtractor.ExtractedOrder.delivery]; [|reflexivity].
  rewrite delivery_details_of_asdict. reflexivity.
Qed.

(** X19.  [from_dict] raises [TypeError] on a dictionary whose delivery
    entry has a key that is not a field of [DeliveryDetails]. *)
Theorem X19_from_dict_rejects_other_delivery_keys
    (data : OrderExtractor.OrderDict.t) (d : Py.dict) (k : string)
    (v : Py.value) :
  OrderExtractor.OrderDict.delivery data = Some d ->
  In (k, v) d ->
  Py.mem k OrderExtractor.DELIVERY_FIELDS = false ->
  OrderExtractor.from_dict data = Py.Raise Py.TypeError.
Proof.
  intros Hd Hin Hk. unfold OrderExtractor.from_dict. rewrite Hd.
  destruct d as [|kv d]; [contradiction|]. cbn [Py.truthy].
  now rewrite (delivery_details_of_other_key _ k v Hin Hk).
Qed.

Lemma X19_from_dict_rejects_witness :
  OrderExtractor.from_dict
    (OrderExtractor.OrderDict.set_delivery
       (OrderExtractor.to_dict
          (OrderExtractor.confirm_order
             {| OrderExtractor.ExtractedOrder.order_id := "UB-20260131-ABC123";
                OrderExtractor.ExtractedOrder.items := [];
                OrderExtractor.ExtractedOrder.summary :=
                  OrderExtractor._calculate_summary
                    (OrderExtractor.init None None) [];
                OrderExtractor.ExtractedOrder.delivery := None;
                OrderExtractor.ExtractedOrder.customer_name := None;
                OrderExtractor.ExtractedOrder.customer_contact := None;
                OrderExtractor.ExtractedOrder.raw_inquiry := "";
                OrderExtractor.ExtractedOrder.confidence_score := 0;
                OrderExtractor.ExtractedOrder.needs_confirmation := true;
                OrderExtractor.ExtractedOrder.confirmation_notes := [];
                OrderExtractor.ExtractedOrder.created_at := "";
                OrderExtractor.ExtractedOrder.status := "draft" |}))
       (MessageHandler.captured_delivery "12 Bedok North Ave 4"))
  = Py.Raise Py.TypeError.
Proof.
  apply (X19_from_dict_rejects_other_delivery_keys _
           (MessageHandler.captured_delivery "12 Bedok North Ave 4")
           "notes" (Py.VStr "12 Bedok North Ave 4")).
  - reflexivity.
  - cbn. auto.
  - reflexivity.
Defined.

Section ConfidenceRange.
Import Py Spec OrderExtractor.
Local Open Scope Q_scope.

Lemma round2_fraction (x : Q) : 0 <= x <= 1 -> 0 <= round2 x <= 1.
Proof.
  intros [Hlo Hhi]. unfold round2.
  pose proof (round_half_even_near (x * 100)) as [Nlo Nhi].
  set (n := round_half_even (x * 100)) in *.
  assert (Hn : (0 <= n <= 100)%Z).
  { split.
    - assert (L : inject_Z (-1) < inject_Z n)
        by (change (inject_Z (-1)) with (-1); lra).
      rewrite <- Zlt_Qlt in L. lia.
    - assert (L : inject_Z n < inject_Z 101)
        by (change (inject_Z 101) with 101; lra).
      rewrite <- Zlt_Qlt in L. lia. }
  destruct Hn as [H0 H1]. rewrite Zle_Qle in H0, H1.
  change (inject_Z 0) with 0 in H0. change (inject_Z 100) with 100 in H1.
  split.
  - apply Qle_shift_div_l; lra.
  - apply Qle_shift_div_r; lra.
Qed.

Lemma qsum_fractions (xs : list Q) :
  Forall (fun x => 0 <= x <= 1) xs ->
  0 <= qsum xs <= inject_Z (Z.of_nat (List.length xs)).
Proof.
  induction 1 as [|x xs [Hlo Hhi] _ [IHlo IHhi]].
  - split; apply Qle_refl.
  - rewrite qsum_cons. cbn [List.length].
    rewrite Nat2Z.inj_succ, <- Z.add_1_r, inject_Z_plus.
    change (inject_Z 1) with 1. split; lra.
Qed.

Lemma best_match_from_member (intent_brand intent_category : string)
    (matched : list MatchedProduct.t) :
  forall (best : option MatchedProduct.t) (score : Q) (m : MatchedProduct.t),
  best_match_from intent_brand intent_category matched best score
  = Ok (Some m) ->
  In m matched \/ best = Some m.
Proof.
  induction matched as [|product matched IH]; intros best score m;
    cbn [best_match_from].
  - intros [= ->]. now right.
  - match goal with
    | |- bind ?s _ = _ -> _ => destruct s as [s'|e]
    end; cbn [bind]; [|discriminate].
    destruct (Qlt_le_dec score s') as [L|G]; intros H; apply IH in H.
    + destruct H as [H|[= <-]]; [left; now right|left; now left].
    + destruct H as [H|H]; [left; now right|now right].
Qed.

Lemma extract_item_confidence (matched : list MatchedProduct.t) (i : nat)
    (mention : ProductIntentDict.t) (item : OrderItem.t) :
  extract_item matched i mention = Ok item ->
  OrderItem.match_confidence item = 0
  \/ exists m, In m matched
       /\ OrderItem.match_confidence item = MatchedProduct.match_score m.
Proof.
  unfold extract_item.
  destruct (nth_error matched i) as [m|] eqn:E; cbn [bind].
  - intros [= <-]. right. exists m. split; [|reflexivity].
    now apply nth_error_In with (1 := E).
  - destruct matched as [|m0 ms]; cbn [bind].
    + intros [= <-]. now left.
    + destruct (_find_best_match mention (m0 :: ms)) as [[m|]|e] eqn:F;
        cbn [bind]; try discriminate; intros [= <-]; [|now left].
      right. exists m. split; [|reflexivity].
      unfold _find_best_match in F.
      destruct (lower_of (ProductIntentDict.brand mention)) as [b|];
        cbn [bind] in F; [|discriminate].
      destruct (lower_of (ProductIntentDict.category mention)) as [c|];
        cbn [bind] in F; [|discriminate].
      apply best_match_from_member in F as [F|F]; [exact F|discriminate].
Qed.

Lemma extract_items_from_confidences (matched : list MatchedProduct.t)
    (mentions : list ProductIntentDict.t) :
  Forall (fun m => 0 <= MatchedProduct.match_score m <= 1) matched ->
  forall (i : nat) (items : list OrderItem.t),
  extract_items_from matched i mentions = Ok items ->
  Forall (fun x => 0 <= x <= 1) (map OrderItem.match_confidence items).
Proof.
  intros Hm.
  induction mentions as [|mention mentions IH]; intros i items; cbn.
  - intros [= <-]. constructor.
  - destruct (extract_item matched i mention) as [item|e] eqn:E;
      cbn [bind]; [|discriminate].
    destruct (extract_items_from matched (S i) mentions) as [rest|e] eqn:R;
      cbn [bind]; [|discriminate].
    intros [= <-]. cbn [map]. constructor; [|now apply IH with (1 := R)].
    apply extract_item_confidence in E as [->|(m & Hin & ->)].
    + split; [apply Qle_refl|discriminate].
    + rewrite Forall_forall in Hm. now apply Hm.
Qed.

Lemma calculate_confidence_fraction (intent : ParsedIntentDict.t)
    (items : list OrderItem.t) :
  Forall (fun x => 0 <= x <= 1) (map OrderItem.match_confidence items) ->
  0 <= ParsedIntentDict.confidence_score intent <= 1 ->
  0 <= _calculate_confidence intent items <= 1.
Proof.
  intros Hitems [Hlo Hhi]. unfold _calculate_confidence.
  destruct items as [|item items]; [split; [apply Qle_refl|discriminate]|].
  apply round2_fraction.
  pose proof (qsum_fractions _ Hitems) as [Slo Shi].
  rewrite length_map in Shi.
  set (s := qsum (map OrderItem.match_confidence (item :: items))) in *.
  set (n := inject_Z (Z.of_nat (List.length (item :: items)))) in *.
  assert (Hn : 0 < n).
  { unfold n. change 0 with (inject_Z 0). rewrite <- Zlt_Qlt.
    cbn [List.length]. lia. }
  assert (Dlo : 0 <= s / n) by (apply Qle_shift_div_l; lra).
  assert (Dhi : s / n <= 1) by (apply Qle_shift_div_r; lra).
  split; lra.
Qed.

End ConfidenceRange.

(** X20.  When the score of every candidate and the confidence of the
    intent lie between 0 and 1, so does the confidence of the order
    [extract] returns. *)
Theorem X20_order_confidence_is_a_fraction
    (self : OrderExtractor.Self) (fresh : OrderExtractor.Fresh)
    (intent : OrderExtractor.ParsedIntentDict.t)
    (matched : list ProductMatcher.MatchedProduct.t) (raw_message : string)
    (order : OrderExtractor.ExtractedOrder.t) :
  Forall (fun m => 0 <= ProductMatcher.MatchedProduct.match_score m <= 1)%Q
    matched ->
  (0 <= OrderExtractor.ParsedIntentDict.confidence_score intent <= 1)%Q ->
  OrderExtractor.extract self fresh intent matched raw_message = Py.Ok order ->
  (0 <= OrderExtractor.ExtractedOrder.confidence_score order <= 1)%Q.
Proof.
  intros Hm Hi. unfold OrderExtractor.extract, OrderExtractor._extract_items.
  destruct (OrderExtractor.extract_items_from matched 0 _) as [items|e] eqn:E;
    cbn [Py.bind]; [|discriminate].
  destruct (OrderExtractor._check_confirmation_needs _ _ _) as [needs notes].
  intros [= <-]. cbn [OrderExtractor.ExtractedOrder.confidence_score].
  apply calculate_confidence_fraction; [|exact Hi].
  now apply extract_items_from_confidences with (2 := E).
Qed.

Lemma X20_order_confidence_witness :
  exists order,
    OrderExtractor.extract (OrderExtractor.init None None) Sample.fresh
      (Sample.intent [Sample.mention "acorn fan" (Some 2%Z);
                      Sample.mention "one more" None] (5 # 10))
      [Sample.matched 199 (9 # 10)] "fans" = Py.Ok order
    /\ (0 <= OrderExtractor.ExtractedOrder.confidence_score order <= 1)%Q.
Proof.
  eexists. split; [vm_compute; reflexivity|].
  apply (X20_order_confidence_is_a_fraction
           (OrderExtractor.init None None) Sample.fresh
           (Sample.intent [Sample.mention "acorn fan" (Some 2%Z);
                           Sample.mention "one more" None] (5 # 10))
           [Sample.matched 199 (9 # 10)] "fans").
  - constructor; [|constructor]. split; discriminate.
  - split; discriminate.
  - reflexivity.
Defined.

(** ** message_handler.py *)

Section Returning.
Import Py Spec.
Variable ratio : string -> string -> Q.

Lemma to_matched_product_priced (product : ProductMatcher.Product.t)
    (score : Q) (reason : list ProductMatcher.Reason) :
  ProductMatcher.priced product = true ->
  exists m, ProductMatcher._to_matched_product product score reason = Ok m.
Proof.
  unfold ProductMatcher.priced, ProductMatcher._to_matched_product.
  destruct (match ProductMatcher.Product.price_numeric product with
            | Some p => _ | None => _ end) as [price|e];
    cbn [bind]; [|discriminate].
  destruct (match ProductMatcher.Product.original_price product with
            | Some s => _ | None => _ end) as [original|e];
    cbn [bind]; [|discriminate].
  intros _. eexists. reflexivity.
Qed.

Lemma mapM_returns {A B} (f : A -> Result B) (l : list A) :
  Forall (fun x => exists y, f x = Ok y) l -> exists l', mapM f l = Ok l'.
Proof.
  induction 1 as [|x l (y & Hy) _ (l' & Hl)]; cbn.
  - now exists [].
  - rewrite Hy, Hl. cbn [bind]. now exists (y :: l').
Qed.

Lemma match_returns (catalog : list ProductMatcher.Product.t)
    (query : string) (brand category : option string) (max_results : Z)
    (min_score : Q) :
  forallb ProductMatcher.priced catalog = true ->
  exists r,
    ProductMatcher.match_ ratio catalog query brand category max_results
      min_score = Ok r.
Proof.
  intros Hp. unfold ProductMatcher.match_.
  destruct catalog as [|p0 ps] eqn:Ec; [eexists; reflexivity|].
  rewrite <- Ec in *.
  match goal with
  | |- context [mapM ?f ?l] => destruct (mapM_returns f l) as (l' & ->)
  end.
  - destruct (ranked_firstn ratio catalog query brand category max_results
                min_score) as (n & -> & _).
    apply firstn_Forall, sort_desc_Forall.
    unfold ProductMatcher.scored_products.
    apply Forall_forall. intros x Hx.
    apply filter_In in Hx as [Hx _].
    apply in_map_iff in Hx as (product & <- & Hin).
    destruct (ProductMatcher._score_product ratio product _ _ _) as [s r].
    apply to_matched_product_priced.
    rewrite forallb_forall in Hp. now apply Hp.
  - cbn [bind]. eexists. reflexivity.
Qed.

Lemma get_product_by_id_returns (catalog : list ProductMatcher.Product.t)
    (product_id : string) :
  forallb ProductMatcher.priced catalog = true ->
  exists r, ProductMatcher.get_product_by_id catalog product_id = Ok r.
Proof.
  intros Hp. unfold ProductMatcher.get_product_by_id.
  destruct (find _ catalog) as [product|] eqn:F; [|eexists; reflexivity].
  apply find_some in F as [Hin _].
  rewrite forallb_forall in Hp.
  destruct (to_matched_product_priced product 1
              [ProductMatcher.ExactIdMatch] (Hp _ Hin)) as (m & ->).
  cbn [bind]. eexists. reflexivity.
Qed.

Lemma extract_returns (self : OrderExtractor.Self)
    (fresh : OrderExtractor.Fresh)
    (intent : OrderExtractor.ParsedIntentDict.t)
    (matched : list ProductMatcher.MatchedProduct.t) (raw_message : string) :
  matched = []
  \/ (List.length (OrderExtractor.ParsedIntentDict.products intent)
      <= List.length matched)%nat ->
  exists order,
    OrderExtractor.extract self fresh intent matched raw_message = Ok order.
Proof.
  intros H. unfold OrderExtractor.extract, OrderExtractor._extract_items.
  assert (E : exists items,
             OrderExtractor.extract_items_from matched 0
               (OrderExtractor.ParsedIntentDict.products intent) = Ok items).
  { destruct H as [->|H].
    - destruct (extract_items_from_nothing
                  (OrderExtractor.ParsedIntentDict.products intent) 0)
        as (items & Hi & _). now exists items.
    - destruct (extract_items_from_positional matched
                  (OrderExtractor.ParsedIntentDict.products intent) 0 H)
        as (items & Hi & _). now exists items. }
  destruct E as (items & ->). cbn [bind].
  destruct (OrderExtractor._check_confirmation_needs _ _ _).
  eexists. reflexivity.
Qed.

Lemma parse_none_cases (message : string) :
  IntentParser.parse None message = Ok (IntentParser._empty_intent message)
  \/ IntentParser.parse None message = IntentParser._fallback_parse message.
Proof.
  unfold IntentParser.parse.
  destruct (negb (truthy_str message) || negb (truthy_str (strip message)));
    [now left|right].
  unfold IntentParser._call_llm. cbn [bind].
  fold (IntentParser._fallback_parse message).
  now rewrite fallback_parse_is.
Qed.

Lemma opt_str_arg_opt_str (o : option string) :
  Defaults.opt_str_arg (opt_str o) = Ok o.
Proof. now destruct o. Qed.

Lemma opt_int_arg_opt_int (o : option Z) :
  Defaults.opt_int_arg (opt_int o) = Ok o.
Proof. now destruct o. Qed.

Lemma mapM_str_arg (l : list string) :
  mapM Defaults.str_arg (map VStr l) = Ok l.
Proof.
  induction l as [|s l IH]; [reflexivity|]. cbn. now rewrite IH.
Qed.

(** The intents of the fallback parser pass the typed boundary, with one
    dictionary per mention. *)
Lemma defaults_to_dict_fallback (message : string)
    (parsed : IntentParser.ParsedIntent) :
  IntentParser._fallback_parse message = Ok parsed ->
  exists d,
    Defaults.to_dict parsed = Ok d
    /\ List.length (OrderExtractor.ParsedIntentDict.products d)
       = List.length (IntentParser.products parsed).
Proof.
  rewrite fallback_parse_is. intros [= <-].
  unfold Defaults.to_dict, Defaults.list_str_arg.
  cbn [IntentParser.products IntentParser.delivery
       IntentParser.customer_name IntentParser.contact_info
       IntentParser.confidence_score IntentParser.clarification_questions
       IntentParser.summary IntentParser.intent_type
       IntentParser.raw_message IntentParser.needs_clarification].
  rewrite mapM_str_arg.
  unfold Defaults.delivery_intent_dict.
  cbn [IntentParser.address IntentParser.date IntentParser.urgency
       IntentParser.notes].
  rewrite !opt_str_arg_opt_str.
  unfold IntentParser.fallback_products, IntentParser.fallback_mention.
  destruct (IntentParser.is_some _ || IntentParser.is_some _).
  - cbn [mapM]. unfold Defaults.product_intent_dict.
    cbn [IntentParser.raw_text IntentParser.product_name
         IntentParser.quantity IntentParser.brand IntentParser.category
         IntentParser.confidence].
    rewrite !opt_str_arg_opt_str, opt_int_arg_opt_int.
    cbn. eexists. split; reflexivity.
  - cbn. eexists. split; reflexivity.
Qed.

Section DefaultHandler.
Import MessageHandler.
Variable catalog : list ProductMatcher.Product.t.
Variable fresh : OrderExtractor.Fresh.
Hypothesis catalog_priced : forallb ProductMatcher.priced catalog = true.

Lemma default_match_returns (query : string) (brand category : option string)
    (max_results : Z) :
  exists r,
    match_ (Defaults.self ratio catalog fresh) (VStr query) (opt_str brand)
      (opt_str category) max_results = Ok r.
Proof.
  cbn [match_ Defaults.self Defaults.str_arg bind].
  rewrite !opt_str_arg_opt_str. cbn [bind].
  now apply match_returns.
Qed.

(** The candidates for the mentions of the fallback parser: none, or one
    for its one mention. *)
Lemma default_match_products_returns (message : string) :
  exists matched,
    match_products (Defaults.self ratio catalog fresh)
      (IntentParser.fallback_products message) = Ok matched
    /\ (matched = []
        \/ (List.length (IntentParser.fallback_products message)
            <= List.length matched)%nat).
Proof.
  unfold IntentParser.fallback_products, IntentParser.fallback_mention.
  destruct (IntentParser.is_some _ || IntentParser.is_some _).
  - cbn [match_products IntentParser.raw_text IntentParser.brand
         IntentParser.category].
    destruct (default_match_returns message
                (IntentParser.detect_brand (lower message))
                (IntentParser.detect_category (lower message)) 3)
      as (r & ->).
    cbn [bind]. destruct (MatchResult.matches r) as [|best rest].
    + exists []. split; [reflexivity|now left].
    + exists [best]. split; [reflexivity|right; cbn; lia].
  - exists []. split; [reflexivity|now left].
Qed.

Lemma default_new_inquiry_returns (context : ConversationContext)
    (message : string) :
  exists r,
    snd (_handle_new_inquiry (Defaults.self ratio catalog fresh) context
           message) = Ok r.
Proof.
  unfold _handle_new_inquiry.
  change (parse (Defaults.self ratio catalog fresh) message)
    with (IntentParser.parse None message).
  destruct (parse_none_cases message) as [->| ->].
  { cbn. eexists. reflexivity. }
  destruct (IntentParser._fallback_parse message) as [parsed|e] eqn:P;
    [|now rewrite fallback_parse_is in P].
  destruct (defaults_to_dict_fallback message parsed P) as (d & Hd & Hlen).
  assert (Hp : IntentParser.products parsed
               = IntentParser.fallback_products message).
  { rewrite fallback_parse_is in P. now injection P as <-. }
  destruct (default_match_products_returns message) as (matched & Hm & Hl).
  rewrite <- Hp in Hm, Hl. rewrite <- Hlen in Hl.
  destruct (extract_returns (OrderExtractor.init None None) fresh d matched
              message Hl) as (order & Ho).
  assert (He : extract (Defaults.self ratio catalog fresh) parsed matched
                 message = Ok order).
  { cbn [extract Defaults.self]. rewrite Hd. cbn [bind]. exact Ho. }
  destruct (IntentParser.intent_type parsed);
    try (eexists; reflexivity);
    rewrite Hm, He;
    destruct (ExtractedOrder.needs_confirmation order
              && OrderExtractor.nonempty
                   (ExtractedOrder.confirmation_notes order));
    eexists; reflexivity.
Qed.

Lemma default_product_selection_returns (context : ConversationContext)
    (message : string) :
  exists r,
    snd (_handle_product_selection (Defaults.self ratio catalog fresh)
           context message) = Ok r.
Proof.
  unfold _handle_product_selection.
  destruct (default_match_returns message None None 5) as (r & Hr).
  cbn [opt_str] in Hr.
  assert (S : exists r',
             snd (match match_ (Defaults.self ratio catalog fresh)
                          (VStr message) VNone VNone 5 with
                  | Raise e => (context, Raise e)
                  | Ok result =>
                      match MatchResult.matches result with
                      | _ :: _ =>
                          (context,
                           Ok (send_products
                                 (map (fun m => (MatchedProduct.product_id m,
                                                 MatchedProduct.clean_name m,
                                                 MatchedProduct.price m))
                                      (MatchResult.matches result))
                                 ("Found "
                                  ++ str_of_nat (MatchResult.total_found result)
                                  ++ " products matching '" ++ message
                                  ++ "':")%string))
                      | [] =>
                          (context,
                           Ok (send_text
                                 ("Sorry, I couldn't find any products matching '"
                                  ++ message ++ "'. "
                                  ++ "Please try a different search term or browse our catalog.")%string))
                      end
                  end) = Ok r').
  { rewrite Hr. destruct (MatchResult.matches r); eexists; reflexivity. }
  destruct (startswith message "product_"); [|exact S].
  change (get_product_by_id (Defaults.self ratio catalog fresh))
    with (ProductMatcher.get_product_by_id catalog).
  destruct (get_product_by_id_returns catalog
              (replace "product_" "" message) catalog_priced) as (o & ->).
  destruct o as [product|]; [eexists; reflexivity|exact S].
Qed.

Lemma quantity_input_returns (context : ConversationContext)
    (message : string) :
  exists r, snd (_handle_quantity_input context message) = Ok r.
Proof.
  unfold _handle_quantity_input.
  destruct (int_of_str (strip message)) as [quantity|e];
    [destruct (quantity <=? 0)%Z|]; eexists; reflexivity.
Qed.

Lemma confirmation_returns (context : ConversationContext)
    (message : string) (order : OrderDict.t) :
  extracted_order context = Some order ->
  exists r, snd (_handle_confirmation context message) = Ok r.
Proof.
  intros Ho. unfold _handle_confirmation. rewrite Ho.
  destruct (mem _ confirm_synonyms);
    [destruct (lacks_delivery order); eexists; reflexivity|].
  repeat (match goal with
          | |- context [if mem ?a ?b then _ else _] => destruct (mem a b)
          end; [eexists; reflexivity|]).
  eexists; reflexivity.
Qed.

Lemma delivery_info_returns (context : ConversationContext)
    (message : string) (order : OrderDict.t) :
  extracted_order context = Some order ->
  exists r, snd (_handle_delivery_info context message) = Ok r.
Proof.
  intros Ho. unfold _handle_delivery_info. rewrite Ho. cbn.
  eexists. reflexivity.
Qed.

Lemma default_route_returns (context : ConversationContext)
    (message : string) :
  session_invariant context ->
  exists r,
    snd (route (Defaults.self ratio catalog fresh) context message) = Ok r.
Proof.
  intros [Hd _]. unfold route.
  destruct (state context) eqn:Hs; cbn [needs_draft] in Hd;
    try apply default_new_inquiry_returns.
  - apply default_product_selection_returns.
  - apply quantity_input_returns.
  - destruct (Hd eq_refl) as (order & Ho).
    now apply confirmation_returns with (order := order).
  - destruct (Hd eq_refl) as (order & Ho).
    now apply delivery_info_returns with (order := order).
Qed.

Lemma default_handle_message_returns (utcnow : string) (cs : Conversations)
    (phone_number message : string) :
  (forall k c, cs k = Some c -> session_invariant c) ->
  exists r,
    snd (handle_message (Defaults.self ratio catalog fresh) utcnow cs
           phone_number message) = Ok r.
Proof.
  intros Hcs. unfold handle_message, _get_or_create_context.
  destruct (cs phone_number) as [c0|] eqn:E.
  - destruct (default_route_returns (set_last_message_at c0 (Some utcnow))
                message) as (r & Hr).
    { destruct (Hcs _ _ E) as [H1 H2]. split; [exact H1|exact H2]. }
    destruct (route _ _ message) as [c1 r1]. now exists r.
  - match goal with
    | |- context [route ?s ?c0 message] =>
        destruct (default_route_returns c0 message) as (r & Hr);
        [split; discriminate|];
        destruct (route s c0 message) as [c1 r1]
    end.
    now exists r.
Qed.

End DefaultHandler.
End Returning.



Section Sessions.
Import Py Spec MessageHandler.

Lemma handle_message_at (self : Self) (utcnow : string) (cs : Conversations)
    (phone message : string) :
  let r := route self
             (set_last_message_at
                (snd (_get_or_create_context cs utcnow phone)) (Some utcnow))
             message in
  snd (handle_message self utcnow cs phone message) = snd r
  /\ fst (handle_message self utcnow cs phone message) phone = Some (fst r)
  /\ forall k, k <> phone ->
       fst (handle_message self utcnow cs phone message) k = cs k.
Proof.
  unfold handle_message, _get_or_create_context.
  destruct (cs phone) as [c0|] eqn:E; cbn [snd];
    match goal with
    | |- context [route self ?c message] =>
        destruct (route self c message) as [c1 r1]
    end; cbn [fst snd]; unfold store; rewrite String.eqb_refl;
    (split; [reflexivity|]); (split; [reflexivity|]);
    intros k Hk; apply String.eqb_neq in Hk; now rewrite ?Hk.
Qed.

Lemma get_or_create_context_local (utcnow : string) (cs cs' : Conversations)
    (phone : string) :
  cs phone = cs' phone ->
  snd (_get_or_create_context cs utcnow phone)
  = snd (_get_or_create_context cs' utcnow phone).
Proof.
  intros E. unfold _get_or_create_context. rewrite <- E.
  now destruct (cs phone).
Qed.

Lemma handle_message_local (self : Self) (utcnow : string)
    (cs cs' : Conversations) (phone message : string) :
  cs phone = cs' phone ->
  snd (handle_message self utcnow cs phone message)
  = snd (handle_message self utcnow cs' phone message)
  /\ fst (handle_message self utcnow cs phone message) phone
     = fst (handle_message self utcnow cs' phone message) phone.
Proof.
  intros E.
  destruct (handle_message_at self utcnow cs phone message) as (-> & -> & _).
  destruct (handle_message_at self utcnow cs' phone message) as (-> & -> & _).
  now rewrite (get_or_create_context_local utcnow cs cs' phone E).
Qed.

End Sessions.

(** X22.  Sessions do not interfere: a message of one phone number leaves
    the session of every other number as it was, and the response to it and
    the session it leaves depend on the sender's own session only. *)
Theorem X22_sessions_do_not_interfere
    (self : MessageHandler.Self) (utcnow : string)
    (cs cs' : MessageHandler.Conversations) (phone_number message : string) :
  cs phone_number = cs' phone_number ->
  snd (MessageHandler.handle_message self utcnow cs phone_number message)
  = snd (MessageHandler.handle_message self utcnow cs' phone_number message)
  /\ fst (MessageHandler.handle_message self utcnow cs phone_number message)
       phone_number
     = fst (MessageHandler.handle_message self utcnow cs' phone_number
              message) phone_number
  /\ forall other,
       other <> phone_number ->
       fst (MessageHandler.handle_message self utcnow cs phone_number message)
         other = cs other.
Proof.
  intros E.
  destruct (handle_message_local self utcnow cs cs' phone_number message E)
    as [H1 H2].
  split; [exact H1|]. split; [exact H2|].
  apply handle_message_at.
Qed.

Lemma X22_sessions_witness :
  let cs :=
    fst (MessageHandler.handle_message Sample.handler "2026-01-31T08:00:00"
           MessageHandler.no_conversations "+6598765432" "3 spin fans") in
  snd (MessageHandler.handle_message Sample.handler "2026-01-31T08:05:00"
         cs "+6591234567" "2 hoods")
  = snd (MessageHandler.handle_message Sample.handler "2026-01-31T08:05:00"
           MessageHandler.no_conversations "+6591234567" "2 hoods")
  /\ fst (MessageHandler.handle_message Sample.handler "2026-01-31T08:05:00"
            cs "+6591234567" "2 hoods") "+6598765432"
     = cs "+6598765432".
Proof.
  intros cs.
  destruct (X22_sessions_do_not_interfere Sample.handler
              "2026-01-31T08:05:00" cs MessageHandler.no_conversations
              "+6591234567" "2 hoods" eq_refl) as (H1 & _ & H3).
  split; [exact H1|]. apply H3. discriminate.
Defined.

(** X23.  [reset_context] forgets a session and nothing else: the next
    message of that number is answered as the first message of a number
    never seen, and the sessions of the other numbers are kept. *)
Theorem X23_a_reset_session_starts_afresh
    (self : MessageHandler.Self) (utcnow : string)
    (cs : MessageHandler.Conversations) (phone_number message : string) :
  snd (MessageHandler.handle_message self utcnow
         (MessageHandler.reset_context cs phone_number) phone_number message)
  = snd (MessageHandler.handle_message self utcnow
           MessageHandler.no_conversations phone_number message)
  /\ fst (MessageHandler.handle_message self utcnow
            (MessageHandler.reset_context cs phone_number) phone_number
            message) phone_number
     = fst (MessageHandler.handle_message self utcnow
              MessageHandler.no_conversations phone_number message)
         phone_number
  /\ forall other,
       other <> phone_number ->
       MessageHandler.reset_context cs phone_number other = cs other.
Proof.
  assert (E : MessageHandler.reset_context cs phone_number phone_number
              = MessageHandler.no_conversations phone_number).
  { unfold MessageHandler.reset_context, MessageHandler.remove.
    now rewrite String.eqb_refl. }
  destruct (handle_message_local self utcnow _ _ phone_number message E)
    as [H1 H2].
  split; [exact H1|]. split; [exact H2|].
  intros other Ho. unfold MessageHandler.reset_context, MessageHandler.remove.
  apply String.eqb_neq in Ho. now rewrite Ho.
Qed.

Lemma X23_a_reset_session_witness :
  let cs :=
    fst (MessageHandler.handle_message Sample.handler "2026-01-31T08:00:00"
           MessageHandler.no_conversations "+6598765432" "3 spin fans") in
  MessageHandler.reset_context cs "+6591234567" "+6598765432"
  = cs "+6598765432".
Proof.
  intros cs.
  apply (proj2 (proj2 (X23_a_reset_session_starts_afresh Sample.handler
                         "2026-01-31T08:05:00" cs "+6591234567" "2 hoods"))).
  discriminate.
Defined.

Section Frames.
Import Py Spec MessageHandler.

Ltac handler_cases :=
  cbv beta zeta;
  repeat match goal with
         | |- context [match ?x with _ => _ end] => destruct x eqn:?
         end.

(** No handler assigns the fields a session is opened with, and none
    assigns the state [COMPLETED]. *)
Lemma route_frame (self : Self) (c : ConversationContext) (message : string) :
  same_session (fst (route self c message)) c
  /\ state (fst (route self c message)) <> COMPLETED.
Proof.
  unfold route, same_session.
  destruct (state c) eqn:Hs;
    unfold _handle_new_inquiry, _handle_product_selection,
      _handle_quantity_input, _handle_confirmation, _handle_delivery_info;
    handler_cases; cbn; rewrite ?Hs; repeat split; discriminate.
Qed.

(** Where the order of a session comes from: the order it held, but for
    the delivery entry, or an order the extractor has just returned. *)
Lemma route_orders (self : Self) (c : ConversationContext) (message : string)
    (order' : OrderDict.t) :
  extracted_order (fst (route self c message)) = Some order' ->
  (exists order,
     extracted_order c = Some order /\ same_but_delivery order order')
  \/ (exists parsed matched order,
        extract self parsed matched message = Ok order
        /\ order' = OrderExtractor.to_dict order).
Proof.
  destruct (extracted_order c) as [o|] eqn:Eo; unfold route;
    destruct (state c) eqn:Hs;
    unfold _handle_new_inquiry, _handle_product_selection,
      _handle_quantity_input, _handle_confirmation, _handle_delivery_info;
    rewrite ?Eo; handler_cases; cbn; rewrite ?Eo; intros Ho;
    try discriminate;
    try (right; injection Ho as <-; eauto; fail);
    left; injection Ho as <-; eexists; (split; reflexivity).
Qed.

(** In the four states between the inquiry and the confirmation no order
    is extracted, and the order goes away on a cancellation only. *)
Lemma route_keeps_the_order (self : Self) (c : ConversationContext)
    (message : string) (order : OrderDict.t) :
  needs_draft (state c) = true ->
  state c <> ORDER_CONFIRMED ->
  extracted_order c = Some order ->
  (exists order',
     extracted_order (fst (route self c message)) = Some order'
     /\ same_but_delivery order order')
  \/ (extracted_order (fst (route self c message)) = None
      /\ state (fst (route self c message)) = IDLE).
Proof.
  intros Hn Hc Ho. unfold route.
  destruct (state c) eqn:Hs; try discriminate; try (now elim Hc);
    unfold _handle_product_selection, _handle_quantity_input,
      _handle_confirmation, _handle_delivery_info;
    rewrite ?Ho; handler_cases; cbn; rewrite ?Ho;
    first [left; eexists; split; reflexivity | right; split; reflexivity].
Qed.

(** Only the confirmation handler confirms, and it hands out the order of
    the session. *)
Lemma route_confirms (self : Self) (c : ConversationContext) (message : string)
    (order_id text : string) (order : OrderDict.t) :
  snd (route self c message) = Ok (order_confirmed order_id order text) ->
  state c = AWAITING_CONFIRMATION
  /\ extracted_order c = Some order
  /\ order_id = OrderDict.order_id order
  /\ lacks_delivery order = false
  /\ extracted_order (fst (route self c message)) = Some order.
Proof.
  unfold route.
  destruct (state c) eqn:Hs;
    unfold _handle_new_inquiry, _handle_product_selection,
      _handle_quantity_input, _handle_confirmation, _handle_delivery_info;
    handler_cases; cbn; intros H; try discriminate.
  injection H as <- <- _. repeat split; assumption.
Qed.

Lemma defaults_drafts (ratio : string -> string -> Q)
    (catalog : list ProductMatcher.Product.t) (fresh : OrderExtractor.Fresh) :
  drafts (Defaults.self ratio catalog fresh).
Proof.
  intros parsed matched message order. cbn [extract Defaults.self].
  destruct (Defaults.to_dict parsed) as [d|e]; cbn [bind]; [|discriminate].
  unfold OrderExtractor.extract.
  destruct (OrderExtractor._extract_items d matched) as [items|e];
    cbn [bind]; [|discriminate].
  destruct (OrderExtractor._check_confirmation_needs _ _ _).
  now intros [= <-].
Qed.

(** What the handling of a message keeps of the session of the sender,
    be it stored or new, holds of every stored session. *)
Lemma reachable_with_invariant (allowed : Self -> Prop)
    (P : string -> ConversationContext -> Prop) :
  (forall self cs utcnow k message,
     allowed self ->
     (forall c, cs k = Some c -> P k c) ->
     P k (fst (route self
                 (set_last_message_at
                    (snd (_get_or_create_context cs utcnow k)) (Some utcnow))
                 message))) ->
  forall cs, reachable_with allowed cs ->
  forall k c, cs k = Some c -> P k c.
Proof.
  intros Hroute.
  induction 1 as [|self utcnow cs phone message Hself _ IH|cs phone _ IH];
    intros k c.
  - discriminate.
  - destruct (handle_message_at self utcnow cs phone message)
      as (_ & Hat & Hother).
    destruct (String.eqb_spec k phone) as [->|Hk].
    + rewrite Hat. intros [= <-]. apply Hroute; [exact Hself|apply IH].
    + rewrite (Hother k Hk). apply IH.
  - unfold reset_context, remove.
    destruct (String.eqb k phone); [discriminate|apply IH].
Qed.

Lemma reachable_with_any (cs : Conversations) :
  reachable cs -> reachable_with (fun _ => True) cs.
Proof.
  induction 1; constructor; auto.
Qed.

Lemma reachable_with_reachable (allowed : Self -> Prop) (cs : Conversations) :
  reachable_with allowed cs -> reachable cs.
Proof.
  induction 1; constructor; auto.
Qed.

Lemma stored_sessions (cs : Conversations) :
  reachable cs ->
  forall k c, cs k = Some c ->
    phone_number c = k
    /\ (exists t, last_message_at c = Some t)
    /\ current_item_index c = 0%Z
    /\ state c <> COMPLETED.
Proof.
  intros H. apply reachable_with_any in H. revert H.
  apply (reachable_with_invariant (fun _ => True)
           (fun k c => phone_number c = k
                       /\ (exists t, last_message_at c = Some t)
                       /\ current_item_index c = 0%Z
                       /\ state c <> COMPLETED)).
  intros self cs0 utcnow k message _ IH.
  unfold _get_or_create_context.
  destruct (cs0 k) as [c0|] eqn:E; cbn [snd];
    match goal with
    | |- context [route self ?c0 message] =>
        destruct (route_frame self c0 message) as [(F1 & _ & F3 & F4) F5]
    end;
    rewrite F1, F3, F4; cbn.
  - destruct (IH c0 eq_refl) as (Hp & _ & Hi & _).
    repeat split; try assumption. now exists utcnow.
  - repeat split; try assumption. now exists utcnow.
Qed.

Lemma stored_orders_are_drafts (cs : Conversations) :
  reachable_with drafts cs ->
  forall k c order,
    cs k = Some c -> extracted_order c = Some order ->
    OrderDict.status order = "draft"%string.
Proof.
  intros H k c order Hc. revert order. revert H k c Hc.
  apply (reachable_with_invariant drafts
           (fun _ c => forall order,
              extracted_order c = Some order ->
              OrderDict.status order = "draft"%string)).
  intros self cs0 utcnow k message Hself IH order' Ho.
  apply route_orders in Ho
    as [(order & Ho & Hsame)|(parsed & matched & order & He & ->)].
  - cbn [extracted_order set_last_message_at] in Ho.
    unfold _get_or_create_context in Ho.
    destruct (cs0 k) as [c0|] eqn:E; cbn in Ho; [|discriminate].
    rewrite <- (IH c0 eq_refl order Ho).
    unfold same_but_delivery in Hsame.
    apply (f_equal OrderDict.status) in Hsame. now cbn in Hsame.
  - cbn. now apply (Hself _ _ _ _ He).
Qed.

End Frames.

(** X24.  Of every session a handler holds: it is stored under its own
    phone number, it carries the time of a message, its item index is
    still 0, and it is not in the state [COMPLETED], which no handler
    assigns. *)
Theorem X24_what_every_stored_session_satisfies
    (cs : MessageHandler.Conversations) (phone_number : string)
    (context : MessageHandler.ConversationContext) :
  MessageHandler.reachable cs ->
  cs phone_number = Some context ->
  MessageHandler.phone_number context = phone_number
  /\ (exists t, MessageHandler.last_message_at context = Some t)
  /\ MessageHandler.current_item_index context = 0%Z
  /\ MessageHandler.state context <> MessageHandler.COMPLETED.
Proof.
  intros Hr Hc. now apply stored_sessions with (cs := cs).
Qed.

Lemma X24_stored_session_witness :
  exists context,
    fst (MessageHandler.handle_message Sample.handler "2026-01-31T08:00:00"
           MessageHandler.no_conversations "+6591234567" "where is my order")
      "+6591234567" = Some context
    /\ MessageHandler.phone_number context = "+6591234567"
    /\ MessageHandler.state context <> MessageHandler.COMPLETED.
Proof.
  eexists. split; [vm_compute; reflexivity|].
  match goal with
  | |- MessageHandler.phone_number ?c = _ /\ _ =>
      destruct (X24_what_every_stored_session_satisfies
                  (fst (MessageHandler.handle_message Sample.handler
                          "2026-01-31T08:00:00"
                          MessageHandler.no_conversations "+6591234567"
                          "where is my order"))
                  "+6591234567" c) as (H1 & _ & _ & H4)
  end.
  - apply MessageHandler.reachable_by_message,
      MessageHandler.reachable_initially.
  - vm_compute. reflexivity.
  - split; [exact H1|exact H4].
Defined.

(** X25.  Between the inquiry and the confirmation the order of a session
    does not change.  In the states [AWAITING_PRODUCT_SELECTION],
    [AWAITING_QUANTITY], [AWAITING_CONFIRMATION] and
    [AWAITING_DELIVERY_INFO], whatever the message and the collaborators,
    the session then holds the same order but for its delivery entry, or no
    order and the state [IDLE]: the products selected and the quantities
    typed do not reach the order. *)
Theorem X25_the_order_is_fixed_by_the_inquiry
    (self : MessageHandler.Self) (utcnow : string)
    (cs : MessageHandler.Conversations) (phone_number message : string)
    (context : MessageHandler.ConversationContext)
    (order : OrderExtractor.OrderDict.t) :
  cs phone_number = Some context ->
  Spec.needs_draft (MessageHandler.state context) = true ->
  MessageHandler.state context <> MessageHandler.ORDER_CONFIRMED ->
  MessageHandler.extracted_order context = Some order ->
  exists context',
    fst (MessageHandler.handle_message self utcnow cs phone_number message)
      phone_number = Some context'
    /\ ((exists order',
           MessageHandler.extracted_order context' = Some order'
           /\ Spec.same_but_delivery order order')
        \/ (MessageHandler.extracted_order context' = None
            /\ MessageHandler.state context' = MessageHandler.IDLE)).
Proof.
  intros Hc Hn Hs Ho.
  destruct (handle_message_at self utcnow cs phone_number message)
    as (_ & Hat & _).
  eexists. split; [exact Hat|].
  unfold MessageHandler._get_or_create_context. rewrite Hc. cbn [snd].
  now apply route_keeps_the_order.
Qed.

Lemma X25_the_order_is_fixed_witness :
  let cs :=
    fst (MessageHandler.handle_message Sample.handler "2026-01-31T08:00:00"
           MessageHandler.no_conversations "+6591234567"
           "5 acorn fans please") in
  exists context order context',
    cs "+6591234567" = Some context
    /\ MessageHandler.extracted_order context = Some order
    /\ fst (MessageHandler.handle_message Sample.handler
              "2026-01-31T08:05:00" cs "+6591234567" "modify")
         "+6591234567" = Some context'
    /\ ((exists order',
           MessageHandler.extracted_order context' = Some order'
           /\ Spec.same_but_delivery order order')
        \/ (MessageHandler.extracted_order context' = None
            /\ MessageHandler.state context' = MessageHandler.IDLE)).
Proof.
  intros cs.
  assert (E : exists context order,
             cs "+6591234567" = Some context
             /\ MessageHandler.extracted_order context = Some order
             /\ Spec.needs_draft (MessageHandler.state context) = true
             /\ MessageHandler.state context
                <> MessageHandler.ORDER_CONFIRMED).
  { vm_compute. eexists. eexists.
    split; [reflexivity|]. split; [reflexivity|].
    split; [reflexivity|discriminate]. }
  destruct E as (context & order & Hc & Ho & Hn & Hs).
  destruct (X25_the_order_is_fixed_by_the_inquiry Sample.handler
              "2026-01-31T08:05:00" cs "+6591234567" "modify" context order
              Hc Hn Hs Ho) as (context' & Hc' & H).
  exists context, order, context'.
  split; [exact Hc|]. split; [exact Ho|]. split; [exact Hc'|exact H].
Defined.

(** X26.  The order handed out on confirmation is still a draft.  When the
    extractor returns draft orders, as [OrderExtractor.extract] does, every
    [order_confirmed] response carries the order of the session with the
    status [draft], and that is what the session keeps: the handler does
    not call [confirm_order]. *)
Theorem X26_a_confirmed_order_is_still_a_draft
    (self : MessageHandler.Self) (utcnow : string)
    (cs : MessageHandler.Conversations) (phone_number message : string)
    (order_id text : string) (order : OrderExtractor.OrderDict.t) :
  MessageHandler.reachable_with Spec.drafts cs ->
  snd (MessageHandler.handle_message self utcnow cs phone_number message)
  = Py.Ok (MessageHandler.order_confirmed order_id order text) ->
  OrderExtractor.OrderDict.status order = "draft"%string
  /\ order_id = OrderExtractor.OrderDict.order_id order
  /\ exists context',
       fst (MessageHandler.handle_message self utcnow cs phone_number message)
         phone_number = Some context'
       /\ MessageHandler.extracted_order context' = Some order.
Proof.
  intros Hr.
  destruct (handle_message_at self utcnow cs phone_number message)
    as (-> & Hat & _).
  intros H. apply route_confirms in H as (_ & Ho & Hid & _ & Ho').
  split; [|split; [exact Hid|eexists; split; [exact Hat|exact Ho']]].
  cbn [MessageHandler.extracted_order MessageHandler.set_last_message_at]
    in Ho.
  unfold MessageHandler._get_or_create_context in Ho.
  destruct (cs phone_number) as [c0|] eqn:E; cbn in Ho; [|discriminate].
  now apply (stored_orders_are_drafts cs Hr phone_number c0 order E Ho).
Qed.

Lemma X26_a_confirmed_order_witness :
  let cs :=
    fst (MessageHandler.handle_message Sample.handler "2026-01-31T08:00:00"
           MessageHandler.no_conversations "+6591234567"
           "10 acorn fans for bedok") in
  exists order_id order text,
    snd (MessageHandler.handle_message Sample.handler "2026-01-31T08:05:00"
           cs "+6591234567" "yes")
    = Py.Ok (MessageHandler.order_confirmed order_id order text)
    /\ OrderExtractor.OrderDict.status order = "draft"%string.
Proof.
  intros cs.
  assert (Hr : MessageHandler.reachable_with Spec.drafts cs).
  { apply MessageHandler.with_message; [apply defaults_drafts|].
    apply MessageHandler.with_none. }
  pose proof (X26_a_confirmed_order_is_still_a_draft Sample.handler
                "2026-01-31T08:05:00" cs "+6591234567" "yes") as H.
  destruct (snd (MessageHandler.handle_message Sample.handler
                   "2026-01-31T08:05:00" cs "+6591234567" "yes"))
    as [[m|m b|p m|order_id order text]|e] eqn:E;
    try (exfalso; revert E; unfold cs; vm_compute; discriminate).
  exists order_id, order, text. split; [reflexivity|].
  now apply (H order_id text order Hr eq_refl).
Defined.

(** X27.  An order on which [_handle_delivery_info] has stored the
    delivery cannot be read back: the entry it stores has the key [notes],
    which is no field of [DeliveryDetails], so that [from_dict] raises
    [TypeError] on the order of the session, whatever the message was. *)
Theorem X27_a_captured_delivery_cannot_be_read_back
    (context : MessageHandler.ConversationContext) (message : string)
    (order : OrderExtractor.OrderDict.t) :
  MessageHandler.extracted_order context = Some order ->
  exists order',
    MessageHandler.extracted_order
      (fst (MessageHandler._handle_delivery_info context message))
    = Some order'
    /\ OrderExtractor.OrderDict.delivery order'
       = Some (MessageHandler.captured_delivery message)
    /\ Spec.same_but_delivery order order'
    /\ OrderExtractor.from_dict order' = Py.Raise Py.TypeError.
Proof.
  intros Ho. unfold MessageHandler._handle_delivery_info. rewrite Ho.
  cbn [MessageHandler._build_order_summary_from_dict
       MessageHandler.extracted_order MessageHandler.set_extracted_order
       MessageHandler.set_state fst].
  eexists. split; [reflexivity|]. split; [reflexivity|].
  split; [reflexivity|].
  assert (H : OrderExtractor.delivery_details_of
                (MessageHandler.captured_delivery message)
              = Py.Raise Py.TypeError).
  { apply (delivery_details_of_other_key _ "notes" (Py.VStr message));
      [cbn; auto|reflexivity]. }
  unfold OrderExtractor.from_dict.
  cbn [OrderExtractor.OrderDict.delivery OrderExtractor.OrderDict.set_delivery
       Py.truthy].
  fold (MessageHandler.captured_delivery message). now rewrite H.
Qed.

Lemma X27_a_captured_delivery_witness :
  let cs :=
    fst (MessageHandler.handle_message Sample.handler "2026-01-31T08:00:00"
           MessageHandler.no_conversations "+6591234567"
           "5 acorn fans please") in
  exists context order',
    cs "+6591234567" = Some context
    /\ MessageHandler.extracted_order
         (fst (MessageHandler._handle_delivery_info context
                 "12 Hougang Ave 1")) = Some order'
    /\ OrderExtractor.from_dict order' = Py.Raise Py.TypeError.
Proof.
  intros cs.
  assert (E : exists context order,
             cs "+6591234567" = Some context
             /\ MessageHandler.extracted_order context = Some order).
  { vm_compute. eexists. eexists. split; reflexivity. }
  destruct E as (context & order & Hc & Ho).
  destruct (X27_a_captured_delivery_cannot_be_read_back context
              "12 Hougang Ave 1" order Ho) as (order' & Ho' & _ & _ & Hf).
  exists context, order'. split; [exact Hc|]. split; [exact Ho'|exact Hf].
Defined.
